(** * MultiBussinessSupportSystem: request handlers of [app.py] over a document store

    A shallow embedding of the Flask handlers of [src/app.py] that the
    specification's testable properties talk about: booking intake
    ([api_submit], [submit_form]), the approval workflow ([approve_booking],
    [reject_booking]), the scheduled-call poller ([check_scheduled_calls],
    [trigger_voice_call]), the read API ([api_calls]), the application
    registry ([create_application]), client deletion ([delete_client]) and the
    7-day trend of the dashboards ([analytics], [system_analytics],
    [super_dashboard]).

    Documents are ordered key/value lists as pymongo hands them out, the
    database is a record of collections, and the outside world (clock,
    telephony provider, completion service, library parsers) is an explicit
    environment record.  Handlers are functions from a world to a world and an
    HTTP response. *)

From Stdlib Require Import ZArith List String Ascii Bool Lia Permutation.
From Stdlib Require Import DecimalString.
Import ListNotations.

Local Open Scope string_scope.
Local Open Scope Z_scope.

(* ================================================================== *)
(** ** Python string primitives (ASCII fragment) *)
(* ================================================================== *)

Module Py.

(** [c.isdigit()] for one character. *)
Definition isdigit (c : ascii) : bool :=
  let n := nat_of_ascii c in (48 <=? n)%nat && (n <=? 57)%nat.

Definition isupper (c : ascii) : bool :=
  let n := nat_of_ascii c in (65 <=? n)%nat && (n <=? 90)%nat.

Definition ishex (c : ascii) : bool :=
  let n := nat_of_ascii c in
  isdigit c || ((65 <=? n)%nat && (n <=? 70)%nat)
            || ((97 <=? n)%nat && (n <=? 102)%nat).

(** [c.isspace()] on the ASCII range, the characters that [str.strip()]
    removes: tab to carriage return, the four separators 0x1C to 0x1F, and
    the space. *)
Definition isspace (c : ascii) : bool :=
  let n := nat_of_ascii c in
  (n =? 32)%nat || ((9 <=? n)%nat && (n <=? 13)%nat)
  || ((28 <=? n)%nat && (n <=? 31)%nat).

Definition lower_ascii (c : ascii) : ascii :=
  if isupper c then ascii_of_nat (nat_of_ascii c + 32) else c.

(** [s.lower()] *)
Fixpoint lower (s : string) : string :=
  match s with
  | EmptyString => EmptyString
  | String c t => String (lower_ascii c) (lower t)
  end.

(** [s.startswith(p)] *)
Definition startswith (p s : string) : bool := String.prefix p s.

(** [sub in s] for strings. *)
Fixpoint contains (sub s : string) : bool :=
  String.prefix sub s ||
  match s with
  | EmptyString => false
  | String _ t => contains sub t
  end.

(** [len(s)] *)
Definition len (s : string) : Z := Z.of_nat (String.length s).

Fixpoint filter (p : ascii -> bool) (s : string) : string :=
  match s with
  | EmptyString => EmptyString
  | String c t => if p c then String c (filter p t) else filter p t
  end.

(** [any(p(c) for c in s)] *)
Fixpoint any (p : ascii -> bool) (s : string) : bool :=
  match s with
  | EmptyString => false
  | String c t => p c || any p t
  end.

Fixpoint all (p : ascii -> bool) (s : string) : bool :=
  match s with
  | EmptyString => true
  | String c t => p c && all p t
  end.

(** ["".join(filter(str.isdigit, s))] *)
Definition digits_of (s : string) : string := filter isdigit s.

(** [s.replace(c, "")] for a one-character [c]. *)
Definition remove_char (c : ascii) (s : string) : string :=
  filter (fun x => negb (Ascii.eqb x c)) s.

Fixpoint lstrip_by (p : ascii -> bool) (s : string) : string :=
  match s with
  | EmptyString => EmptyString
  | String c t => if p c then lstrip_by p t else s
  end.

Fixpoint rev_append (s acc : string) : string :=
  match s with
  | EmptyString => acc
  | String c t => rev_append t (String c acc)
  end.

Definition rev (s : string) : string := rev_append s EmptyString.

Definition strip_by (p : ascii -> bool) (s : string) : string :=
  rev (lstrip_by p (rev (lstrip_by p s))).

(** [s.strip()] *)
Definition strip (s : string) : string := strip_by isspace s.

Definition isalnum (c : ascii) : bool :=
  let n := nat_of_ascii c in
  isdigit c || isupper c || ((97 <=? n)%nat && (n <=? 122)%nat).

(** [s[:n]] *)
Fixpoint take (n : nat) (s : string) : string :=
  match n, s with
  | O, _ => EmptyString
  | _, EmptyString => EmptyString
  | S k, String c t => String c (take k t)
  end.

(** [str(n)] for an integer. *)
Definition str_of_Z (n : Z) : string := NilZero.string_of_int (Z.to_int n).

Definition digit (n : Z) : ascii := ascii_of_nat (48 + Z.to_nat n).

(** Zero-padded decimal fields of [strftime]: [%m], [%d], [%H], [%M] and
    [%Y]. *)
Definition pad2 (n : Z) : string :=
  String (digit (n / 10)) (String (digit (n mod 10)) EmptyString).

Definition pad4 (n : Z) : string :=
  String (digit (n / 1000)) (String (digit (n / 100 mod 10))
    (String (digit (n / 10 mod 10)) (String (digit (n mod 10)) EmptyString))).

Definition pad6 (n : Z) : string :=
  pad2 (n / 10000) ++ pad4 (n mod 10000).

End Py.

(* ================================================================== *)
(** ** [datetime]: naive date-times and the proleptic Gregorian calendar *)
(* ================================================================== *)

Record datetime := mkDatetime {
  year : Z; month : Z; day : Z;
  hour : Z; minute : Z; second : Z; microsecond : Z
}.

Module Calendar.

(** The helpers of CPython's [datetime.py]. *)
Definition is_leap (y : Z) : bool :=
  (y mod 4 =? 0) && (negb (y mod 100 =? 0) || (y mod 400 =? 0)).

Definition days_before_year (y : Z) : Z :=
  let p := y - 1 in p * 365 + p / 4 - p / 100 + p / 400.

(** [_DAYS_IN_MONTH] *)
Definition DAYS_IN_MONTH (m : Z) : Z :=
  match m with
  | 1 => 31 | 2 => 28 | 3 => 31 | 4 => 30 | 5 => 31 | 6 => 30
  | 7 => 31 | 8 => 31 | 9 => 30 | 10 => 31 | 11 => 30 | 12 => 31
  | _ => 0
  end.

(** [_DAYS_BEFORE_MONTH] *)
Definition DAYS_BEFORE_MONTH (m : Z) : Z :=
  match m with
  | 1 => 0 | 2 => 31 | 3 => 59 | 4 => 90 | 5 => 120 | 6 => 151
  | 7 => 181 | 8 => 212 | 9 => 243 | 10 => 273 | 11 => 304 | 12 => 334
  | _ => 0
  end.

Definition b2z (b : bool) : Z := if b then 1 else 0.

Definition days_in_month (y m : Z) : Z :=
  if (m =? 2) && is_leap y then 29 else DAYS_IN_MONTH m.

Definition days_before_month (y m : Z) : Z :=
  DAYS_BEFORE_MONTH m + b2z ((2 <? m) && is_leap y).

(** [_ymd2ord]: 0001-01-01 is day 1. *)
Definition ymd2ord (y m d : Z) : Z :=
  days_before_year y + days_before_month y m + d.

Definition DI400Y : Z := 146097.
Definition DI100Y : Z := 36524.
Definition DI4Y : Z := 1461.

(** The end of [_ord2ymd]: month and day of the [n]-th day (from 0) of a
    year, by the estimate [(n + 50) >> 5] and one correction. *)
Definition month_day (n : Z) (leapyear : bool) : Z * Z :=
  let m := Z.shiftr (n + 50) 5 in
  let preceding := DAYS_BEFORE_MONTH m + b2z ((2 <? m) && leapyear) in
  if n <? preceding then
    let m := m - 1 in
    let preceding :=
      preceding - (DAYS_IN_MONTH m + b2z ((m =? 2) && leapyear)) in
    (m, n - preceding + 1)
  else (m, n - preceding + 1).

(** [_ord2ymd] *)
Definition ord2ymd (n : Z) : Z * Z * Z :=
  let n := n - 1 in
  let n400 := n / DI400Y in
  let n := n mod DI400Y in
  let y := n400 * 400 + 1 in
  let n100 := n / DI100Y in
  let n := n mod DI100Y in
  let n4 := n / DI4Y in
  let n := n mod DI4Y in
  let n1 := n / 365 in
  let n := n mod 365 in
  let y := y + n100 * 100 + n4 * 4 + n1 in
  if (n1 =? 4) || (n100 =? 4) then (y - 1, 12, 31)
  else
    let leapyear := (n1 =? 3) && (negb (n4 =? 24) || (n100 =? 3)) in
    let '(m, d) := month_day n leapyear in
    (y, m, d).

(** What [month_day] has to satisfy on day [n] of a year. *)
Definition month_day_ok (leapyear : bool) (n : Z) : bool :=
  let '(m, d) := month_day n leapyear in
  (1 <=? m) && (m <=? 12) && (1 <=? d)
  && (d <=? DAYS_IN_MONTH m + b2z ((m =? 2) && leapyear))
  && (DAYS_BEFORE_MONTH m + b2z ((2 <? m) && leapyear) + d =? n + 1).

Definition valid_date (y m d : Z) : bool :=
  (1 <=? y) && (y <=? 9999) && (1 <=? m) && (m <=? 12)
  && (1 <=? d) && (d <=? days_in_month y m).

End Calendar.

Definition valid_datetime (t : datetime) : bool :=
  Calendar.valid_date (year t) (month t) (day t)
  && (0 <=? hour t) && (hour t <? 24)
  && (0 <=? minute t) && (minute t <? 60)
  && (0 <=? second t) && (second t <? 60)
  && (0 <=? microsecond t) && (microsecond t <? 1000000).

(** [t.toordinal()] *)
Definition toordinal (t : datetime) : Z :=
  Calendar.ymd2ord (year t) (month t) (day t).

(** [t - timedelta(days=k)]: the date moves by whole days, the time of day
    stays. *)
Definition sub_days (t : datetime) (k : Z) : datetime :=
  let '(y, m, d) := Calendar.ord2ymd (toordinal t - k) in
  mkDatetime y m d (hour t) (minute t) (second t) (microsecond t).

(** The microseconds of a day, and of [t] since the start of its day. *)
Definition DAY_MICROSECONDS : Z := 86400000000.

Definition micros_of_day (t : datetime) : Z :=
  ((hour t * 60 + minute t) * 60 + second t) * 1000000 + microsecond t.

(** [t - timedelta(microseconds=us)]; [OverflowError] (here [None]) when
    the result leaves the years 1 to 9999. *)
Definition sub_microseconds (t : datetime) (us : Z) : option datetime :=
  let total := toordinal t * DAY_MICROSECONDS + micros_of_day t - us in
  let ord := total / DAY_MICROSECONDS in
  let r := total mod DAY_MICROSECONDS in
  if (1 <=? ord) && (ord <=? 3652059) then
    let '(y, m, d) := Calendar.ord2ymd ord in
    Some (mkDatetime y m d (r / 3600000000) (r / 60000000 mod 60)
                     (r / 1000000 mod 60) (r mod 1000000))
  else None.

(** A BSON date keeps milliseconds: [microsecond // 1000] of them. *)
Definition to_millis (t : datetime) : datetime :=
  mkDatetime (year t) (month t) (day t) (hour t) (minute t) (second t)
             (microsecond t / 1000 * 1000).

(** The date that the driver writes for a [datetime] and reads back: a
    value with a UTC offset (in microseconds) is first moved to UTC, which
    can raise [OverflowError] (here [None]). *)
Definition bson_datetime (t : datetime) (utcoffset : option Z)
  : option datetime :=
  match utcoffset with
  | None => Some (to_millis t)
  | Some us => option_map to_millis (sub_microseconds t us)
  end.

(** [t.replace(year=y)]; [ValueError] (here [None]) when the day does not
    exist in the new year. *)
Definition replace_year (t : datetime) (y : Z) : option datetime :=
  if Calendar.valid_date y (month t) (day t)
  then Some (mkDatetime y (month t) (day t)
                        (hour t) (minute t) (second t) (microsecond t))
  else None.

Fixpoint lex_compare (a b : list Z) : comparison :=
  match a, b with
  | x :: a', y :: b' =>
      match Z.compare x y with
      | Eq => lex_compare a' b'
      | c => c
      end
  | [], [] => Eq
  | [], _ => Lt
  | _, [] => Gt
  end.

Definition dt_fields (t : datetime) : list Z :=
  [year t; month t; day t; hour t; minute t; second t; microsecond t].

Definition dt_compare (a b : datetime) : comparison :=
  lex_compare (dt_fields a) (dt_fields b).

(** [a <= b], [a > b], [a >= b] on naive datetimes. *)
Definition dt_leb (a b : datetime) : bool :=
  match dt_compare a b with Gt => false | _ => true end.
Definition dt_gtb (a b : datetime) : bool := negb (dt_leb a b).
Definition dt_geb (a b : datetime) : bool := dt_leb b a.

Definition dt_eqb (a b : datetime) : bool :=
  match dt_compare a b with Eq => true | _ => false end.

(** [t.strftime("%Y-%m-%d")], also MongoDB's [$dateToString] with that
    format. *)
Definition strftime_ymd (t : datetime) : string :=
  Py.pad4 (year t) ++ "-" ++ Py.pad2 (month t) ++ "-" ++ Py.pad2 (day t).

(** [t.strftime("%H:%M")] *)
Definition strftime_hm (t : datetime) : string :=
  Py.pad2 (hour t) ++ ":" ++ Py.pad2 (minute t).

(** [str(t)] *)
Definition str_of_datetime (t : datetime) : string :=
  strftime_ymd t ++ " " ++ strftime_hm t ++ ":" ++ Py.pad2 (second t)
  ++ (if microsecond t =? 0 then "" else "." ++ Py.pad6 (microsecond t)).

(* ================================================================== *)
(** ** Values and documents *)
(* ================================================================== *)

(** Scalars of BSON/JSON as the handlers meet them.  An [ObjectId] carries
    its 24 lower-case hexadecimal digits. *)
Inductive scalar :=
| SNone
| SBool (b : bool)
| SInt (n : Z)
| SStr (s : string)
| SDate (t : datetime)
| SOid (h : string).

(** A Python [dict] with scalar values, in insertion order: the submitted
    form data, one entry of a form's [fields]. *)
Definition dict := list (string * scalar).

(** A field of a stored document: a scalar, an embedded dict (the [data] of
    a CallRequest) or a list of dicts (the [fields] of a FormBuilder). *)
Inductive value :=
| Sc (s : scalar)
| Dict (d : dict)
| Rows (r : list dict).

Definition document := list (string * value).

Coercion Sc : scalar >-> value.

Definition scalar_eqb (a b : scalar) : bool :=
  match a, b with
  | SNone, SNone => true
  | SBool x, SBool y => Bool.eqb x y
  | SInt x, SInt y => x =? y
  | SStr x, SStr y => String.eqb x y
  | SDate x, SDate y => dt_eqb x y
  | SOid x, SOid y => String.eqb x y
  | _, _ => false
  end.

Fixpoint list_eqb {A} (eqb : A -> A -> bool) (a b : list A) : bool :=
  match a, b with
  | [], [] => true
  | x :: a', y :: b' => eqb x y && list_eqb eqb a' b'
  | _, _ => false
  end.

Definition dict_eqb (a b : dict) : bool :=
  list_eqb (fun x y => String.eqb (fst x) (fst y) && scalar_eqb (snd x) (snd y))
           a b.

Definition value_eqb (a b : value) : bool :=
  match a, b with
  | Sc x, Sc y => scalar_eqb x y
  | Dict x, Dict y => dict_eqb x y
  | Rows x, Rows y => list_eqb dict_eqb x y
  | _, _ => false
  end.

(** *** Python dictionaries *)

Section Dicts.
Context {A : Type}.

(** First binding of [k]. *)
Fixpoint lookup (k : string) (d : list (string * A)) : option A :=
  match d with
  | [] => None
  | (k', v) :: t => if String.eqb k k' then Some v else lookup k t
  end.

(** [k in d] *)
Definition has (k : string) (d : list (string * A)) : bool :=
  match lookup k d with Some _ => true | None => false end.

(** [d.get(k, dflt)] *)
Definition get_or (k : string) (dflt : A) (d : list (string * A)) : A :=
  match lookup k d with Some v => v | None => dflt end.

(** [d[k] = v]: an existing key keeps its position, a new key goes last. *)
Fixpoint assign (k : string) (v : A) (d : list (string * A))
  : list (string * A) :=
  match d with
  | [] => [(k, v)]
  | (k', v') :: t =>
      if String.eqb k k' then (k', v) :: t else (k', v') :: assign k v t
  end.

(** [del d[k]] / projection [{k: 0}] *)
Fixpoint remove_key (k : string) (d : list (string * A))
  : list (string * A) :=
  match d with
  | [] => []
  | (k', v') :: t =>
      if String.eqb k k' then remove_key k t else (k', v') :: remove_key k t
  end.
End Dicts.

(** [d.get(k)] on a dict of scalars and on a document. *)
Definition get (k : string) (d : dict) : scalar := get_or k SNone d.
Definition doc_get (k : string) (d : document) : value := get_or k (Sc SNone) d.

(** Truth value of a Python object. *)
Definition truthy (s : scalar) : bool :=
  match s with
  | SNone => false
  | SBool b => b
  | SInt n => negb (n =? 0)
  | SStr s => negb (String.eqb s "")
  | SDate _ => true
  | SOid _ => true
  end.

Definition vtruthy (v : value) : bool :=
  match v with
  | Sc s => truthy s
  | Dict d => match d with [] => false | _ => true end
  | Rows r => match r with [] => false | _ => true end
  end.

(** [str(x)] *)
Definition str (s : scalar) : string :=
  match s with
  | SNone => "None"
  | SBool true => "True"
  | SBool false => "False"
  | SInt n => Py.str_of_Z n
  | SStr s => s
  | SDate t => str_of_datetime t
  | SOid h => h
  end.

(** [repr(x)]; string literals are rendered without escapes. *)
Definition repr (s : scalar) : string :=
  match s with
  | SStr s => "'" ++ s ++ "'"
  | SDate t =>
      "datetime.datetime(" ++ Py.str_of_Z (year t) ++ ", "
        ++ Py.str_of_Z (month t) ++ ", " ++ Py.str_of_Z (day t) ++ ", "
        ++ Py.str_of_Z (hour t) ++ ", " ++ Py.str_of_Z (minute t)
        ++ (if (second t =? 0) && (microsecond t =? 0) then ""
            else ", " ++ Py.str_of_Z (second t)
                 ++ (if microsecond t =? 0 then ""
                     else ", " ++ Py.str_of_Z (microsecond t)))
        ++ ")"
  | SOid h => "ObjectId('" ++ h ++ "')"
  | _ => str s
  end.

Fixpoint join (sep : string) (l : list string) : string :=
  match l with
  | [] => ""
  | [x] => x
  | x :: t => x ++ sep ++ join sep t
  end.

Definition str_of_dict (d : dict) : string :=
  "{" ++ join ", " (map (fun kv => repr (SStr (fst kv)) ++ ": " ++ repr (snd kv)) d)
      ++ "}".

Definition vstr (v : value) : string :=
  match v with
  | Sc s => str s
  | Dict d => str_of_dict d
  | Rows r => "[" ++ join ", " (map str_of_dict r) ++ "]"
  end.

(** [bson.ObjectId(s)] for a string: 24 hexadecimal digits, else
    [InvalidId] (here [None]). *)
Definition ObjectId (s : string) : option string :=
  if (String.length s =? 24)%nat && Py.all Py.ishex s
  then Some (Py.lower s) else None.

(** [ObjectId(x)] for an arbitrary value: an [ObjectId] is copied, a string
    is parsed, anything else raises. *)
Definition ObjectId_of (v : value) : option string :=
  match v with
  | Sc (SStr s) => ObjectId s
  | Sc (SOid h) => Some h
  | _ => None
  end.

(* ================================================================== *)
(** ** BSON: what the driver can encode *)
(* ================================================================== *)

Module BSON.

(** An integer is written in at most eight bytes; a larger one raises
    [OverflowError]. *)
Definition int64 (n : Z) : bool :=
  (- 9223372036854775808 <=? n) && (n <=? 9223372036854775807).

(** A key must not hold the NUL character ([InvalidDocument]). *)
Definition key (k : string) : bool :=
  negb (Py.any (fun c => Ascii.eqb c "000") k).

Definition scalar (s : scalar) : bool :=
  match s with
  | SInt n => int64 n
  | _ => true
  end.

Definition dict (d : dict) : bool :=
  forallb (fun kv => key (fst kv) && scalar (snd kv)) d.

Definition value (v : value) : bool :=
  match v with
  | Sc s => scalar s
  | Dict d => dict d
  | Rows r => forallb dict r
  end.

(** The document can be encoded, as [insert_one] needs it: every stored
    document satisfies this. *)
Definition document (d : document) : bool :=
  forallb (fun kv => key (fst kv) && value (snd kv)) d.

End BSON.

(* ================================================================== *)
(** ** The document store: the pymongo operations the handlers use *)
(* ================================================================== *)

Module Mongo.

(** One condition of a filter document. *)
Inductive cond :=
| Eq (v : value)          (* {k: v} *)
| Ne (v : value)          (* {k: {"$ne": v}} *)
| Lte (t : datetime)      (* {k: {"$lte": t}} *)
| Gte (t : datetime).     (* {k: {"$gte": t}} *)

Definition query := list (string * cond).

(** Equality match: a missing field matches [None] only. *)
Definition field_eq (f : option value) (v : value) : bool :=
  match f with
  | Some x => value_eqb x v
  | None => value_eqb (Sc SNone) v
  end.

(** Range operators compare within the BSON type of their operand: only
    dates are compared with a date. *)
Definition holds (c : cond) (f : option value) : bool :=
  match c with
  | Eq v => field_eq f v
  | Ne v => negb (field_eq f v)
  | Lte t => match f with Some (Sc (SDate x)) => dt_leb x t | _ => false end
  | Gte t => match f with Some (Sc (SDate x)) => dt_geb x t | _ => false end
  end.

Definition matches (q : query) (d : document) : bool :=
  forallb (fun kc => holds (snd kc) (lookup (fst kc) d)) q.

Definition find (q : query) (c : list document) : list document :=
  filter (matches q) c.

Definition find_one (q : query) (c : list document) : option document :=
  List.find (matches q) c.

Definition count_documents (q : query) (c : list document) : Z :=
  Z.of_nat (List.length (find q c)).

Definition insert_one (d : document) (c : list document) : list document :=
  (c ++ [d])%list.

(** [{"$set": sets}] applied to one document. *)
Definition apply_set (sets : document) (d : document) : document :=
  fold_left (fun acc kv => assign (fst kv) (snd kv) acc) sets d.

(** [update_one(q, {"$set": sets})]: the first match is updated. *)
Fixpoint update_one (q : query) (sets : document) (c : list document)
  : list document :=
  match c with
  | [] => []
  | d :: t => if matches q d then apply_set sets d :: t
              else d :: update_one q sets t
  end.

(** [matched_count] of that update. *)
Definition matched_count (q : query) (c : list document) : Z :=
  if existsb (matches q) c then 1 else 0.

Fixpoint delete_one (q : query) (c : list document) : list document :=
  match c with
  | [] => []
  | d :: t => if matches q d then t else d :: delete_one q t
  end.

Definition delete_many (q : query) (c : list document) : list document :=
  filter (fun d => negb (matches q d)) c.

(** BSON comparison order across types, as far as sort keys need it:
    null (or missing) < numbers < strings < documents < arrays
    < ObjectId < booleans < dates. *)
Definition bson_rank (f : option value) : Z :=
  match f with
  | None | Some (Sc SNone) => 0
  | Some (Sc (SInt _)) => 1
  | Some (Sc (SStr _)) => 2
  | Some (Dict _) => 3
  | Some (Rows _) => 4
  | Some (Sc (SOid _)) => 5
  | Some (Sc (SBool _)) => 6
  | Some (Sc (SDate _)) => 7
  end.

Definition bson_leb (a b : option value) : bool :=
  match a, b with
  | Some (Sc (SInt x)), Some (Sc (SInt y)) => x <=? y
  | Some (Sc (SStr x)), Some (Sc (SStr y)) => String.leb x y
  | Some (Sc (SOid x)), Some (Sc (SOid y)) => String.leb x y
  | Some (Sc (SBool x)), Some (Sc (SBool y)) => implb x y
  | Some (Sc (SDate x)), Some (Sc (SDate y)) => dt_leb x y
  | _, _ => bson_rank a <=? bson_rank b
  end.

(** [.sort(k, -1)]: descending on field [k]; documents with equal keys
    keep their natural order. *)
Fixpoint insert_desc (k : string) (d : document) (l : list document)
  : list document :=
  match l with
  | [] => [d]
  | x :: t => if bson_leb (lookup k x) (lookup k d)
              then d :: x :: t
              else x :: insert_desc k d t
  end.

Definition sort_desc (k : string) (c : list document) : list document :=
  fold_right (fun d acc => insert_desc k d acc) [] c.

(** Projection [{k: 0}] *)
Definition project_out (k : string) (c : list document) : list document :=
  map (remove_key k) c.

End Mongo.

(* ================================================================== *)
(** ** The world: collections and the provider's request log *)
(* ================================================================== *)

(** One [twilio_client.calls.create(...)] request: the callee, and the
    [call_id] and [app_name] of the webhook URL. *)
Record call_attempt := mkCall {
  call_to : string;
  call_id : string;
  call_app_name : value
}.

(** The two message bodies of the application: the status notice to the
    end user and the new-booking alert to the client. *)
Inductive sms_body :=
| StatusNotice (status : string) (app_name user_name : value)
| BookingAlert (app_name user_name user_phone : value).

(** One [twilio_client.messages.create(...)] request. *)
Record sms_attempt := mkSms {
  sms_to : string;
  sms_text : sms_body
}.

Record world := mkWorld {
  call_requests : list document;
  client_apps : list document;
  form_builders : list document;
  llm_settings : list document;
  clients : list document;
  api_keys : list document;
  applications : list document;
  (** requests made to the telephony provider, oldest first *)
  calls : list call_attempt;
  messages : list sms_attempt
}.

Definition set_call_requests (c : list document) (w : world) : world :=
  mkWorld c (client_apps w) (form_builders w) (llm_settings w) (clients w)
          (api_keys w) (applications w) (calls w) (messages w).

Definition log_call (a : call_attempt) (w : world) : world :=
  mkWorld (call_requests w) (client_apps w) (form_builders w) (llm_settings w)
          (clients w) (api_keys w) (applications w)
          (calls w ++ [a])%list (messages w).

Definition log_sms (m : sms_attempt) (w : world) : world :=
  mkWorld (call_requests w) (client_apps w) (form_builders w) (llm_settings w)
          (clients w) (api_keys w) (applications w)
          (calls w) (messages w ++ [m])%list.

(** What a handler does not control: configuration, clock, the providers'
    answers and the library parsers.  One handler run reads one clock
    value.  A failing [messages.create] is caught and logged by the code and
    changes nothing else, so only the request is recorded. *)
Record env := mkEnv {
  (** [twilio_client] is not [None] *)
  twilio_client : bool;
  (** [calls.create]: the call SID, or [None] when the request raises *)
  calls_create : call_attempt -> option string;
  (** [OPENAI_API_KEY] is set *)
  OPENAI_API_KEY : bool;
  (** [chat.completions.create] on a system prompt and the submitted data *)
  chat_completion : value -> dict -> option string;
  (** [datetime.now(IST).replace(tzinfo=None)] *)
  now_ist : datetime;
  (** [datetime.utcnow()] *)
  utcnow : datetime;
  (** [datetime.fromisoformat]: the fields of the value and, when the text
      carries one, its UTC offset in microseconds *)
  fromisoformat : string -> option (datetime * option Z);
  (** [datetime.strptime(s, fmt)], format first *)
  strptime : string -> string -> option datetime
}.

(** HTTP responses of the handlers. *)
Inductive response :=
| Redirect (location : string)
| Text (code : Z) (body : string)
| Template (code : Z) (name : string)
| JsonError (code : Z) (error : string)
| JsonCalls (code : Z) (client_id : value) (total_calls : Z)
            (data : list document)
| JsonSubmit (code : Z) (status message call_id : string)
             (user_name phone : scalar) (call_initiated : bool)
| JsonCreated (code : Z) (app_id : string)
| JsonStatus (code : Z) (status : string)
| InternalServerError.

Definition status_code (r : response) : Z :=
  match r with
  | Redirect _ => 302
  | Text c _ | Template c _ | JsonError c _ | JsonCalls c _ _ _
  | JsonSubmit c _ _ _ _ _ _ | JsonCreated c _ | JsonStatus c _ => c
  | InternalServerError => 500
  end.

(* ================================================================== *)
(** ** Telephony helpers *)
(* ================================================================== *)

Definition by_id (v : value) : Mongo.query := [("_id", Mongo.Eq v)].

Definition call_initiated_fields (e : env) (sid : string) : document :=
  [("call_initiated", Sc (SBool true));
   ("call_initiated_at", Sc (SDate (now_ist e)));
   ("twilio_sid", Sc (SStr sid))].

(** The DB update of [trigger_voice_call]: by [ObjectId(booking_id)] first,
    by the string when that matched nothing or is no ObjectId. *)
Definition mark_call_initiated (e : env) (booking_id sid : string)
                               (c : list document) : list document :=
  match ObjectId booking_id with
  | Some oid =>
      if Mongo.matched_count (by_id (SOid oid)) c =? 0
      then Mongo.update_one (by_id (SStr booking_id))
                            (call_initiated_fields e sid) c
      else Mongo.update_one (by_id (SOid oid)) (call_initiated_fields e sid) c
  | None =>
      Mongo.update_one (by_id (SStr booking_id)) (call_initiated_fields e sid) c
  end.

(** "Standardize phone format" of [trigger_voice_call]: the number the
    call goes to. *)
Definition call_target (phone : value) : string :=
  let clean_phone := Py.digits_of (vstr phone) in
  if Py.len clean_phone =? 10 then "+91" ++ clean_phone
  else if negb (Py.startswith "+" (vstr phone)) then "+" ++ clean_phone
  else vstr phone.

(** [trigger_voice_call(booking_id, phone, app_name)] *)
Definition trigger_voice_call (e : env) (w : world) (booking_id : string)
                              (phone app_name : value) : world * bool :=
  if negb (twilio_client e) then (w, false)
  else
    let req := mkCall (call_target phone) booking_id app_name in
    let w := log_call req w in
    match calls_create e req with
    | None => (w, false)
    | Some sid =>
        (set_call_requests
           (mark_call_initiated e booking_id sid (call_requests w)) w, true)
    end.

(** One iteration of the loop of [check_scheduled_calls]. *)
Definition scheduled_call_step (e : env) (w : world) (call : document)
  : world :=
  let call_id := vstr (doc_get "_id" call) in
  let phone := doc_get "phone" call in
  let app_name := get_or "app_name" (Sc (SStr "your request")) call in
  let '(w, success) := trigger_voice_call e w call_id phone app_name in
  if success then w
  else set_call_requests
         (Mongo.update_one (by_id (doc_get "_id" call))
            [("call_error", Sc (SStr "Failed to trigger scheduled call"))]
            (call_requests w)) w.

(** The filter of the poller. *)
Definition due_calls (e : env) : Mongo.query :=
  [("status", Mongo.Eq (SStr "APPROVED"));
   ("call_time", Mongo.Lte (now_ist e));
   ("call_initiated", Mongo.Ne (SBool true))].

(** [check_scheduled_calls()]: one tick of the poller.  The cursor is read
    as the list of documents that match when the tick starts. *)
Definition check_scheduled_calls (e : env) (w : world) : world :=
  fold_left (scheduled_call_step e)
            (Mongo.find (due_calls e) (call_requests w)) w.

(** "Standardize phone format" of [send_status_sms]: the number the
    message goes to. *)
Definition sms_target (phone : value) : string :=
  let clean_phone := Py.digits_of (vstr phone) in
  if Py.len clean_phone =? 10 then "+91" ++ clean_phone
  else if Py.startswith "91" clean_phone && (Py.len clean_phone =? 12)
  then "+" ++ clean_phone
  else if negb (Py.startswith "+" (vstr phone)) then "+" ++ clean_phone
  else vstr phone.

(** [send_status_sms(phone, status, app_name, user_name)] *)
Definition send_status_sms (e : env) (w : world) (phone : value)
                           (status : string) (app_name user_name : value)
  : world :=
  if negb (twilio_client e) || negb (vtruthy phone) then w
  else log_sms (mkSms (sms_target phone)
                      (StatusNotice status app_name user_name)) w.

(** [x or y] *)
Definition por (x y : value) : value := if vtruthy x then x else y.

(** [notify_client_sms(client_id, app_name, user_name, user_phone)] *)
Definition notify_client_sms (e : env) (w : world)
                             (client_id app_name user_name user_phone : value)
  : world :=
  if negb (twilio_client e) then w
  else
    let cid := vstr client_id in
    let client := Mongo.find_one [("email", Mongo.Eq (SStr cid))] (clients w) in
    let client :=
      match client with
      | Some c => Some c
      | None => Mongo.find_one (by_id (SStr cid)) (clients w)
      end in
    let client :=
      match client with
      | Some c => Some c
      | None =>
          if Py.len cid =? 24 then
            match ObjectId_of client_id with
            | Some oid => Mongo.find_one (by_id (SOid oid)) (clients w)
            | None => None
            end
          else None
      end in
    match client with
    | None => w
    | Some c =>
        let client_phone := por (doc_get "phone" c) (doc_get "number" c) in
        if negb (vtruthy client_phone) then w
        else
          let clean_phone := Py.digits_of (vstr client_phone) in
          let target_phone :=
            if Py.len clean_phone =? 10 then "+91" ++ clean_phone
            else if negb (Py.startswith "+" (vstr client_phone))
            then "+" ++ clean_phone
            else vstr client_phone in
          log_sms (mkSms target_phone
                         (BookingAlert app_name user_name user_phone)) w
    end.

(* ================================================================== *)
(** ** Review workflow *)
(* ================================================================== *)

(** The lookup shared by [approve_booking] and [reject_booking]: by
    [ObjectId(id)] when [id] is one, by the string only when it is not. *)
Definition lookup_booking (w : world) (id : string) : option document :=
  match ObjectId id with
  | Some oid => Mongo.find_one (by_id (SOid oid)) (call_requests w)
  | None => Mongo.find_one (by_id (SStr id)) (call_requests w)
  end.

Definition set_status (status : string) (booking : document) (w : world)
  : world :=
  set_call_requests
    (Mongo.update_one (by_id (doc_get "_id" booking))
                      [("status", Sc (SStr status))] (call_requests w)) w.

(** [booking.get("name", booking.get("user_name", "Customer"))] *)
Definition booking_user_name (booking : document) : value :=
  get_or "name" (get_or "user_name" (Sc (SStr "Customer")) booking) booking.

(** [approve_booking(id)] *)
Definition approve_booking (e : env) (w : world) (id : string)
  : world * response :=
  match lookup_booking w id with
  | None | Some [] => (w, Redirect "/booking-data")
  | Some booking =>
      let w := set_status "APPROVED" booking w in
      let phone := doc_get "phone" booking in
      let app_name := get_or "app_name" (Sc (SStr "your request")) booking in
      let user_name := booking_user_name booking in
      let w := send_status_sms e w phone "APPROVED" app_name user_name in
      let call_time := doc_get "call_time" booking in
      let place_call (w : world) :=
        if vtruthy phone
        then fst (trigger_voice_call e w (vstr (doc_get "_id" booking))
                                     phone app_name)
        else w in
      match call_time with
      | Sc (SDate t) =>
          if dt_gtb t (now_ist e) then (w, Redirect "/booking-data")
          else (place_call w, Redirect "/booking-data")
      | _ =>
          (* a truthy value that is no datetime cannot be compared *)
          if vtruthy call_time then (w, InternalServerError)
          else (place_call w, Redirect "/booking-data")
      end
  end.

(** [reject_booking(id)] *)
Definition reject_booking (e : env) (w : world) (id : string)
  : world * response :=
  match lookup_booking w id with
  | None | Some [] => (w, Redirect "/booking-data")
  | Some booking =>
      let w := set_status "REJECTED" booking w in
      let phone := doc_get "phone" booking in
      let app_name := get_or "app_name" (Sc (SStr "your request")) booking in
      let user_name := booking_user_name booking in
      (send_status_sms e w phone "REJECTED" app_name user_name,
       Redirect "/booking-data")
  end.

(* ================================================================== *)
(** ** Booking intake: [api_submit] *)
(* ================================================================== *)

(** The labels and field names that the scan of the form schema keeps. *)
Record labels := mkLabels {
  name_label : scalar; name_field_name : scalar;
  phone_label : scalar; phone_field_name : scalar;
  time_label : scalar; time_field_name : scalar
}.

Definition no_labels : labels :=
  mkLabels (SStr "") (SStr "") (SStr "") (SStr "") (SStr "") (SStr "").

(** [field.get(k, "").lower()]: [AttributeError] (here [None]) unless the
    value is a string. *)
Definition lower_of (k : string) (field : dict) : option string :=
  match lookup k field with
  | None => Some ""
  | Some (SStr s) => Some (Py.lower s)
  | Some _ => None
  end.

(** The body of [for field in fields]. *)
Definition scan_field (l : labels) (field : dict) : option labels :=
  match lower_of "label" field, lower_of "name" field with
  | Some label_text, Some field_name =>
      let l :=
        if Py.contains "phone" label_text || Py.contains "phone" field_name
           || Py.contains "mobile" label_text || Py.contains "number" label_text
        then mkLabels (name_label l) (name_field_name l)
                      (get "label" field) (get "name" field)
                      (time_label l) (time_field_name l)
        else l in
      let l :=
        if Py.contains "name" label_text || Py.contains "name" field_name
        then mkLabels (get "label" field) (get "name" field)
                      (phone_label l) (phone_field_name l)
                      (time_label l) (time_field_name l)
        else l in
      let l :=
        if Py.contains "time" label_text || Py.contains "time" field_name
           || Py.contains "slot" label_text || Py.contains "booking" label_text
        then mkLabels (name_label l) (name_field_name l)
                      (phone_label l) (phone_field_name l)
                      (get "label" field) (get "name" field)
        else l in
      Some l
  | _, _ => None
  end.

Fixpoint scan_fields (l : labels) (fields : list dict) : option labels :=
  match fields with
  | [] => Some l
  | f :: t => match scan_field l f with
              | Some l' => scan_fields l' t
              | None => None
              end
  end.

(** [form.get("fields", [])] as something the loop can run over; [None]
    when iterating it, or reading a field of one of its elements, raises. *)
Definition form_fields (form : document) : option (list dict) :=
  match lookup "fields" form with
  | None => Some []
  | Some (Rows r) => Some r
  | Some (Dict []) => Some []
  | Some (Sc (SStr "")) => Some []
  | Some _ => None
  end.

(** [label in data] and [data.get(label)] for a label that is truthy. *)
Definition by_label (l : scalar) (data : dict) : option scalar :=
  match l with
  | SStr k => if negb (String.eqb k "") && has k data
              then Some (get k data) else None
  | _ => None
  end.

(** "Try label first, then field name", with the initial value [dflt]. *)
Definition pick (l fname : scalar) (dflt : scalar) (data : dict) : scalar :=
  match by_label l data with
  | Some v => v
  | None => match by_label fname data with
            | Some v => v
            | None => dflt
            end
  end.

(** [for key in keys: if key in data: x = data[key]; break] *)
Fixpoint first_present (keys : list string) (data : dict) : option scalar :=
  match keys with
  | [] => None
  | k :: t => if has k data then Some (get k data) else first_present t data
  end.

Definition name_keys : list string :=
  ["name"; "Name"; "full_name"; "Full Name"; "fullname"; "user_name";
   "username"].

Definition phone_keys : list string :=
  ["phone"; "Phone"; "phone_number"; "Phone Number"; "mobile"; "Mobile";
   "phone number"].

Definition time_keys : list string :=
  ["time"; "booking"; "slot"; "booking time"; "preferred time"].

(** [user_name] after the label match and the fallback keys. *)
Definition matched_name (l : labels) (data : dict) : scalar :=
  let user_name := pick (name_label l) (name_field_name l) SNone data in
  if truthy user_name then user_name
  else match first_present name_keys data with
       | Some v => v
       | None => user_name
       end.

(** [phone_num] after the label match and the fallback keys, before it is
    cleaned. *)
Definition matched_phone (l : labels) (data : dict) : scalar :=
  let phone_num := pick (phone_label l) (phone_field_name l) SNone data in
  if truthy phone_num then phone_num
  else match first_present phone_keys data with
       | Some v => v
       | None => phone_num
       end.

(** The fallback for the time: the inner [break] leaves only the inner
    loop, so a later key that matches overwrites an earlier one. *)
Definition time_fallback (data : dict) (init : scalar) : scalar :=
  fold_left
    (fun acc key =>
       match List.find (fun kv => Py.contains key (Py.lower (fst kv))) data with
       | Some kv => snd kv
       | None => acc
       end)
    time_keys init.

Definition matched_time (l : labels) (data : dict) : scalar :=
  let extracted_time := pick (time_label l) (time_field_name l) (SStr "") data in
  if truthy extracted_time then extracted_time
  else time_fallback data extracted_time.

(** "Remove spaces, dashes, parentheses" *)
Definition clean_phone_text (phone_num : scalar) : string :=
  Py.remove_char ")" (Py.remove_char "(" (Py.remove_char "-"
    (Py.remove_char " " (Py.strip (str phone_num))))).

(** "Clean and validate phone number": [SNone] when there is none or it is
    rejected. *)
Definition cleaned_phone (phone_num : scalar) : scalar :=
  if truthy phone_num then
    let p := clean_phone_text phone_num in
    if (Py.len p <? 10) || negb (Py.any Py.isdigit p) then SNone else SStr p
  else phone_num.

(** The "BASIC YEAR FIX"; [None] when [replace] raises. *)
Definition fix_year (e : env) (call_time : option datetime)
  : option (option datetime) :=
  match call_time with
  | None => Some None
  | Some t =>
      if year t <? 2000 then
        let now_year := year (now_ist e) in
        match (if year t =? 26 then replace_year t 2026
               else replace_year t now_year) with
        | Some t' => Some (Some t')
        | None => None
        end
      else Some (Some t)
  end.

(** [call_time] of [api_submit] before the year fix: the fields and the
    UTC offset, if any; [strptime] with this format gives no offset. *)
Definition parse_call_time (e : env) (data : dict)
  : option (datetime * option Z) :=
  let pref_call_time := get "preferred_call_time" data in
  if truthy pref_call_time then
    match pref_call_time with
    | SStr s =>
        match fromisoformat e s with
        | Some t => Some t
        | None =>
            match strptime e "%Y-%m-%d %H:%M" s with
            | Some t => Some (t, None)
            | None => None
            end
        end
    | _ => None
    end
  else None.

(** The fields and the UTC offset of a parsed call time. *)
Definition call_time_fields (p : option (datetime * option Z))
  : option datetime :=
  match p with Some (t, _) => Some t | None => None end.

Definition call_time_offset (p : option (datetime * option Z)) : option Z :=
  match p with Some (_, o) => o | None => None end.

(** [call_time] as the driver writes it; [None] when that raises. *)
Definition stored_call_time (call_time : option datetime)
                            (utcoffset : option Z)
  : option (option datetime) :=
  match call_time with
  | None => Some None
  | Some t => match bson_datetime t utcoffset with
              | Some t' => Some (Some t')
              | None => None
              end
  end.

(** The [call_time] of the record that [api_submit] stores: parsed, its
    year fixed, then written by the driver; [None] when the year fix or the
    encoding raises. *)
Definition intake_call_time (e : env) (data : dict)
  : option (option datetime) :=
  let parsed := parse_call_time e data in
  match fix_year e (call_time_fields parsed) with
  | Some call_time => stored_call_time call_time (call_time_offset parsed)
  | None => None
  end.

(** The prompts of an [llm_settings] document joined by a newline; [None]
    when the concatenation raises [TypeError]. *)
Definition settings_prompt (settings : document) : option value :=
  match get_or "default_prompt" (Sc (SStr "")) settings,
        get_or "custom_prompt" (Sc (SStr "")) settings with
  | Sc (SStr default_p), Sc (SStr custom_p) =>
      Some (Sc (SStr (default_p ++ String "010"%char custom_p)))
  | _, _ => None
  end.

(** "Get specific application prompt"; [None] when it raises. *)
Definition final_prompt (w : world) (client_id app_name : value)
  : option value :=
  let from_settings :=
    match Mongo.find_one [("client_id", Mongo.Eq client_id);
                          ("app_name", Mongo.Eq app_name)] (llm_settings w) with
    | Some (f :: settings) => settings_prompt (f :: settings)
    | _ => Some (Sc (SStr "You are a helpful assistant."))
    end in
  match Mongo.find_one [("app_name", Mongo.Eq app_name)] (applications w) with
  | Some app_doc =>
      if vtruthy (doc_get "prompt" app_doc)
      then Some (doc_get "prompt" app_doc)
      else from_settings
  | None => from_settings
  end.

(** "CALL AI MODEL": the reply, with the two static fallbacks. *)
Definition ai_reply_of (e : env) (prompt : value) (data : dict) : string :=
  if OPENAI_API_KEY e then
    match chat_completion e prompt data with
    | Some content => content
    | None => "Form received successfully (AI processing unavailable)"
    end
  else "Form received successfully".

(** The [call_request] document that [api_submit] inserts, as the store
    holds it: [call_time] is given as the driver writes it, and the two
    creation dates keep milliseconds. *)
Definition new_call_request (e : env) (new_id : string)
    (client_id app_name : value) (display_name display_phone : scalar)
    (extracted_time : scalar) (data : dict) (ai_reply : string)
    (call_time : option datetime) : document :=
  [("_id", Sc (SOid new_id));
   ("client_id", client_id);
   ("app_name", app_name);
   ("name", Sc display_name);
   ("phone", Sc display_phone);
   ("time", Sc extracted_time);
   ("data", Dict data);
   ("ai_reply", Sc (SStr ai_reply));
   ("query", Sc (SStr (Py.take 100 ai_reply)));
   ("status", Sc (SStr "PENDING"));
   ("call_time", Sc (match call_time with Some t => SDate t | None => SNone end));
   ("time_str", Sc (SStr (strftime_hm (now_ist e))));
   ("created_at", Sc (SDate (to_millis (now_ist e))));
   ("createdAt", Sc (SDate (to_millis (now_ist e))))].

Definition display_name_of (user_name : scalar) : scalar :=
  if truthy user_name then user_name else SStr "Unknown User".

Definition display_phone_of (phone_num : scalar) : scalar :=
  if truthy phone_num then phone_num else SStr "No Phone Provided".

(** [api_submit(api_key)] on the submitted [data]; [new_id] is the
    [ObjectId] the driver gives the inserted document. *)
Definition api_submit (e : env) (w : world) (api_key : string) (data : dict)
                      (new_id : string) : world * response :=
  match Mongo.find_one [("api_key", Mongo.Eq (SStr api_key))]
                       (form_builders w) with
  | None | Some [] => (w, Text 403 "Invalid API key")
  | Some form =>
      match lookup "client_id" form, lookup "app_name" form,
            form_fields form with
      | Some client_id, Some app_name, Some fields =>
          match scan_fields no_labels fields,
                intake_call_time e data,
                final_prompt w client_id app_name with
          | Some l, Some call_time, Some prompt =>
              let user_name := matched_name l data in
              let phone_num := cleaned_phone (matched_phone l data) in
              let extracted_time := matched_time l data in
              let display_name := display_name_of user_name in
              let display_phone := display_phone_of phone_num in
              let ai_reply := ai_reply_of e prompt data in
              let call_request :=
                new_call_request e new_id client_id app_name display_name
                                 display_phone extracted_time data ai_reply
                                 call_time in
              (* [insert_one] raises on a record that it cannot encode *)
              if BSON.document call_request then
                let w := set_call_requests
                           (Mongo.insert_one call_request (call_requests w)) w in
                let w := notify_client_sms e w client_id app_name
                                           (Sc display_name) (Sc display_phone) in
                (w, JsonSubmit 200 "success" ai_reply new_id
                               display_name display_phone false)
              else (w, InternalServerError)
          | _, _, _ => (w, InternalServerError)
          end
      | _, _, _ => (w, InternalServerError)
      end
  end.

(* ================================================================== *)
(** ** Booking intake: [submit_form] *)
(* ================================================================== *)

(** The variables that the loop of [submit_form] assigns. *)
Record extracted := mkExtracted {
  extracted_name : value;
  extracted_phone : value;
  extracted_time : value;
  local_call_time : option datetime
}.

(** The body of [for k, v in data.items()], on the dictionary as it is at
    that moment. *)
Definition submit_form_body (e : env) (k : string) (v : value)
                            (st : document * extracted)
  : document * extracted :=
  let '(data, x) := st in
  let low_k := Py.lower k in
  let '(data, x) :=
    if negb (vtruthy (doc_get "name" data)) && Py.contains "name" low_k
    then (assign "name" v data,
          mkExtracted v (extracted_phone x) (extracted_time x)
                      (local_call_time x))
    else (data, x) in
  let '(data, x) :=
    if negb (vtruthy (doc_get "phone" data))
       && (Py.contains "phone" low_k || Py.contains "mobile" low_k
           || Py.contains "contact" low_k)
    then (assign "phone" v data,
          mkExtracted (extracted_name x) v (extracted_time x)
                      (local_call_time x))
    else (data, x) in
  let '(data, x) :=
    if negb (vtruthy (doc_get "time" data))
       && (Py.contains "time" low_k || Py.contains "booking" low_k
           || Py.contains "slot" low_k)
    then (assign "time" v data,
          mkExtracted (extracted_name x) (extracted_phone x) v
                      (local_call_time x))
    else (data, x) in
  if Py.contains "preferred_call_time" low_k && vtruthy v then
    match v with
    | Sc (SStr s) =>
        match strptime e "%Y-%m-%dT%H:%M" s with
        | Some t =>
            (assign "call_time" (Sc (SDate t)) data,
             mkExtracted (extracted_name x) (extracted_phone x)
                         (extracted_time x) (Some t))
        | None => (data, x)
        end
    | _ => (data, x)
    end
  else (data, x).

(** The loop over [data.items()].  The iterator walks the entries by
    position and reads each as it is then; every [next()], the last one
    included, raises [RuntimeError] (here [None]) when the dictionary has
    changed size since the loop began. *)
Fixpoint submit_form_loop (e : env) (size : nat) (positions : list nat)
                          (st : document * extracted)
  : option (document * extracted) :=
  if negb (List.length (fst st) =? size)%nat then None
  else
    match positions with
    | [] => Some st
    | i :: rest =>
        match nth_error (fst st) i with
        | Some (k, v) =>
            submit_form_loop e size rest (submit_form_body e k v st)
        | None => Some st
        end
    end.

(** [insert_one(data)] of a document that may bring its own [_id]; [None]
    on [DuplicateKeyError]. *)
Definition insert_with_id (new_id : string) (data : document)
                          (c : list document) : option (list document) :=
  match lookup "_id" data with
  | Some id =>
      if existsb (Mongo.matches (by_id id)) c then None
      else Some (Mongo.insert_one data c)
  | None => Some (Mongo.insert_one (("_id", Sc (SOid new_id)) :: data) c)
  end.

(** [submit_form(app_name)] on the posted [form], with the session's
    [client_id]. *)
Definition submit_form (e : env) (w : world) (app_name : string)
                       (form : dict) (session_client_id : value)
                       (new_id : string) : world * response :=
  let data : document := map (fun kv => (fst kv, Sc (snd kv))) form in
  let form_config :=
    Mongo.find_one [("app_name", Mongo.Eq (SStr app_name))] (form_builders w) in
  let client_id :=
    match form_config with
    | Some (f :: c) => doc_get "client_id" (f :: c)
    | _ => session_client_id
    end in
  let data := assign "app_name" (Sc (SStr app_name)) data in
  let data := assign "client_id" client_id data in
  let data := assign "status" (Sc (SStr "PENDING")) data in
  let data := assign "created_at" (Sc (SDate (now_ist e))) data in
  let init := mkExtracted (Sc (SStr "Unknown")) (Sc (SStr "N/A"))
                          (Sc (SStr "")) None in
  match submit_form_loop e (List.length data) (seq 0 (List.length data))
                         (data, init) with
  | None => (w, InternalServerError)
  | Some (data, x) =>
      (* the fixed value goes to the local variable only *)
      match fix_year e (local_call_time x) with
      | None => (w, InternalServerError)
      | Some call_time =>
          match insert_with_id new_id data (call_requests w) with
          | None => (w, InternalServerError)
          | Some c =>
              let w := set_call_requests c w in
              let w :=
                if vtruthy client_id
                then notify_client_sms e w client_id (Sc (SStr app_name))
                                       (extracted_name x) (extracted_phone x)
                else w in
              (w, Template 200 "success.html")
          end
      end
  end.

(* ================================================================== *)
(** ** Read API: [api_calls] *)
(* ================================================================== *)

(** [api_calls()] with the [x-api-key] header, if any. *)
Definition api_calls (w : world) (key : option string) : response :=
  match key with
  | None | Some EmptyString => JsonError 401 "API key required"
  | Some k =>
      match Mongo.find_one [("api_key", Mongo.Eq (SStr k))] (api_keys w) with
      | None | Some [] => JsonError 401 "Invalid API key"
      | Some api =>
          let client_id := doc_get "client_id" api in
          let scope := get_or "scope" (Sc (SStr "ALL_APPS")) api in
          let scoped_app := doc_get "app_name" api in
          let query : Mongo.query := [("client_id", Mongo.Eq client_id)] in
          let query :=
            if value_eqb scope (Sc (SStr "SINGLE_APP")) && vtruthy scoped_app
            then (query ++ [("app_name", Mongo.Eq scoped_app)])%list
            else query in
          let calls :=
            Mongo.project_out "_id"
              (Mongo.sort_desc "created_at"
                 (Mongo.find query (call_requests w))) in
          JsonCalls 200 client_id (Z.of_nat (List.length calls)) calls
      end
  end.

(* ================================================================== *)
(** ** Application registry and client deletion *)
(* ================================================================== *)

Definition DEFAULT_FORM_FIELDS : list dict :=
  [ [("label", SStr "Full Name"); ("name", SStr "name");
     ("type", SStr "text"); ("required", SBool true)];
    [("label", SStr "Phone Number"); ("name", SStr "phone");
     ("type", SStr "tel"); ("required", SBool true)];
    [("label", SStr "Email Address"); ("name", SStr "email");
     ("type", SStr "email"); ("required", SBool true)];
    [("label", SStr "Address / Location"); ("name", SStr "address");
     ("type", SStr "textarea"); ("required", SBool false)];
    [("label", SStr "Preferred Date"); ("name", SStr "date");
     ("type", SStr "date"); ("required", SBool false)];
    [("label", SStr "Service Details"); ("name", SStr "query");
     ("type", SStr "textarea"); ("required", SBool false)] ].

(** [re.sub(r'[\W_]+', '-', s)]: every run of characters that are no
    letters or digits becomes one dash. *)
Fixpoint dash_runs (in_run : bool) (s : string) : string :=
  match s with
  | EmptyString => EmptyString
  | String c t =>
      if Py.isalnum c then String c (dash_runs false t)
      else if in_run then dash_runs true t
      else String "-" (dash_runs true t)
  end.

(** [slugify(text)] *)
Definition slugify (text : string) : string :=
  Py.strip_by (fun c => Ascii.eqb c "-") (dash_runs false (Py.lower text)).

Definition set_apps_forms (apps forms : list document) (w : world) : world :=
  mkWorld (call_requests w) apps forms (llm_settings w) (clients w)
          (api_keys w) (applications w) (calls w) (messages w).

(** [create_application()] for the session's [client_id] and the posted
    [app_name]; [app_oid] and [form_oid] are the identifiers of the two
    inserted documents and [token] is [secrets.token_hex(16)]. *)
Definition create_application (e : env) (w : world) (client_id : value)
    (app_name : value) (app_oid form_oid token : string)
  : world * response :=
  if negb (vtruthy app_name) then (w, JsonError 200 "App name required")
  else
    match Mongo.find_one [("client_id", Mongo.Eq client_id);
                          ("app_name", Mongo.Eq app_name)] (client_apps w) with
    | Some (f :: existing) => (w, JsonError 200 "App already exists")
    | _ =>
        match app_name with
        | Sc (SStr text) =>
            let slug := slugify text in
            let apps :=
              Mongo.insert_one
                [("_id", Sc (SOid app_oid));
                 ("client_id", client_id);
                 ("app_name", app_name);
                 ("slug", Sc (SStr slug));
                 ("created_at", Sc (SDate (utcnow e)));
                 ("submissions", Sc (SInt 0))] (client_apps w) in
            let forms :=
              Mongo.insert_one
                [("_id", Sc (SOid form_oid));
                 ("client_id", client_id);
                 ("app_id", Sc (SStr app_oid));
                 ("app_name", app_name);
                 ("slug", Sc (SStr slug));
                 ("fields", Rows DEFAULT_FORM_FIELDS);
                 ("api_key", Sc (SStr token));
                 ("created_at", Sc (SDate (now_ist e)))] (form_builders w) in
            (set_apps_forms apps forms w, JsonCreated 200 app_oid)
        | _ => (w, InternalServerError)
        end
    end.

(** [delete_client(client_id)]: an identifier that is no [ObjectId] raises
    in the first statement and the handler redirects from its [except]. *)
Definition delete_client (w : world) (client_id : string) : world * response :=
  match ObjectId client_id with
  | Some oid =>
      let q : Mongo.query := [("client_id", Mongo.Eq (SStr client_id))] in
      (mkWorld (Mongo.delete_many q (call_requests w))
               (Mongo.delete_many q (client_apps w))
               (Mongo.delete_many q (form_builders w))
               (llm_settings w)
               (Mongo.delete_one (by_id (SOid oid)) (clients w))
               (api_keys w) (applications w) (calls w) (messages w),
       Redirect "/manage-clients")
  | None => (w, Redirect "/manage-clients")
  end.

(** [delete_application(app_name)] for the session's [client_id]. *)
Definition delete_application (w : world) (client_id : value)
                              (app_name : string) : world * response :=
  let q : Mongo.query := [("app_name", Mongo.Eq (SStr app_name));
                          ("client_id", Mongo.Eq client_id)] in
  (mkWorld (Mongo.delete_many q (call_requests w))
           (Mongo.delete_one q (client_apps w))
           (Mongo.delete_many q (form_builders w))
           (Mongo.delete_many q (llm_settings w))
           (clients w) (api_keys w) (applications w) (calls w) (messages w),
   JsonStatus 200 "deleted").

(* ================================================================== *)
(** ** The 7-day submission trend of the dashboards *)
(* ================================================================== *)

(** [{"$group": {"_id": key, "count": {"$sum": 1}}}] on the keys of the
    matched documents. *)
Fixpoint bump (k : string) (acc : list (string * Z)) : list (string * Z) :=
  match acc with
  | [] => [(k, 1)]
  | (k', n) :: t => if String.eqb k k' then (k', n + 1) :: t
                    else (k', n) :: bump k t
  end.

Definition group_count (keys : list string) : list (string * Z) :=
  fold_left (fun acc k => bump k acc) keys [].

(** [{"$sort": {"_id": 1}}] *)
Fixpoint insert_asc (x : string * Z) (l : list (string * Z))
  : list (string * Z) :=
  match l with
  | [] => [x]
  | y :: t => if String.leb (fst x) (fst y) then x :: y :: t
              else y :: insert_asc x t
  end.

Definition sort_by_id (l : list (string * Z)) : list (string * Z) :=
  fold_right insert_asc [] l.

(** [$dateToString] with format [%Y-%m-%d] on [created_at]; the [$match]
    stage before it lets only dates through. *)
Definition created_day (d : document) : option string :=
  match lookup "created_at" d with
  | Some (Sc (SDate t)) => Some (strftime_ymd t)
  | _ => None
  end.

Fixpoint filter_map {A B} (f : A -> option B) (l : list A) : list B :=
  match l with
  | [] => []
  | x :: t => match f x with
              | Some y => y :: filter_map f t
              | None => filter_map f t
              end
  end.

Definition seven_days_ago (e : env) : datetime := sub_days (utcnow e) 7.

(** The aggregation pipeline shared by the three dashboards: [$match]
    (with the extra conditions [q]), [$group] by day, [$sort] by day. *)
Definition trend_pipeline (e : env) (q : Mongo.query) (c : list document)
  : list (string * Z) :=
  sort_by_id
    (group_count
       (filter_map created_day
          (Mongo.find (q ++ [("created_at", Mongo.Gte (seven_days_ago e))])%list
                      c))).

(** [next((x["count"] for x in trend_raw if x["_id"] == d), 0)] *)
Definition count_on (d : string) (trend_raw : list (string * Z)) : Z :=
  match List.find (fun x => String.eqb (fst x) d) trend_raw with
  | Some x => snd x
  | None => 0
  end.

(** [trend_labels] and [trend_values] of [analytics()], the client's
    dashboard. *)
Definition analytics_trend (e : env) (w : world) (client_id : value)
  : list string * list Z :=
  let trend_raw :=
    trend_pipeline e [("client_id", Mongo.Eq client_id)] (call_requests w) in
  let trend_labels :=
    map (fun i => strftime_ymd (sub_days (utcnow e) (6 - Z.of_nat i)))
        (seq 0 7) in
  (trend_labels, map (fun d => count_on d trend_raw) trend_labels).

(** [calls_per_day] of [system_analytics()] *)
Definition system_analytics_calls_per_day (e : env) (w : world)
  : list (string * Z) :=
  trend_pipeline e [] (call_requests w).

(** [trend_data] of [super_dashboard()] *)
Definition super_dashboard_trend_data (e : env) (w : world)
  : list (string * Z) :=
  trend_pipeline e [] (call_requests w).

(* ================================================================== *)
(** ** A concrete environment for the examples *)
(* ================================================================== *)

Module Example.

Definition digit_val (c : ascii) : option Z :=
  if Py.isdigit c then Some (Z.of_nat (nat_of_ascii c) - 48) else None.

(** A fixed-width decimal field. *)
Fixpoint number (width : nat) (acc : Z) (s : string) : option (Z * string) :=
  match width with
  | O => Some (acc, s)
  | S k => match s with
           | String c t =>
               match digit_val c with
               | Some d => number k (acc * 10 + d) t
               | None => None
               end
           | EmptyString => None
           end
  end.

Definition expect (c : ascii) (s : string) : option string :=
  match s with
  | String x t => if Ascii.eqb x c then Some t else None
  | EmptyString => None
  end.

(** [YYYY-MM-DD<sep>HH:MM], the shape a [datetime-local] input posts. *)
Definition parse_fields (sep : ascii) (s : string) : option datetime :=
  match number 4 0 s with
  | Some (y, s) =>
  match expect "-" s with
  | Some s =>
  match number 2 0 s with
  | Some (m, s) =>
  match expect "-" s with
  | Some s =>
  match number 2 0 s with
  | Some (d, s) =>
  match expect sep s with
  | Some s =>
  match number 2 0 s with
  | Some (h, s) =>
  match expect ":" s with
  | Some s =>
  match number 2 0 s with
  | Some (mi, EmptyString) =>
      let t := mkDatetime y m d h mi 0 0 in
      if valid_datetime t then Some t else None
  | _ => None end
  | None => None end
  | None => None end
  | None => None end
  | None => None end
  | None => None end
  | None => None end
  | None => None end
  | None => None end.

(** [fromisoformat] on that shape: a value without UTC offset. *)
Definition parse_local (sep : ascii) (s : string)
  : option (datetime * option Z) :=
  match parse_fields sep s with
  | Some t => Some (t, None)
  | None => None
  end.

Definition parse_format (fmt s : string) : option datetime :=
  if String.eqb fmt "%Y-%m-%dT%H:%M" then parse_fields "T" s
  else if String.eqb fmt "%Y-%m-%d %H:%M" then parse_fields " " s
  else None.

(** Telephony configured, every call accepted with SID ["CA1"], no
    completion key; the clock reads 2026-11-03 12:00 in both zones. *)
Definition noon : datetime := mkDatetime 2026 11 3 12 0 0 0.

Definition env0 : env :=
  mkEnv true (fun _ => Some "CA1") false (fun _ _ => None)
        noon noon (parse_local "T") parse_format.

(** The same without telephony credentials. *)
Definition env_no_twilio : env :=
  mkEnv false (fun _ => Some "CA1") false (fun _ _ => None)
        noon noon (parse_local "T") parse_format.

Definition empty_world : world := mkWorld [] [] [] [] [] [] [] [] [].

Definition oid1 : string := "aaaaaaaaaaaaaaaaaaaaaaa1".
Definition oid2 : string := "aaaaaaaaaaaaaaaaaaaaaaa2".
Definition oid3 : string := "aaaaaaaaaaaaaaaaaaaaaaa3".
Definition cid : string := "cccccccccccccccccccccccc".

End Example.

(* ================================================================== *)
(** ** Vocabulary of the properties *)
(* ================================================================== *)

(** A document carries the client identifier [client_id]. *)
Definition carries (client_id : string) (d : document) : Prop :=
  doc_get "client_id" d = Sc (SStr client_id).

Definition none_carries (client_id : string) (c : list document) : Prop :=
  forall d, In d c -> ~ carries client_id d.

(** No stored CallRequest answers to [id], as an [ObjectId] or as a
    string. *)
Definition no_booking (w : world) (id : string) : Prop :=
  forall d, In d (call_requests w) ->
    doc_get "_id" d <> Sc (SStr id)
    /\ forall oid, ObjectId id = Some oid -> doc_get "_id" d <> Sc (SOid oid).

(** A response that reports an error and carries no booking data. *)
Definition unauthorized (r : response) : Prop :=
  exists msg, r = JsonError 401 msg.

(** The request to the telephony provider that the poller and the
    approval make for the booking [d]. *)
Definition call_for (d : document) : call_attempt :=
  mkCall (call_target (doc_get "phone" d)) (vstr (doc_get "_id" d))
         (get_or "app_name" (Sc (SStr "your request")) d).

(** The status message that a review sends for the booking [d]. *)
Definition status_notice_for (status : string) (d : document) : sms_attempt :=
  mkSms (sms_target (doc_get "phone" d))
        (StatusNotice status (get_or "app_name" (Sc (SStr "your request")) d)
                      (booking_user_name d)).

(** The provider requests of [l] that are calls for the booking [d]: their
    webhook URL carries its identifier. *)
Definition calls_for (d : document) (l : list call_attempt)
  : list call_attempt :=
  filter (fun a => String.eqb (call_id a) (vstr (doc_get "_id" d))) l.

(** The calls requested while the world went from [w] to [w']. *)
Definition new_calls (w w' : world) : list call_attempt :=
  skipn (List.length (calls w)) (calls w').

Definition new_messages (w w' : world) : list sms_attempt :=
  skipn (List.length (messages w)) (messages w').






(** [d] and [d'] have the same value under every key of [ks]. *)
Definition agree (ks : list string) (d d' : document) : Prop :=
  forall k, In k ks -> lookup k d = lookup k d'.

(** How often the day [d] occurs among the days of the matched
    documents. *)
Fixpoint occurrences (d : string) (keys : list string) : Z :=
  match keys with
  | [] => 0
  | k :: t => (if String.eqb k d then 1 else 0) + occurrences d t
  end.

(** The submissions of a client that the trend of its dashboard
    counts: its documents created within the window of the [$match]
    stage. *)
Definition trend_window (e : env) (w : world) (client_id : value)
  : list document :=
  Mongo.find [("client_id", Mongo.Eq client_id);
              ("created_at", Mongo.Gte (seven_days_ago e))]
             (call_requests w).

(** The label of the day [k] days before today (UTC). *)
Definition day_label (e : env) (k : Z) : string :=
  strftime_ymd (sub_days (utcnow e) k).

Module Fixtures.
Import Example.

Definition hotel_form : document :=
  [("_id", Sc (SOid oid1)); ("client_id", Sc (SStr cid));
   ("app_id", Sc (SStr oid2)); ("app_name", Sc (SStr "Hotel"));
   ("slug", Sc (SStr "hotel"));
   ("fields", Rows [ [("label", SStr "Full Name"); ("name", SStr "name");
                      ("type", SStr "text"); ("required", SBool true)];
                     [("label", SStr "Phone Number"); ("name", SStr "phone");
                      ("type", SStr "tel"); ("required", SBool true)] ]);
   ("api_key", Sc (SStr "0123456789abcdef0123456789abcdef"))].

Definition hotel_app : document :=
  [("_id", Sc (SOid oid2)); ("client_id", Sc (SStr cid));
   ("app_name", Sc (SStr "Hotel")); ("slug", Sc (SStr "hotel"));
   ("created_at", Sc (SDate noon)); ("submissions", Sc (SInt 0))].

Definition hotel_prompt : document :=
  [("_id", Sc (SOid oid3)); ("client_id", Sc (SStr cid));
   ("app_name", Sc (SStr "Hotel"));
   ("default_prompt", Sc (SStr "You take hotel bookings."));
   ("custom_prompt", Sc (SStr "")); ("enabled", Sc (SBool true))].

Definition the_client : document :=
  [("_id", Sc (SOid cid)); ("company_name", Sc (SStr "Acme"));
   ("email", Sc (SStr "owner@acme.test")); ("password", Sc (SStr "temp123"));
   ("role", Sc (SStr "CLIENT")); ("phone", Sc (SStr "9123456780"))].

(** A booking as [api_submit] stores it; [extra] adds or overrides
    fields. *)
Definition booking (id : string) (extra : document) : document :=
  Mongo.apply_set extra
    [("_id", Sc (SOid id)); ("client_id", Sc (SStr cid));
     ("app_name", Sc (SStr "Hotel")); ("name", Sc (SStr "Asha"));
     ("phone", Sc (SStr "9876543210")); ("status", Sc (SStr "PENDING"));
     ("call_time", Sc SNone); ("created_at", Sc (SDate noon))].


Definition world_of (bookings : list document) : world :=
  mkWorld bookings [hotel_app] [hotel_form] [hotel_prompt] [the_client]
          [] [] [] [].

Definition single_app_key : document :=
  [("_id", Sc (SOid oid3)); ("client_id", Sc (SStr cid));
   ("api_key", Sc (SStr "sk_1")); ("created_at", Sc (SDate noon));
   ("scope", Sc (SStr "SINGLE_APP")); ("status", Sc (SStr "active"));
   ("app_name", Sc (SStr "Hotel"))].

Definition keyed_world : world :=
  mkWorld [booking oid1 []; booking oid2 [("app_name", Sc (SStr "Restaurant"))]]
          [hotel_app] [hotel_form] [hotel_prompt] [the_client]
          [single_app_key] [] [] [].

(** A form post whose scheduled time carries the two-digit-year slip; the
    keys [time] and [call_time] are part of the form, so the loop of
    [submit_form] adds no key. *)
Definition year_26_form : dict :=
  [("name", SStr "Asha"); ("phone", SStr "9876543210");
   ("time", SStr "10:00"); ("call_time", SStr "");
   ("preferred_call_time", SStr "0026-05-01T10:00")].

(** An approved booking whose scheduled time has passed. *)
Definition due_booking : document :=
  booking oid1 [("status", Sc (SStr "APPROVED"));
                ("call_time", Sc (SDate (mkDatetime 2026 11 3 11 30 0 0)))].

(** A pending booking scheduled for tomorrow. *)
Definition future_booking : document :=
  booking oid2 [("call_time", Sc (SDate (mkDatetime 2026 11 4 9 0 0 0)))].

(** The form of the Hotel application with the field names that a form
    builder generates. *)
Definition builder_form : document :=
  [("_id", Sc (SOid oid1)); ("client_id", Sc (SStr cid));
   ("app_id", Sc (SStr oid2)); ("app_name", Sc (SStr "Hotel"));
   ("slug", Sc (SStr "hotel"));
   ("fields", Rows [ [("label", SStr "Full Name"); ("name", SStr "fieldname_1");
                      ("type", SStr "text"); ("required", SBool true)];
                     [("label", SStr "Phone Number");
                      ("name", SStr "fieldname_2");
                      ("type", SStr "tel"); ("required", SBool true)] ]);
   ("api_key", Sc (SStr "0123456789abcdef0123456789abcdef"))].

Definition builder_world : world :=
  mkWorld [] [hotel_app] [builder_form] [hotel_prompt] [the_client]
          [] [] [] [].

(** A booking as [submit_form] stores it when the posted form has a field
    [_id]: its identifier is the posted text, here the 24 hexadecimal digits
    of another booking's [ObjectId]; approved and due. *)
Definition posted_id_booking : document :=
  [("_id", Sc (SStr oid2)); ("name", Sc (SStr "Asha"));
   ("phone", Sc (SStr "9876543210")); ("app_name", Sc (SStr "Hotel"));
   ("client_id", Sc (SStr cid)); ("status", Sc (SStr "APPROVED"));
   ("created_at", Sc (SDate noon));
   ("call_time", Sc (SDate (mkDatetime 2026 11 3 11 30 0 0)))].

End Fixtures.

(* ================================================================== *)
(** ** Further handlers: status callback, status updates, keys, forms *)
(* ================================================================== *)

(** A JSON object sent back with a status code, or an exception that
    reaches the global handler. *)
Inductive json_reply :=
| Reply (code : Z) (body : document)
| Raised.

Definition set_form_builders (c : list document) (w : world) : world :=
  mkWorld (call_requests w) (client_apps w) c (llm_settings w) (clients w)
          (api_keys w) (applications w) (calls w) (messages w).

Definition set_api_keys (c : list document) (w : world) : world :=
  mkWorld (call_requests w) (client_apps w) (form_builders w) (llm_settings w)
          (clients w) c (applications w) (calls w) (messages w).

(** [call_status_webhook()] with the posted [CallSid] and [CallStatus]. *)
Definition call_status_webhook (e : env) (w : world)
                               (call_sid call_status : option string)
  : world * response :=
  let status_value :=
    match call_status with Some s => SStr s | None => SNone end in
  match call_sid with
  | None | Some EmptyString => (w, Text 200 "")
  | Some sid =>
      (set_call_requests
         (Mongo.update_one [("twilio_sid", Mongo.Eq (Sc (SStr sid)))]
            [("call_status", Sc status_value);
             ("last_update", Sc (SDate (now_ist e)))]
            (call_requests w)) w,
       Text 200 "")
  end.

(** [status in ["APPROVED", "REJECTED"]] *)
Definition is_review_status (status : string) : bool :=
  String.eqb status "APPROVED" || String.eqb status "REJECTED".

(** [update_status(id, status)] past its role check: the status is set
    whatever it is; [ObjectId(id)] raises for an [id] that is none. *)
Definition update_status (e : env) (w : world) (id status : string)
  : world * response :=
  match ObjectId id with
  | None => (w, InternalServerError)
  | Some oid =>
      let booking := Mongo.find_one (by_id (Sc (SOid oid))) (call_requests w) in
      let w := set_call_requests
                 (Mongo.update_one (by_id (Sc (SOid oid)))
                    [("status", Sc (SStr status))] (call_requests w)) w in
      match booking with
      | Some (f :: b) =>
          let booking := f :: b in
          if is_review_status status then
            let phone := doc_get "phone" booking in
            let app_name :=
              get_or "app_name" (Sc (SStr "your request")) booking in
            let user_name := booking_user_name booking in
            let w := send_status_sms e w phone status app_name user_name in
            if String.eqb status "APPROVED" && vtruthy phone
               && twilio_client e
            then
              let req := mkCall (call_target phone) id app_name in
              let w := log_call req w in
              match calls_create e req with
              | None => (w, Redirect "/analytics")
              | Some _ =>
                  (set_call_requests
                     (Mongo.update_one (by_id (Sc (SOid oid)))
                        [("call_initiated", Sc (SBool true));
                         ("call_initiated_at", Sc (SDate (utcnow e)))]
                        (call_requests w)) w,
                   Redirect "/analytics")
              end
            else (w, Redirect "/analytics")
          else (w, Redirect "/analytics")
      | _ => (w, Redirect "/analytics")
      end
  end.

(** [update_booking_status()] on the posted [id] and [status], both
    strings.  Unlike [update_status] and [trigger_voice_call] it does not
    record that the call was initiated. *)
Definition update_booking_status (e : env) (w : world)
                                 (booking_id status : string)
  : world * json_reply :=
  let done := Reply 200 [("success", Sc (SBool true))] in
  match ObjectId booking_id with
  | None => (w, Raised)
  | Some oid =>
      let booking := Mongo.find_one (by_id (Sc (SOid oid))) (call_requests w) in
      let w := set_call_requests
                 (Mongo.update_one (by_id (Sc (SOid oid)))
                    [("status", Sc (SStr status))] (call_requests w)) w in
      match booking with
      | Some (f :: b) =>
          let booking := f :: b in
          if is_review_status status then
            let phone := doc_get "phone" booking in
            let app_name :=
              get_or "app_name" (Sc (SStr "your request")) booking in
            let user_name := booking_user_name booking in
            let w := send_status_sms e w phone status app_name user_name in
            if String.eqb status "APPROVED" && vtruthy phone
               && twilio_client e
            then (log_call (mkCall (call_target phone) booking_id app_name) w,
                  done)
            else (w, done)
          else (w, done)
      | _ => (w, done)
      end
  end.

(** [regen_key(app_name)] for the session's [client_id]; [new_key] is
    [secrets.token_hex(16)]. *)
Definition regen_key (w : world) (client_id : value) (app_name new_key : string)
  : world * json_reply :=
  (set_form_builders
     (Mongo.update_one [("app_name", Mongo.Eq (Sc (SStr app_name)));
                        ("client_id", Mongo.Eq client_id)]
        [("api_key", Sc (SStr new_key))] (form_builders w)) w,
   Reply 200 [("status", Sc (SStr "ok"))]).

(** [revoke_key_api(app_name)] for the session's [client_id]. *)
Definition revoke_key_api (w : world) (client_id : value) (app_name : string)
  : world * json_reply :=
  (set_form_builders
     (Mongo.update_one [("app_name", Mongo.Eq (Sc (SStr app_name)));
                        ("client_id", Mongo.Eq client_id)]
        [("api_key", Sc SNone)] (form_builders w)) w,
   Reply 200 [("status", Sc (SStr "revoked"))]).

(** The POST branch of [api_key_page()]: the posted [client_id], [scope]
    and [app_name] ([None] when the form lacks the field); [token] is
    [secrets.token_hex(16)] and [new_id] the identifier the driver gives
    the inserted document. *)
Definition of_form (x : option string) : scalar :=
  match x with Some s => SStr s | None => SNone end.

Definition issue_api_key (e : env) (w : world)
                         (client_id scope app_name : option string)
                         (token new_id : string) : world * response :=
  let key := "sk_" ++ token in
  let new_key_data : document :=
    [("_id", Sc (SOid new_id));
     ("client_id", Sc (of_form client_id));
     ("api_key", Sc (SStr key));
     ("created_at", Sc (SDate (utcnow e)));
     ("scope", Sc (of_form scope));
     ("status", Sc (SStr "active"))] in
  let new_key_data :=
    if scalar_eqb (of_form scope) (SStr "SINGLE_APP") && truthy (of_form app_name)
    then assign "app_name" (Sc (of_form app_name)) new_key_data
    else assign "scope" (Sc (SStr "ALL_APPS")) new_key_data in
  (set_api_keys (Mongo.insert_one new_key_data (api_keys w)) w,
   Redirect "/api-key").

(** [revoke_key(id)] for a session whose role is [role] ([None]: no role). *)
Definition revoke_key (w : world) (role : option string) (id : string)
  : world * response :=
  match role with
  | Some r =>
      if negb (String.eqb r "ADMIN") then (w, Redirect "/login")
      else
        match ObjectId id with
        | Some oid =>
            (set_api_keys
               (Mongo.delete_one (by_id (Sc (SOid oid))) (api_keys w)) w,
             Redirect "/api-key")
        | None => (w, InternalServerError)
        end
  | None => (w, Redirect "/login")
  end.

(** [regenerate_key(id)] past its decorator; [token] is
    [secrets.token_hex(16)]. *)
Definition regenerate_key (e : env) (w : world) (id token : string)
  : world * response :=
  match ObjectId id with
  | Some oid =>
      (set_api_keys
         (Mongo.update_one (by_id (Sc (SOid oid)))
            [("api_key", Sc (SStr ("sk_" ++ token)));
             ("created_at", Sc (SDate (utcnow e)))] (api_keys w)) w,
       Redirect "/api-key")
  | None => (w, InternalServerError)
  end.

(** [update_one(q, {"$set": sets}, upsert=True)] for a filter of equality
    conditions: without a match, a document made of the filter's fields
    with the [$set] fields applied is inserted under [new_id]. *)
Definition query_fields (q : Mongo.query) : document :=
  filter_map (fun kc => match snd kc with
                        | Mongo.Eq v => Some (fst kc, v)
                        | _ => None
                        end) q.

Definition upsert_one (q : Mongo.query) (sets : document) (new_id : string)
                      (c : list document) : list document :=
  if existsb (Mongo.matches q) c then Mongo.update_one q sets c
  else Mongo.insert_one
         (Mongo.apply_set sets (("_id", Sc (SOid new_id)) :: query_fields q))
         c.

(** [save_form(app_name)] for the session's [client_id] and the posted
    [fields]; [token] is [secrets.token_hex(16)].  [existing["api_key"]]
    raises [KeyError] for a stored form without that field. *)
Definition save_form (w : world) (client_id : value) (app_name : string)
                     (fields : list dict) (token new_id : string)
  : world * json_reply :=
  let q : Mongo.query := [("client_id", Mongo.Eq client_id);
                          ("app_name", Mongo.Eq (Sc (SStr app_name)))] in
  let api_key :=
    match Mongo.find_one q (form_builders w) with
    | Some (f :: existing) => lookup "api_key" (f :: existing)
    | _ => Some (Sc (SStr token))
    end in
  match api_key with
  | None => (w, Raised)
  | Some api_key =>
      (set_form_builders
         (upsert_one q
            [("fields", Rows fields); ("api_key", api_key);
             ("app_name", Sc (SStr app_name)); ("client_id", client_id)]
            new_id (form_builders w)) w,
       Reply 200 [("status", Sc (SStr "saved")); ("api_key", api_key)])
  end.

(** [save_form_builder()] for the session's [client_id] and the posted
    [app_name] and [fields] ([None] when the body lacks them); [token] is
    [uuid4().hex]. *)
Definition save_form_builder (w : world) (client_id app_name fields : value)
                             (token new_id : string) : world * json_reply :=
  let q : Mongo.query := [("client_id", Mongo.Eq client_id);
                          ("app_name", Mongo.Eq app_name)] in
  let api_key :=
    match Mongo.find_one q (form_builders w) with
    | Some (f :: existing) =>
        match lookup "api_key" (f :: existing) with
        | Some k => k
        | None => Sc (SStr token)
        end
    | _ => Sc (SStr token)
    end in
  (set_form_builders
     (upsert_one q [("fields", fields); ("api_key", api_key)] new_id
                 (form_builders w)) w,
   Reply 200 [("status", Sc (SStr "saved")); ("api_key", api_key)]).

Definition set_clients (c : list document) (w : world) : world :=
  mkWorld (call_requests w) (client_apps w) (form_builders w) (llm_settings w)
          c (api_keys w) (applications w) (calls w) (messages w).

(** [request.form.get(k, default)] *)
Definition form_or (default : string) (x : option string) : scalar :=
  match x with Some s => SStr s | None => SStr default end.

(** [create_client()] past its decorator; [post] tells a POST from a GET,
    the fields are those of the posted form and [new_id] is the identifier
    the driver gives the inserted document. *)
Definition create_client (w : world) (post : bool)
                         (company_name email password name number : option string)
                         (new_id : string) : world * response :=
  if post then
    match Mongo.find_one [("email", Mongo.Eq (Sc (of_form email)))]
                         (clients w) with
    | Some (f :: c) => (w, Text 400 "Email already exists")
    | _ =>
        (set_clients
           (Mongo.insert_one
              [("_id", Sc (SOid new_id));
               ("company_name", Sc (of_form company_name));
               ("email", Sc (of_form email));
               ("password", Sc (form_or "temp123" password));
               ("role", Sc (SStr "CLIENT"));
               ("name", Sc (form_or "" name));
               ("number", Sc (form_or "" number));
               ("phone", Sc (form_or "" number))] (clients w)) w,
         Redirect "/manage-clients")
    end
  else (w, Redirect "/manage-clients").

(** A document belongs to the application [app_name] of [client_id]. *)
Definition of_app (client_id : value) (app_name : string) (d : document)
  : Prop :=
  doc_get "app_name" d = Sc (SStr app_name)
  /\ doc_get "client_id" d = client_id.

(** The keys of [d'] are those of [d], in place, followed by new ones. *)
Definition keys_extend (d d' : document) : Prop :=
  exists extra, map fst d' = (map fst d ++ extra)%list.

(** [d'] differs from [d] at most under the keys of [ks]. *)
Definition same_but (ks : list string) (d d' : document) : Prop :=
  forall k, ~ In k ks -> lookup k d' = lookup k d.

(** The collections other than the bookings are the same in [w] and [w']. *)
Definition same_registry (w w' : world) : Prop :=
  client_apps w' = client_apps w /\ form_builders w' = form_builders w
  /\ llm_settings w' = llm_settings w /\ clients w' = clients w
  /\ api_keys w' = api_keys w /\ applications w' = applications w.

(** The fields that the poller may write. *)
Definition poller_fields : list string :=
  ["call_initiated"; "call_initiated_at"; "twilio_sid"; "call_error"].

(** The key [k] is written in at most one document of [c]. *)
Definition stored_once (k : string) (c : list document) : Prop :=
  Mongo.count_documents [("api_key", Mongo.Eq (Sc (SStr k)))] c <= 1.

(** No document of [c] carries the key [k]. *)
Definition fresh_key (k : string) (c : list document) : Prop :=
  forall d, In d c -> doc_get "api_key" d <> Sc (SStr k).

(** The characters that the intake removes from a phone number. *)
Definition phone_separator (c : ascii) : bool :=
  Ascii.eqb c " " || Ascii.eqb c "-" || Ascii.eqb c "(" || Ascii.eqb c ")".

(** The days of a trend are in ascending order. *)
Fixpoint ascending (l : list (string * Z)) : Prop :=
  match l with
  | x :: t =>
      match t with
      | y :: _ => String.leb (fst x) (fst y) = true
      | [] => True
      end /\ ascending t
  | [] => True
  end.

(** All bookings created within the window of the trend. *)
Definition admin_window (e : env) (w : world) : list document :=
  Mongo.find [("created_at", Mongo.Gte (seven_days_ago e))] (call_requests w).

(** Characters of the ASCII range, on which the string model agrees with
    Python's [str]. *)
Definition is_ascii (c : ascii) : bool := (nat_of_ascii c <? 128)%nat.

(** [c in "abcdefghijklmnopqrstuvwxyz0123456789-"] *)
Definition slug_char (c : ascii) : bool :=
  Py.isdigit c
  || ((97 <=? nat_of_ascii c)%nat && (nat_of_ascii c <=? 122)%nat)
  || Ascii.eqb c "-".

(** No two dashes in a row; [prev] tells that a dash came just before. *)
Fixpoint single_dashes (prev : bool) (s : string) : bool :=
  match s with
  | EmptyString => true
  | String c t =>
      if Ascii.eqb c "-" then negb prev && single_dashes true t
      else single_dashes false t
  end.
(* ================================================================== *)
(** * Properties *)
(* ================================================================== *)

(** ** The calendar *)

Module CalendarFacts.
Import Calendar.

Ltac zdiv := Z.div_mod_to_equations; lia.

Lemma is_leap_decomp n400 n100 n4 n1 :
  0 <= n100 <= 3 -> 0 <= n4 <= 24 -> 0 <= n1 <= 3 ->
  is_leap (n400 * 400 + 1 + n100 * 100 + n4 * 4 + n1)
  = (n1 =? 3) && (negb (n4 =? 24) || (n100 =? 3)).
Proof.
  intros. unfold is_leap.
  destruct (Z.eqb_spec n1 3); destruct (Z.eqb_spec n4 24);
    destruct (Z.eqb_spec n100 3); simpl;
    repeat match goal with
           | |- context [?a mod ?b =? 0] => destruct (Z.eqb_spec (a mod b) 0)
           end; simpl; try reflexivity; exfalso; zdiv.
Qed.

Lemma days_before_year_decomp n400 n100 n4 n1 :
  0 <= n100 <= 3 -> 0 <= n4 <= 24 -> 0 <= n1 <= 3 ->
  days_before_year (n400 * 400 + 1 + n100 * 100 + n4 * 4 + n1)
  = 146097 * n400 + 36524 * n100 + 1461 * n4 + 365 * n1.
Proof. intros. unfold days_before_year. zdiv. Qed.

(** [month_day] is right on every day of a common and of a leap year
    (checked by running it on the 366 days). *)
Lemma month_day_table :
  forallb (fun k => month_day_ok false (Z.of_nat k)) (seq 0 365)
  && forallb (fun k => month_day_ok true (Z.of_nat k)) (seq 0 366) = true.
Proof. vm_compute. reflexivity. Qed.

Lemma month_day_spec n leapyear :
  0 <= n < 365 + b2z leapyear ->
  month_day_ok leapyear n = true.
Proof.
  intros Hn. pose proof month_day_table as T.
  apply andb_true_iff in T. destruct T as [T0 T1].
  rewrite forallb_forall in T0, T1.
  replace n with (Z.of_nat (Z.to_nat n)) by lia.
  destruct leapyear; [apply T1 | apply T0]; apply in_seq; simpl in Hn; lia.
Qed.

(** The ordinal of the date that [ord2ymd] computes is the ordinal it
    started from. *)
Lemma ymd2ord_ord2ymd n :
  1 <= n ->
  let '(y, m, d) := ord2ymd n in
  ymd2ord y m d = n /\ 1 <= m <= 12 /\ 1 <= d <= 31
  /\ (n <= 3652059 -> 1 <= y <= 9999).
Proof.
  intros Hn. unfold ord2ymd, DI400Y, DI100Y, DI4Y.
  set (n0 := n - 1).
  set (n400 := n0 / 146097). set (r1 := n0 mod 146097).
  set (n100 := r1 / 36524). set (r2 := r1 mod 36524).
  set (n4 := r2 / 1461). set (r3 := r2 mod 1461).
  set (n1 := r3 / 365). set (r4 := r3 mod 365).
  assert (E1 : n0 = 146097 * n400 + r1 /\ 0 <= r1 < 146097 /\ 0 <= n400)
    by (unfold n400, r1, n0; zdiv).
  assert (E2 : r1 = 36524 * n100 + r2 /\ 0 <= r2 < 36524 /\ 0 <= n100 <= 4)
    by (unfold n100, r2; zdiv).
  assert (E3 : r2 = 1461 * n4 + r3 /\ 0 <= r3 < 1461 /\ 0 <= n4 <= 24)
    by (unfold n4, r3; zdiv).
  assert (E4 : r3 = 365 * n1 + r4 /\ 0 <= r4 < 365 /\ 0 <= n1 <= 4)
    by (unfold n1, r4; zdiv).
  clearbody n400 r1 n100 r2 n4 r3 n1 r4.
  destruct E1 as (E1 & R1 & B400), E2 as (E2 & R2 & B100),
           E3 as (E3 & R3 & B4), E4 as (E4 & R4 & B1).
  destruct ((n1 =? 4) || (n100 =? 4)) eqn:Hlast.
  - (* the last day of a 4-year or of a 400-year cycle *)
    assert (Hy : exists a b,
               n400 * 400 + 1 + n100 * 100 + n4 * 4 + n1 - 1
               = n400 * 400 + 1 + a * 100 + b * 4 + 3
               /\ 0 <= a <= 3 /\ 0 <= b <= 24
               /\ (b =? 24) && negb (a =? 3) = false
               /\ n0 = 146097 * n400 + 36524 * a + 1461 * b + 365 * 3 + 365).
    { apply orb_true_iff in Hlast.
      destruct Hlast as [H | H]; apply Z.eqb_eq in H.
      - exists n100, n4. assert (n100 <= 3) by lia. assert (n4 <= 23) by lia.
        destruct (Z.eqb_spec n4 24); [lia |].
        repeat split; try reflexivity; lia.
      - exists 3, 24. repeat split; try reflexivity; lia. }
    destruct Hy as (a & b & Ey & Ba & Bb & Hab & En).
    rewrite Ey. unfold ymd2ord, days_before_month.
    rewrite is_leap_decomp, days_before_year_decomp by lia.
    change (DAYS_BEFORE_MONTH 12) with 334. change (2 <? 12) with true.
    change (3 =? 3) with true.
    assert (Hl : negb (b =? 24) || (a =? 3) = true).
    { destruct (b =? 24), (a =? 3); simpl in *; congruence. }
    rewrite Hl. cbn [andb b2z]. repeat split; try lia.
  - apply orb_false_iff in Hlast. destruct Hlast as [Hl1 Hl2].
    apply Z.eqb_neq in Hl1, Hl2.
    set (leap := (n1 =? 3) && (negb (n4 =? 24) || (n100 =? 3))).
    assert (Hleap : is_leap (n400 * 400 + 1 + n100 * 100 + n4 * 4 + n1) = leap)
      by (apply is_leap_decomp; lia).
    assert (Hr : 0 <= r4 < 365 + b2z leap) by (destruct leap; simpl; lia).
    pose proof (month_day_spec r4 leap Hr) as Hok.
    unfold month_day_ok in Hok.
    destruct (month_day r4 leap) as [m d].
    repeat (apply andb_true_iff in Hok; destruct Hok as [Hok ?]).
    repeat match goal with
           | H : (_ <=? _) = true |- _ => apply Z.leb_le in H
           | H : (_ =? _) = true |- _ => apply Z.eqb_eq in H
           end.
    unfold ymd2ord, days_before_month. rewrite Hleap.
    rewrite days_before_year_decomp by lia.
    assert (DAYS_IN_MONTH m + b2z ((m =? 2) && leap) <= 31).
    { assert (Hc : m = 1 \/ m = 2 \/ m = 3 \/ m = 4 \/ m = 5 \/ m = 6 \/ m = 7
                   \/ m = 8 \/ m = 9 \/ m = 10 \/ m = 11 \/ m = 12) by lia.
      repeat (destruct Hc as [-> | Hc]); try subst m; destruct leap; simpl; lia. }
    repeat split; try lia.
Qed.

End CalendarFacts.

(** ** Equality tests decide equality *)

Lemma lex_compare_eq a b :
  List.length a = List.length b -> lex_compare a b = Eq -> a = b.
Proof.
  revert b. induction a as [| x a IH]; intros [| y b] Hlen H;
    simpl in *; try discriminate; auto.
  destruct (Z.compare_spec x y); try discriminate.
  subst. f_equal. apply IH; auto.
Qed.

Lemma lex_compare_refl a : lex_compare a a = Eq.
Proof. induction a; simpl; auto. rewrite Z.compare_refl. auto. Qed.

Lemma dt_eqb_eq a b : dt_eqb a b = true <-> a = b.
Proof.
  unfold dt_eqb, dt_compare. split.
  - intros H. destruct (lex_compare (dt_fields a) (dt_fields b)) eqn:E;
      try discriminate.
    apply lex_compare_eq in E; [| reflexivity].
    destruct a, b. unfold dt_fields in E. simpl in E. congruence.
  - intros ->. rewrite lex_compare_refl. reflexivity.
Qed.

Lemma scalar_eqb_eq a b : scalar_eqb a b = true <-> a = b.
Proof.
  destruct a, b; simpl; split; intros H; try discriminate; try reflexivity.
  - apply Bool.eqb_prop in H. congruence.
  - inversion H. apply Bool.eqb_reflx.
  - apply Z.eqb_eq in H. congruence.
  - inversion H. apply Z.eqb_refl.
  - apply String.eqb_eq in H. congruence.
  - inversion H. apply String.eqb_refl.
  - apply dt_eqb_eq in H. congruence.
  - inversion H. apply dt_eqb_eq. reflexivity.
  - apply String.eqb_eq in H. congruence.
  - inversion H. apply String.eqb_refl.
Qed.

Lemma list_eqb_eq {A} (eqb : A -> A -> bool) :
  (forall x y, eqb x y = true <-> x = y) ->
  forall a b, list_eqb eqb a b = true <-> a = b.
Proof.
  intros Heq. induction a as [| x a IH]; intros [| y b]; simpl;
    split; intros H; try discriminate; try reflexivity.
  - apply andb_true_iff in H. destruct H as [H1 H2].
    apply Heq in H1. apply IH in H2. congruence.
  - inversion H; subst. apply andb_true_iff. split.
    + apply Heq. reflexivity.
    + apply IH. reflexivity.
Qed.

Lemma dict_eqb_eq a b : dict_eqb a b = true <-> a = b.
Proof.
  unfold dict_eqb. apply list_eqb_eq.
  intros [k v] [k' v']. simpl. rewrite andb_true_iff, String.eqb_eq, scalar_eqb_eq.
  split; [intros [-> ->]; reflexivity | intros H; inversion H; auto].
Qed.

Lemma value_eqb_eq a b : value_eqb a b = true <-> a = b.
Proof.
  destruct a, b; simpl; split; intros H; try discriminate.
  - apply scalar_eqb_eq in H. congruence.
  - inversion H. apply scalar_eqb_eq. reflexivity.
  - apply dict_eqb_eq in H. congruence.
  - inversion H. apply dict_eqb_eq. reflexivity.
  - apply (list_eqb_eq dict_eqb dict_eqb_eq) in H. congruence.
  - inversion H. apply (list_eqb_eq dict_eqb dict_eqb_eq). reflexivity.
Qed.

Lemma value_eqb_refl a : value_eqb a a = true.
Proof. apply value_eqb_eq. reflexivity. Qed.

Lemma value_eqb_neq a b : value_eqb a b = false <-> a <> b.
Proof.
  split.
  - intros H E. apply value_eqb_eq in E. congruence.
  - intros H. destruct (value_eqb a b) eqn:E; auto.
    apply value_eqb_eq in E. contradiction.
Qed.

(** ** Dictionaries *)

Section DictFacts.
Context {A : Type}.
Implicit Types (d : list (string * A)) (k : string) (v : A).

Lemma lookup_assign_same k v d : lookup k (assign k v d) = Some v.
Proof.
  induction d as [| [k' v'] d IH]; simpl.
  - rewrite String.eqb_refl. reflexivity.
  - destruct (String.eqb_spec k k'); simpl.
    + subst. rewrite String.eqb_refl. reflexivity.
    + destruct (String.eqb_spec k k'); [contradiction | exact IH].
Qed.

Lemma lookup_assign_other k k' v d :
  k <> k' -> lookup k (assign k' v d) = lookup k d.
Proof.
  intros Hk. induction d as [| [k0 v0] d IH]; simpl.
  - destruct (String.eqb_spec k k'); [contradiction | reflexivity].
  - destruct (String.eqb_spec k' k0); simpl.
    + subst. destruct (String.eqb_spec k k0); [contradiction | reflexivity].
    + destruct (String.eqb_spec k k0); [reflexivity | exact IH].
Qed.

Lemma lookup_remove_key_other k k' d :
  k <> k' -> lookup k (remove_key k' d) = lookup k d.
Proof.
  intros Hk. induction d as [| [k0 v0] d IH]; simpl; auto.
  destruct (String.eqb_spec k' k0); simpl.
  - subst. destruct (String.eqb_spec k k0); [contradiction | exact IH].
  - destruct (String.eqb_spec k k0); [reflexivity | exact IH].
Qed.

Lemma length_assign_present k v d :
  has k d = true -> List.length (assign k v d) = List.length d.
Proof.
  unfold has. induction d as [| [k0 v0] d IH]; simpl; [discriminate |].
  destruct (String.eqb_spec k k0); simpl; auto.
Qed.
End DictFacts.

Lemma lookup_apply_set_other k sets d :
  ~ In k (map fst sets) ->
  lookup k (Mongo.apply_set sets d) = lookup k d.
Proof.
  unfold Mongo.apply_set. revert d.
  induction sets as [| [k' v'] sets IH]; intros d Hk; simpl in *; auto.
  rewrite IH by tauto. apply lookup_assign_other. intros ->. tauto.
Qed.

Lemma lookup_apply_set_last k v d :
  lookup k (Mongo.apply_set [(k, v)] d) = Some v.
Proof. unfold Mongo.apply_set. simpl. apply lookup_assign_same. Qed.

(** ** Store operations *)

Module MongoFacts.
Import Mongo.

(** An equality condition compares with what [d.get(k)] returns. *)
Lemma holds_Eq k v (d : document) :
  holds (Eq v) (lookup k d) = value_eqb (doc_get k d) v.
Proof. unfold doc_get, get_or. simpl. destruct (lookup k d); reflexivity. Qed.

Lemma matches_by_id v d :
  matches (by_id v) d = true <-> doc_get "_id" d = v.
Proof.
  unfold matches, by_id. cbn [forallb fst snd]. rewrite holds_Eq, andb_true_r.
  apply value_eqb_eq.
Qed.

Lemma matches_app q1 q2 d :
  matches (q1 ++ q2)%list d = matches q1 d && matches q2 d.
Proof. unfold matches. apply forallb_app. Qed.

Lemma find_one_some q c d :
  find_one q c = Some d -> In d c /\ matches q d = true.
Proof. apply find_some. Qed.

Lemma find_one_none q c :
  find_one q c = None -> forall d, In d c -> matches q d = false.
Proof. apply find_none. Qed.

Lemma find_one_exists q c d :
  In d c -> matches q d = true -> exists d', find_one q c = Some d'.
Proof.
  intros Hin Hm. destruct (find_one q c) eqn:E; eauto.
  rewrite (find_one_none _ _ E d Hin) in Hm. discriminate.
Qed.

Lemma delete_many_In q c d :
  In d (delete_many q c) <-> In d c /\ matches q d = false.
Proof.
  unfold delete_many. rewrite filter_In, negb_true_iff. tauto.
Qed.

Lemma insert_desc_In k d x l : In x (insert_desc k d l) <-> x = d \/ In x l.
Proof.
  induction l as [| y l IH]; simpl.
  - intuition.
  - destruct (bson_leb (lookup k y) (lookup k d)); simpl.
    + intuition.
    + rewrite IH. intuition.
Qed.

Lemma sort_desc_In k x c : In x (sort_desc k c) <-> In x c.
Proof.
  unfold sort_desc. induction c as [| d c IH]; simpl.
  - tauto.
  - rewrite insert_desc_In, IH. intuition.
Qed.

Lemma sort_desc_length k c : List.length (sort_desc k c) = List.length c.
Proof.
  unfold sort_desc. induction c as [| d c IH]; simpl; auto.
  rewrite <- IH. generalize (fold_right (fun d acc => insert_desc k d acc) [] c).
  intros l. induction l as [| y l IHl]; simpl; auto.
  destruct (bson_leb (lookup k y) (lookup k d)); simpl; auto.
Qed.

End MongoFacts.

(** ** Client deletion *)

(** C1, as the code has it: for a client id that is a well-formed ObjectId,
    after [delete_client] no Application, FormBuilder or CallRequest document
    carries that client_id, and the LlmSettings collection is exactly what it
    was; for any other id the handler deletes nothing. *)
Theorem delete_client_cascade (w : world) (client_id : string) :
  let w' := fst (delete_client w client_id) in
  match ObjectId client_id with
  | Some _ =>
      none_carries client_id (client_apps w')
      /\ none_carries client_id (form_builders w')
      /\ none_carries client_id (call_requests w')
      /\ llm_settings w' = llm_settings w
  | None => w' = w
  end.
Proof.
  unfold delete_client. destruct (ObjectId client_id) as [oid |]; simpl; auto.
  assert (H : forall c, none_carries client_id
            (Mongo.delete_many [("client_id", Mongo.Eq (Sc (SStr client_id)))] c)).
  { intros c d Hin Hc. apply MongoFacts.delete_many_In in Hin.
    destruct Hin as [_ Hm]. unfold Mongo.matches in Hm. cbn [forallb fst snd] in Hm.
    rewrite MongoFacts.holds_Eq, andb_true_r in Hm.
    unfold carries in Hc. rewrite Hc, value_eqb_refl in Hm. discriminate. }
  repeat split; auto.
Qed.

(** C1 fails as stated: an LlmSettings document of the deleted client is
    still there after [delete_client]. *)
Lemma delete_client_keeps_llm_settings :
  ObjectId Example.cid = Some Example.cid
  /\ In Fixtures.hotel_prompt
        (llm_settings (fst (delete_client (Fixtures.world_of []) Example.cid)))
  /\ carries Example.cid Fixtures.hotel_prompt.
Proof. repeat split; vm_compute; auto. Qed.

(** ** Review of a booking that does not exist *)

Lemma lookup_booking_none w id : no_booking w id -> lookup_booking w id = None.
Proof.
  intros H. unfold lookup_booking.
  destruct (ObjectId id) as [oid |] eqn:E.
  - destruct (Mongo.find_one _ _) as [d |] eqn:F; auto.
    apply MongoFacts.find_one_some in F. destruct F as [Hin Hm].
    apply MongoFacts.matches_by_id in Hm.
    destruct (H d Hin) as [_ Ho]. exfalso. exact (Ho oid E Hm).
  - destruct (Mongo.find_one _ _) as [d |] eqn:F; auto.
    apply MongoFacts.find_one_some in F. destruct F as [Hin Hm].
    apply MongoFacts.matches_by_id in Hm.
    destruct (H d Hin) as [Hs _]. contradiction.
Qed.

(** C10: when no CallRequest exists under the ObjectId or the string form
    of [id], [approve_booking] and [reject_booking] answer with the redirect
    and leave the whole world as it was: no document changed, no SMS
    requested, no call placed. *)
Theorem review_of_unknown_booking (e : env) (w : world) (id : string) :
  no_booking w id ->
  approve_booking e w id = (w, Redirect "/booking-data")
  /\ reject_booking e w id = (w, Redirect "/booking-data").
Proof.
  intros H. apply lookup_booking_none in H.
  unfold approve_booking, reject_booking. rewrite H. split; reflexivity.
Qed.

Lemma review_of_unknown_booking_witness :
  approve_booking Example.env0
    (Fixtures.world_of [Fixtures.booking Example.oid1 []]) Example.oid2
  = (Fixtures.world_of [Fixtures.booking Example.oid1 []],
     Redirect "/booking-data")
  /\ reject_booking Example.env0
       (Fixtures.world_of [Fixtures.booking Example.oid1 []]) Example.oid2
     = (Fixtures.world_of [Fixtures.booking Example.oid1 []],
        Redirect "/booking-data").
Proof.
  apply (review_of_unknown_booking Example.env0
           (Fixtures.world_of [Fixtures.booking Example.oid1 []]) Example.oid2).
  intros d [<- | []]. split.
  - vm_compute. discriminate.
  - intros oid E. vm_compute in E. inversion E. vm_compute. discriminate.
Defined.

(** ** Creating an application twice *)

(** C7, as the code has it: when the client already has an application of
    that name, [create_application] answers with a JSON error message under
    the default status 200 and inserts nothing. *)
Theorem create_application_duplicate
    (e : env) (w : world) (client_id app_name : value)
    (app_oid form_oid token : string) (existing : document) :
  In existing (client_apps w) ->
  lookup "client_id" existing = Some client_id ->
  lookup "app_name" existing = Some app_name ->
  create_application e w client_id app_name app_oid form_oid token
  = (w, JsonError 200 (if vtruthy app_name then "App already exists"
                       else "App name required")).
Proof.
  intros Hin Hc Ha. unfold create_application.
  destruct (vtruthy app_name) eqn:T; simpl; auto.
  assert (Hm : Mongo.matches [("client_id", Mongo.Eq client_id);
                              ("app_name", Mongo.Eq app_name)] existing = true).
  { unfold Mongo.matches. cbn [forallb fst snd]. rewrite Hc, Ha. simpl.
    rewrite !value_eqb_refl. reflexivity. }
  destruct (MongoFacts.find_one_exists _ _ _ Hin Hm) as [d' F].
  rewrite F. apply MongoFacts.find_one_some in F. destruct F as [_ Hm'].
  destruct d' as [| f d']; auto.
  (* an empty document has no [app_name], and [None] is not truthy *)
  unfold Mongo.matches in Hm'. cbn [forallb fst snd lookup] in Hm'.
  apply andb_true_iff in Hm'. destruct Hm' as [_ Hm'].
  rewrite andb_true_r in Hm'. simpl in Hm'.
  destruct app_name as [[] | |]; discriminate.
Qed.

Lemma create_application_duplicate_witness :
  create_application Example.env0 (Fixtures.world_of [])
    (Sc (SStr Example.cid)) (Sc (SStr "Hotel"))
    Example.oid1 Example.oid3 "00ff"
  = (Fixtures.world_of [], JsonError 200 "App already exists").
Proof.
  apply (create_application_duplicate Example.env0 (Fixtures.world_of [])
           (Sc (SStr Example.cid)) (Sc (SStr "Hotel"))
           Example.oid1 Example.oid3 "00ff" Fixtures.hotel_app).
  - simpl. auto.
  - reflexivity.
  - reflexivity.
Defined.

(** C7 fails as stated: the duplicate is answered with status 200, which is
    no 4xx status. *)
Lemma create_application_duplicate_status :
  status_code
    (snd (create_application Example.env0 (Fixtures.world_of [])
            (Sc (SStr Example.cid)) (Sc (SStr "Hotel"))
            Example.oid1 Example.oid3 "00ff")) = 200
  /\ In Fixtures.hotel_app (client_apps (Fixtures.world_of []))
  /\ doc_get "client_id" Fixtures.hotel_app = Sc (SStr Example.cid)
  /\ doc_get "app_name" Fixtures.hotel_app = Sc (SStr "Hotel").
Proof. repeat split; vm_compute; auto. Qed.

(** ** The read API *)

Lemma doc_get_lookup k (d : document) v :
  doc_get k d = v -> v <> Sc SNone -> lookup k d = Some v.
Proof.
  unfold doc_get, get_or. destruct (lookup k d); intros; subst; congruence.
Qed.

Lemma doc_get_remove_key_other k k' (d : document) :
  k <> k' -> doc_get k (remove_key k' d) = doc_get k d.
Proof.
  intros H. unfold doc_get, get_or. rewrite lookup_remove_key_other; auto.
Qed.

(** C6: without an [x-api-key] header, or with one that matches no stored
    ApiKey, [api_calls] answers 401 with an error message and no booking
    data; with a key whose record has scope SINGLE_APP and is bound to an
    application, every returned record has that application's name. *)
Theorem api_calls_guard_and_scope (w : world) :
  (forall key,
      key = None \/ key = Some ""
      \/ (exists k, key = Some k
                    /\ forall d, In d (api_keys w) ->
                                 doc_get "api_key" d <> Sc (SStr k)) ->
      unauthorized (api_calls w key))
  /\
  (forall k api a,
      k <> "" ->
      Mongo.find_one [("api_key", Mongo.Eq (Sc (SStr k)))] (api_keys w)
      = Some api ->
      doc_get "scope" api = Sc (SStr "SINGLE_APP") ->
      doc_get "app_name" api = Sc (SStr a) -> a <> "" ->
      exists data,
        api_calls w (Some k)
        = JsonCalls 200 (doc_get "client_id" api)
                    (Z.of_nat (List.length data)) data
        /\ Forall (fun d => doc_get "app_name" d = Sc (SStr a)) data).
Proof.
  split.
  - intros key [-> | [-> | (k & -> & Hk)]].
    + eexists. reflexivity.
    + eexists. reflexivity.
    + unfold api_calls. destruct k as [| c k]; [eexists; reflexivity |].
      destruct (Mongo.find_one _ _) as [[| f api] |] eqn:F;
        try (eexists; reflexivity).
      apply MongoFacts.find_one_some in F. destruct F as [Hin Hm].
      unfold Mongo.matches in Hm. cbn [forallb fst snd] in Hm.
      rewrite MongoFacts.holds_Eq, andb_true_r in Hm.
      apply value_eqb_eq in Hm. exfalso. exact (Hk _ Hin Hm).
  - intros k api a Hk F Hscope Happ Ha.
    unfold api_calls. destruct k as [| c k]; [congruence |].
    rewrite F. destruct api as [| f api]; [discriminate |].
    set (key := f :: api) in *.
    assert (Hs : get_or "scope" (Sc (SStr "ALL_APPS")) key
                 = Sc (SStr "SINGLE_APP")).
    { unfold get_or. rewrite (doc_get_lookup _ _ _ Hscope); congruence. }
    rewrite Hs, Happ.
    assert (Ht : vtruthy (Sc (SStr a)) = true).
    { simpl. apply negb_true_iff. apply String.eqb_neq. exact Ha. }
    rewrite Ht. cbn [value_eqb scalar_eqb andb].
    change (String.eqb "SINGLE_APP" "SINGLE_APP") with true. cbn iota.
    eexists. split; [reflexivity |].
    apply Forall_forall. intros d Hd.
    unfold Mongo.project_out in Hd. apply in_map_iff in Hd.
    destruct Hd as (d0 & <- & Hd0).
    apply MongoFacts.sort_desc_In in Hd0.
    unfold Mongo.find in Hd0. apply filter_In in Hd0. destruct Hd0 as [_ Hm].
    unfold Mongo.matches in Hm. cbn [forallb fst snd app] in Hm.
    apply andb_true_iff in Hm. destruct Hm as [_ Hm].
    cbn [fst snd] in Hm. rewrite MongoFacts.holds_Eq, andb_true_r in Hm.
    apply value_eqb_eq in Hm.
    rewrite doc_get_remove_key_other by discriminate. exact Hm.
Qed.

Lemma api_calls_guard_and_scope_witness :
  unauthorized (api_calls Fixtures.keyed_world (Some "sk_other"))
  /\ exists data,
       api_calls Fixtures.keyed_world (Some "sk_1")
       = JsonCalls 200 (Sc (SStr Example.cid)) (Z.of_nat (List.length data)) data
       /\ Forall (fun d => doc_get "app_name" d = Sc (SStr "Hotel")) data.
Proof.
  split.
  - apply (proj1 (api_calls_guard_and_scope Fixtures.keyed_world)).
    right. right. exists "sk_other". split; [reflexivity |].
    intros d [<- | []]. vm_compute. discriminate.
  - apply (proj2 (api_calls_guard_and_scope Fixtures.keyed_world)
             "sk_1" Fixtures.single_app_key "Hotel").
    + discriminate.
    + reflexivity.
    + reflexivity.
    + reflexivity.
    + discriminate.
Defined.

(** ** Booking intake through [api_submit] *)

(** Notifying the client only adds to the message log. *)
Lemma notify_client_sms_frame e w client_id app_name user_name user_phone :
  let w' := notify_client_sms e w client_id app_name user_name user_phone in
  call_requests w' = call_requests w /\ calls w' = calls w
  /\ form_builders w' = form_builders w /\ client_apps w' = client_apps w
  /\ llm_settings w' = llm_settings w.
Proof.
  unfold notify_client_sms.
  repeat match goal with
         | |- context [if ?c then _ else _] => destruct c
         | |- context [match ?x with _ => _ end] => destruct x
         end; simpl; auto.
Qed.

(** *** What the driver can encode of a submission *)




















(** C5 as it was stated fails on a form whose labels are exactly
    "Full Name" and "Phone Number": when the second field is named
    [fieldname_2], its label is taken for the name label and the phone
    number is stored as the name. *)
Lemma api_submit_asha_named_field :
  form_fields Fixtures.builder_form
  = Some [ [("label", SStr "Full Name"); ("name", SStr "fieldname_1");
            ("type", SStr "text"); ("required", SBool true)];
           [("label", SStr "Phone Number"); ("name", SStr "fieldname_2");
            ("type", SStr "tel"); ("required", SBool true)] ]
  /\ Mongo.find_one
       [("api_key", Mongo.Eq (Sc (SStr "0123456789abcdef0123456789abcdef")))]
       (form_builders Fixtures.builder_world)
     = Some Fixtures.builder_form
  /\ exists w' record,
       api_submit Example.env0 Fixtures.builder_world
                  "0123456789abcdef0123456789abcdef"
                  [("Full Name", SStr "Asha");
                   ("Phone Number", SStr "9876543210")]
                  Example.oid2
       = (w', JsonSubmit 200 "success" "Form received successfully"
                Example.oid2 (SStr "9876543210") (SStr "9876543210") false)
       /\ call_requests w' = [record]
       /\ doc_get "name" record = Sc (SStr "9876543210")
       /\ doc_get "phone" record = Sc (SStr "9876543210").
Proof.
  split; [reflexivity |]. split; [reflexivity |].
  eexists. eexists. split; [vm_compute; reflexivity |].
  split; [reflexivity |]. split; reflexivity.
Qed.

(** ** The year fix of the scheduled call time *)


(** Year 26 and year 2026 are both common years, so the replacement of a
    valid date of year 26 never raises. *)
Lemma fix_year_26 e t :
  valid_datetime t = true -> year t = 26 ->
  fix_year e (Some t)
  = Some (Some (mkDatetime 2026 (month t) (day t) (hour t) (minute t)
                           (second t) (microsecond t))).
Proof.
  intros Hv Hy. unfold fix_year, replace_year. rewrite Hy. simpl.
  unfold valid_datetime, Calendar.valid_date in Hv. rewrite Hy in Hv.
  repeat (apply andb_true_iff in Hv; destruct Hv as [Hv ?]).
  unfold Calendar.valid_date.
  assert (E : Calendar.days_in_month 2026 (month t)
              = Calendar.days_in_month 26 (month t)).
  { unfold Calendar.days_in_month.
    change (Calendar.is_leap 2026) with false.
    change (Calendar.is_leap 26) with false. reflexivity. }
  rewrite E.
  repeat match goal with H : _ = true |- _ => rewrite H; clear H end.
  reflexivity.
Qed.



(** C4 at the failing input: [submit_form] parses "0026-05-01T10:00",
    answers with the success page and stores the record with [call_time]
    still in year 26; the year fix has only changed the local variable. *)
Theorem submit_form_stores_year_26 :
  exists w' record,
    submit_form Example.env0 (Fixtures.world_of []) "Hotel"
                Fixtures.year_26_form (Sc SNone) Example.oid2
    = (w', Template 200 "success.html")
    /\ call_requests w' = [record]
    /\ doc_get "call_time" record = Sc (SDate (mkDatetime 26 5 1 10 0 0 0))
    /\ strptime Example.env0 "%Y-%m-%dT%H:%M" "0026-05-01T10:00"
       = Some (mkDatetime 26 5 1 10 0 0 0)
    /\ fix_year Example.env0 (Some (mkDatetime 26 5 1 10 0 0 0))
       = Some (Some (mkDatetime 2026 5 1 10 0 0 0)).
Proof.
  do 2 eexists. split; [vm_compute; reflexivity |].
  split; [reflexivity |]. repeat split.
Qed.

(** ** Day labels *)

Lemma digit_inj a b :
  0 <= a <= 9 -> 0 <= b <= 9 -> Py.digit a = Py.digit b -> a = b.
Proof.
  intros Ha Hb H. unfold Py.digit in H.
  apply (f_equal nat_of_ascii) in H.
  rewrite !nat_ascii_embedding in H by lia. lia.
Qed.

Lemma pad2_inj a b :
  0 <= a <= 99 -> 0 <= b <= 99 -> Py.pad2 a = Py.pad2 b -> a = b.
Proof.
  intros Ha Hb H. unfold Py.pad2 in H. injection H as H1 H2.
  apply digit_inj in H1; [| CalendarFacts.zdiv | CalendarFacts.zdiv].
  apply digit_inj in H2; [| CalendarFacts.zdiv | CalendarFacts.zdiv].
  CalendarFacts.zdiv.
Qed.

Lemma pad4_inj a b :
  0 <= a <= 9999 -> 0 <= b <= 9999 -> Py.pad4 a = Py.pad4 b -> a = b.
Proof.
  intros Ha Hb H. unfold Py.pad4 in H. injection H as H1 H2 H3 H4.
  apply digit_inj in H1; [| CalendarFacts.zdiv | CalendarFacts.zdiv].
  apply digit_inj in H2; [| CalendarFacts.zdiv | CalendarFacts.zdiv].
  apply digit_inj in H3; [| CalendarFacts.zdiv | CalendarFacts.zdiv].
  apply digit_inj in H4; [| CalendarFacts.zdiv | CalendarFacts.zdiv].
  CalendarFacts.zdiv.
Qed.

(** Two dates within the calendar's range that print alike are the same
    date. *)
Lemma strftime_ymd_inj a b :
  0 <= year a <= 9999 -> 0 <= month a <= 99 -> 0 <= day a <= 99 ->
  0 <= year b <= 9999 -> 0 <= month b <= 99 -> 0 <= day b <= 99 ->
  strftime_ymd a = strftime_ymd b ->
  year a = year b /\ month a = month b /\ day a = day b.
Proof.
  intros Ya Ma Da Yb Mb Db H. unfold strftime_ymd in H.
  assert (P4 : forall n, Py.pad4 n
             = String (Py.digit (n / 1000)) (String (Py.digit (n / 100 mod 10))
                 (String (Py.digit (n / 10 mod 10))
                    (String (Py.digit (n mod 10)) EmptyString)))) by reflexivity.
  assert (P2 : forall n, Py.pad2 n
             = String (Py.digit (n / 10))
                 (String (Py.digit (n mod 10)) EmptyString)) by reflexivity.
  rewrite !P4, !P2 in H. cbn [append] in H.
  injection H as H1 H2 H3 H4 H5 H6 H7 H8.
  repeat split.
  - apply pad4_inj; auto. rewrite !P4. congruence.
  - apply pad2_inj; auto. rewrite !P2. congruence.
  - apply pad2_inj; auto. rewrite !P2. congruence.
Qed.

(** Ordinals of valid dates lie between 0001-01-01 and 9999-12-31. *)
Lemma ymd2ord_range y m d :
  Calendar.valid_date y m d = true -> 1 <= Calendar.ymd2ord y m d <= 3652059.
Proof.
  unfold Calendar.valid_date, Calendar.ymd2ord.
  intros H. repeat (apply andb_true_iff in H; destruct H as [H ?]).
  repeat match goal with
         | H : (_ <=? _) = true |- _ => apply Z.leb_le in H
         end.
  assert (Hl : Calendar.is_leap y = true -> y <= 9996).
  { unfold Calendar.is_leap. intros Hb.
    destruct (Z.eqb_spec (y mod 4) 0); simpl in Hb; [| discriminate].
    CalendarFacts.zdiv. }
  assert (Hm : 0 <= Calendar.days_before_month y m
               /\ Calendar.days_before_month y m + d
                  <= 365 + Calendar.b2z (Calendar.is_leap y)).
  { unfold Calendar.days_before_month, Calendar.days_in_month in *.
    clear Hl.
    assert (Hc : m = 1 \/ m = 2 \/ m = 3 \/ m = 4 \/ m = 5 \/ m = 6 \/ m = 7
                 \/ m = 8 \/ m = 9 \/ m = 10 \/ m = 11 \/ m = 12) by lia.
    destruct (Calendar.is_leap y);
      destruct Hc as [-> | [-> | [-> | [-> | [-> | [-> | [-> | [-> | [-> |
                     [-> | [-> | ->]]]]]]]]]]];
      cbv [Calendar.DAYS_BEFORE_MONTH Calendar.DAYS_IN_MONTH Calendar.b2z
           andb Z.ltb Z.eqb Pos.eqb Z.compare Pos.compare Pos.compare_cont] in *;
      lia. }
  destruct (Calendar.is_leap y) eqn:L; cbv [Calendar.b2z] in Hm;
    unfold Calendar.days_before_year.
  - specialize (Hl eq_refl). CalendarFacts.zdiv.
  - CalendarFacts.zdiv.
Qed.

Lemma toordinal_range t :
  valid_datetime t = true -> 1 <= toordinal t <= 3652059.
Proof.
  unfold valid_datetime, toordinal. intros H.
  repeat rewrite andb_true_iff in H.
  apply ymd2ord_range. tauto.
Qed.

(** [sub_days] moves the ordinal by the number of days, and its result
    stays printable. *)
Lemma sub_days_spec t k :
  1 <= toordinal t - k <= 3652059 ->
  toordinal (sub_days t k) = toordinal t - k
  /\ 1 <= year (sub_days t k) <= 9999
  /\ 1 <= month (sub_days t k) <= 12
  /\ 1 <= day (sub_days t k) <= 31.
Proof.
  intros H. unfold sub_days.
  pose proof (CalendarFacts.ymd2ord_ord2ymd (toordinal t - k) ltac:(lia)) as R.
  destruct (Calendar.ord2ymd (toordinal t - k)) as [[y m] d].
  destruct R as (R1 & R2 & R3 & R4). specialize (R4 ltac:(lia)).
  unfold toordinal in *. cbn [year month day]. repeat split; lia.
Qed.

Lemma sub_days_label_inj t j k :
  1 <= toordinal t - j <= 3652059 ->
  1 <= toordinal t - k <= 3652059 ->
  strftime_ymd (sub_days t j) = strftime_ymd (sub_days t k) -> j = k.
Proof.
  intros Hj Hk H.
  destruct (sub_days_spec t j Hj) as (Oj & Yj & Mj & Dj).
  destruct (sub_days_spec t k Hk) as (Ok & Yk & Mk & Dk).
  revert H Oj Yj Mj Dj Ok Yk Mk Dk.
  generalize (sub_days t j) (sub_days t k). intros a b H Oj Yj Mj Dj Ok Yk Mk Dk.
  apply strftime_ymd_inj in H; try lia.
  destruct H as (Hy & Hm & Hd).
  assert (E : toordinal a = toordinal b)
    by (unfold toordinal; rewrite Hy, Hm, Hd; reflexivity).
  lia.
Qed.

(** ** Grouping and sorting *)

Lemma occurrences_nonneg d keys : 0 <= occurrences d keys.
Proof. induction keys; simpl; [lia | destruct (String.eqb a d); lia]. Qed.

Lemma occurrences_zero d keys : ~ In d keys -> occurrences d keys = 0.
Proof.
  induction keys as [| k t IH]; simpl; auto. intros H.
  destruct (String.eqb_spec k d); [tauto |]. rewrite IH; tauto.
Qed.

Lemma occurrences_pos d keys : In d keys -> 1 <= occurrences d keys.
Proof.
  induction keys as [| k t IH]; simpl; [tauto |]. intros [-> | H].
  - rewrite String.eqb_refl. pose proof (occurrences_nonneg d t). lia.
  - specialize (IH H). destruct (String.eqb k d); lia.
Qed.

Lemma count_on_cons d x l :
  count_on d (x :: l) = if String.eqb (fst x) d then snd x else count_on d l.
Proof. unfold count_on. simpl. destruct (String.eqb (fst x) d); reflexivity. Qed.

Lemma count_on_bump d k acc :
  count_on d (bump k acc)
  = (if String.eqb k d then 1 else 0) + count_on d acc.
Proof.
  induction acc as [| [k' n] acc IH]; simpl.
  - rewrite count_on_cons. simpl. unfold count_on. simpl.
    destruct (String.eqb k d); reflexivity.
  - destruct (String.eqb_spec k k') as [-> | Hk].
    + rewrite !count_on_cons. simpl. destruct (String.eqb k' d); lia.
    + rewrite !count_on_cons. simpl. rewrite IH.
      destruct (String.eqb_spec k' d) as [-> | Hd]; auto.
      destruct (String.eqb_spec k d); [contradiction | lia].
Qed.

Lemma count_on_group d keys acc :
  count_on d (fold_left (fun acc k => bump k acc) keys acc)
  = count_on d acc + occurrences d keys.
Proof.
  revert acc. induction keys as [| k t IH]; intros acc; simpl; [lia |].
  rewrite IH, count_on_bump. lia.
Qed.

Lemma bump_keys k acc a :
  In a (map fst (bump k acc)) <-> a = k \/ In a (map fst acc).
Proof.
  induction acc as [| [k' n] acc IH]; simpl.
  - intuition.
  - destruct (String.eqb_spec k k') as [-> | Hk]; simpl.
    + intuition.
    + rewrite IH. intuition.
Qed.

Lemma bump_NoDup k acc : NoDup (map fst acc) -> NoDup (map fst (bump k acc)).
Proof.
  induction acc as [| [k' n] acc IH]; simpl; intros H.
  - constructor; [simpl; tauto | constructor].
  - inversion H; subst. destruct (String.eqb_spec k k') as [-> | Hk]; simpl.
    + constructor; auto.
    + constructor; auto. rewrite bump_keys. intros [E | E]; congruence.
Qed.

Lemma group_NoDup keys acc :
  NoDup (map fst acc) ->
  NoDup (map fst (fold_left (fun acc k => bump k acc) keys acc)).
Proof.
  revert acc. induction keys as [| k t IH]; intros acc H; simpl; auto.
  apply IH. apply bump_NoDup. exact H.
Qed.

Lemma insert_asc_keys x l a :
  In a (map fst (insert_asc x l)) <-> a = fst x \/ In a (map fst l).
Proof.
  induction l as [| y l IH]; simpl.
  - intuition.
  - destruct (String.leb (fst x) (fst y)); simpl.
    + intuition.
    + rewrite IH. intuition.
Qed.

Lemma insert_asc_In x l p : In p (insert_asc x l) <-> p = x \/ In p l.
Proof.
  induction l as [| y l IH]; simpl.
  - intuition.
  - destruct (String.leb (fst x) (fst y)); simpl.
    + intuition.
    + rewrite IH. intuition.
Qed.

Lemma sort_by_id_In l p : In p (sort_by_id l) <-> In p l.
Proof.
  unfold sort_by_id. induction l as [| x l IH]; simpl; [tauto |].
  rewrite insert_asc_In, IH. intuition.
Qed.

Lemma count_on_insert_asc d x l :
  ~ In (fst x) (map fst l) ->
  count_on d (insert_asc x l) = count_on d (x :: l).
Proof.
  induction l as [| y l IH]; simpl; intros H; auto.
  destruct (String.leb (fst x) (fst y)); auto.
  rewrite (count_on_cons d y), IH by tauto.
  rewrite !count_on_cons.
  destruct (String.eqb_spec (fst y) d) as [Ey | Ey]; auto.
  destruct (String.eqb_spec (fst x) d) as [Ex | Ex]; auto.
  exfalso. apply H. left. congruence.
Qed.

Lemma count_on_sort d l :
  NoDup (map fst l) -> count_on d (sort_by_id l) = count_on d l.
Proof.
  induction l as [| x l IH]; intros H; auto.
  change (sort_by_id (x :: l)) with (insert_asc x (sort_by_id l)).
  inversion H; subst. rewrite count_on_insert_asc.
  - rewrite !count_on_cons, IH; auto.
  - intros Hin. apply in_map_iff in Hin. destruct Hin as (p & Ep & Hp).
    apply (proj1 (sort_by_id_In _ _)) in Hp.
    apply H2. rewrite <- Ep. apply in_map. exact Hp.
Qed.

(** The count a dashboard reads for a day is the number of matched
    documents of that day. *)
Lemma count_on_trend d keys :
  count_on d (sort_by_id (group_count keys)) = occurrences d keys.
Proof.
  unfold group_count. rewrite count_on_sort.
  - rewrite count_on_group. reflexivity.
  - apply group_NoDup. constructor.
Qed.

Lemma bump_entries k acc :
  (forall q, In q acc -> 1 <= snd q) ->
  forall q, In q (bump k acc) -> 1 <= snd q.
Proof.
  induction acc as [| [k' n] acc IH]; simpl; intros Hacc q Hq.
  - destruct Hq as [<- | []]. simpl. lia.
  - destruct (String.eqb k k').
    + destruct Hq as [<- | Hq]; simpl.
      * specialize (Hacc (k', n) (or_introl eq_refl)). simpl in Hacc. lia.
      * apply Hacc. right. exact Hq.
    + destruct Hq as [<- | Hq].
      * apply Hacc. left. reflexivity.
      * apply IH; auto.
Qed.

(** Every group that the pipeline returns has a day of a matched document
    and a count of at least one. *)
Lemma group_entries keys acc p :
  (forall q, In q acc -> 1 <= snd q) ->
  In p (fold_left (fun acc k => bump k acc) keys acc) ->
  1 <= snd p /\ (In (fst p) keys \/ In (fst p) (map fst acc)).
Proof.
  revert acc. induction keys as [| k t IH]; intros acc Hacc Hp; simpl in *.
  - split; auto. right. apply in_map. exact Hp.
  - apply IH in Hp; [| apply bump_entries; exact Hacc].
    destruct Hp as [H1 [H2 | H2]]; split; auto.
    apply bump_keys in H2. intuition.
Qed.

(** ** The 7-day trend *)

Lemma filter_map_In {A B} (f : A -> option B) l y :
  In y (filter_map f l) <-> exists x, In x l /\ f x = Some y.
Proof.
  induction l as [| a l IH]; simpl.
  - split; [tauto | intros (x & [] & _)].
  - destruct (f a) eqn:E; simpl; rewrite IH; split.
    + intros [<- | (x & Hx & Hf)]; eauto.
    + intros (x & [<- | Hx] & Hf); [left; congruence | eauto].
    + intros (x & Hx & Hf); eauto.
    + intros (x & [<- | Hx] & Hf); [congruence | eauto].
Qed.

Lemma trend_labels_NoDup e :
  valid_datetime (utcnow e) = true -> 7 <= toordinal (utcnow e) ->
  NoDup (map (fun i => day_label e (6 - Z.of_nat i)) (seq 0 7)).
Proof.
  intros Hv H7. pose proof (toordinal_range _ Hv) as Hr.
  apply NoDup_map_NoDup_ForallPairs; [| apply seq_NoDup].
  intros i j Hi Hj E. apply in_seq in Hi, Hj.
  cbv beta in E. unfold day_label in E.
  apply (sub_days_label_inj (utcnow e) (6 - Z.of_nat i) (6 - Z.of_nat j)) in E;
    lia.
Qed.

Lemma analytics_trend_labels e w client_id :
  fst (analytics_trend e w client_id)
  = map (fun i => day_label e (6 - Z.of_nat i)) (seq 0 7).
Proof. unfold analytics_trend. cbn [fst]. unfold day_label. reflexivity. Qed.

(** C8, as the code has it: the trend of the client analytics endpoint is
    date-bucketed and zero-filled: its labels are the last 7 calendar days,
    oldest first, each exactly once; the value under a label is the number
    of the client's submissions of the window that fall on that day, and it
    is 0 for a day on which the client has no submission.  The admin
    endpoints return the groups of the aggregation as they are: every day
    they list has at least one submission, so a day without submissions does
    not appear. *)
Theorem analytics_trend_zero_filled (e : env) (w : world) (client_id : value) :
  valid_datetime (utcnow e) = true ->
  7 <= toordinal (utcnow e) ->
  let labels := fst (analytics_trend e w client_id) in
  let values := snd (analytics_trend e w client_id) in
  List.length labels = 7%nat
  /\ List.length values = 7%nat
  /\ NoDup labels
  /\ (forall i, (i < 7)%nat ->
        nth_error labels i = Some (day_label e (6 - Z.of_nat i))
        /\ toordinal (sub_days (utcnow e) (6 - Z.of_nat i))
           = toordinal (utcnow e) - 6 + Z.of_nat i
        /\ nth_error values i
           = Some (occurrences (day_label e (6 - Z.of_nat i))
                     (filter_map created_day (trend_window e w client_id))))
  /\ (forall i, (i < 7)%nat ->
        (forall d, In d (call_requests w) ->
                   doc_get "client_id" d = client_id ->
                   created_day d <> Some (day_label e (6 - Z.of_nat i))) ->
        nth_error values i = Some 0)
  /\ (forall day n,
        In (day, n) (system_analytics_calls_per_day e w)
        \/ In (day, n) (super_dashboard_trend_data e w) ->
        1 <= n
        /\ exists d, In d (call_requests w) /\ created_day d = Some day).
Proof.
  intros Hv H7 labels values.
  pose proof (toordinal_range _ Hv) as Hr.
  assert (Hval : forall i, (i < 7)%nat ->
            nth_error values i
            = Some (occurrences (day_label e (6 - Z.of_nat i))
                      (filter_map created_day (trend_window e w client_id)))).
  { intros i Hi. unfold values, analytics_trend. cbn [snd].
    rewrite map_map, nth_error_map.
    rewrite (nth_error_nth' (seq 0 7) 0%nat) by (rewrite length_seq; exact Hi).
    rewrite seq_nth by exact Hi. cbn [option_map Nat.add].
    unfold trend_pipeline. rewrite count_on_trend. reflexivity. }
  split; [reflexivity |]. split; [reflexivity |].
  split; [unfold labels; rewrite analytics_trend_labels;
          apply trend_labels_NoDup; assumption |].
  split; [| split].
  - intros i Hi. split; [| split].
    + unfold labels. rewrite analytics_trend_labels, nth_error_map.
      rewrite (nth_error_nth' (seq 0 7) 0%nat) by (rewrite length_seq; exact Hi).
      rewrite seq_nth by exact Hi. reflexivity.
    + destruct (sub_days_spec (utcnow e) (6 - Z.of_nat i)) as [Ho _]; lia.
    + apply Hval. exact Hi.
  - intros i Hi Hnone. rewrite Hval by exact Hi. f_equal.
    apply occurrences_zero. intros Hin.
    apply filter_map_In in Hin. destruct Hin as (d & Hd & Hday).
    unfold trend_window, Mongo.find in Hd. apply filter_In in Hd.
    destruct Hd as [Hd Hm]. unfold Mongo.matches in Hm.
    cbn [forallb fst snd] in Hm. apply andb_true_iff in Hm.
    destruct Hm as [Hm _]. rewrite MongoFacts.holds_Eq in Hm.
    apply value_eqb_eq in Hm. exact (Hnone d Hd Hm Hday).
  - intros day n Hin.
    assert (Hp : In (day, n) (trend_pipeline e [] (call_requests w)))
      by (destruct Hin as [Hin | Hin]; exact Hin).
    unfold trend_pipeline in Hp. apply (proj1 (sort_by_id_In _ _)) in Hp.
    unfold group_count in Hp. apply group_entries in Hp; [| intros q []].
    destruct Hp as [Hn [Hk | []]]. split; [exact Hn |].
    cbn [fst] in Hk. apply filter_map_In in Hk.
    destruct Hk as (d & Hd & Hday). exists d. split; [| exact Hday].
    unfold Mongo.find in Hd. apply filter_In in Hd. tauto.
Qed.

Lemma analytics_trend_zero_filled_witness :
  analytics_trend Example.env0 Fixtures.keyed_world (Sc (SStr Example.cid))
  = (["2026-10-28"; "2026-10-29"; "2026-10-30"; "2026-10-31"; "2026-11-01";
      "2026-11-02"; "2026-11-03"],
     [0; 0; 0; 0; 0; 0; 2])
  /\ NoDup (fst (analytics_trend Example.env0 Fixtures.keyed_world
                                 (Sc (SStr Example.cid)))).
Proof.
  split; [vm_compute; reflexivity |].
  apply (analytics_trend_zero_filled Example.env0 Fixtures.keyed_world
           (Sc (SStr Example.cid)));
    vm_compute; [reflexivity | discriminate].
Defined.

(** C8 fails as stated for the admin endpoints: with two submissions today
    and none on the six days before, [system_analytics] and
    [super_dashboard] list today only, while the client's trend lists all
    seven days. *)
Lemma admin_trend_not_zero_filled :
  system_analytics_calls_per_day Example.env0 Fixtures.keyed_world
  = [("2026-11-03", 2)]
  /\ super_dashboard_trend_data Example.env0 Fixtures.keyed_world
     = [("2026-11-03", 2)]
  /\ day_label Example.env0 1 = "2026-11-02"
  /\ count_on "2026-11-02"
       (system_analytics_calls_per_day Example.env0 Fixtures.keyed_world) = 0
  /\ List.find (fun x => String.eqb (fst x) "2026-11-02")
       (super_dashboard_trend_data Example.env0 Fixtures.keyed_world) = None.
Proof. repeat split; vm_compute; reflexivity. Qed.

(** ** Updates keep what they do not set *)

Lemma agree_refl ks d : agree ks d d.
Proof. intros k _. reflexivity. Qed.

Lemma apply_set_agree ks sets d :
  (forall k, In k ks -> ~ In k (map fst sets)) ->
  agree ks d (Mongo.apply_set sets d).
Proof.
  intros H k Hk. symmetry. apply lookup_apply_set_other. apply H. exact Hk.
Qed.



Lemma matches_by_id_agree v d d' :
  agree ["_id"] d d' ->
  Mongo.matches (by_id v) d = Mongo.matches (by_id v) d'.
Proof.
  intros H. unfold Mongo.matches, by_id. cbn [forallb fst snd].
  rewrite (H "_id" (or_introl eq_refl)). reflexivity.
Qed.



(** Updating by the identifier of a found document updates that very
    document. *)
Lemma find_after_update v sets c d :
  ~ In "_id" (map fst sets) ->
  Mongo.find_one (by_id v) c = Some d ->
  Mongo.find_one (by_id v) (Mongo.update_one (by_id v) sets c)
  = Some (Mongo.apply_set sets d).
Proof.
  intros Hs. unfold Mongo.find_one.
  induction c as [| x c IH]; cbn [find Mongo.update_one]; [discriminate |].
  destruct (Mongo.matches (by_id v) x) eqn:M.
  - intros E. inversion E; subst. cbn [find].
    rewrite <- (matches_by_id_agree v d (Mongo.apply_set sets d)), M; auto.
    apply apply_set_agree. intros k [<- | []]. exact Hs.
  - intros E. cbn [find]. rewrite M. apply IH. exact E.
Qed.

Lemma lookup_booking_id w id b :
  lookup_booking w id = Some b ->
  exists v, doc_get "_id" b = v
            /\ Mongo.find_one (by_id v) (call_requests w) = Some b
            /\ forall w', lookup_booking w' id
                          = Mongo.find_one (by_id v) (call_requests w').
Proof.
  unfold lookup_booking. destruct (ObjectId id) as [oid |]; intros F;
    pose proof (MongoFacts.find_one_some _ _ _ F) as [_ M];
    apply MongoFacts.matches_by_id in M; rewrite M; eauto.
Qed.

(** ** Telephony helpers *)




(** ** Approval *)

(** The state after the status update and the notification of
    [approve_booking] and [reject_booking]. *)
Lemma reviewed_status w b v status :
  doc_get "_id" b = v ->
  Mongo.find_one (by_id v) (call_requests w) = Some b ->
  exists b1,
    Mongo.find_one (by_id v) (call_requests (set_status status b w)) = Some b1
    /\ doc_get "status" b1 = Sc (SStr status).
Proof.
  intros Hv F. unfold set_status. rewrite Hv. cbn [call_requests set_call_requests].
  eexists. split.
  - apply find_after_update; [simpl; intuition discriminate | exact F].
  - unfold doc_get, get_or. rewrite lookup_apply_set_last. reflexivity.
Qed.

Lemma send_status_sms_effect e w phone status app_name user_name :
  twilio_client e = true -> vtruthy phone = true ->
  send_status_sms e w phone status app_name user_name
  = log_sms (mkSms (sms_target phone) (StatusNotice status app_name user_name)) w.
Proof. intros T P. unfold send_status_sms. rewrite T, P. reflexivity. Qed.




(** ** The poller *)






Lemma update_one_In q sets c d' :
  In d' (Mongo.update_one q sets c) ->
  In d' c \/ exists d, In d c /\ d' = Mongo.apply_set sets d.
Proof.
  induction c as [| x c IH]; simpl; [tauto |].
  destruct (Mongo.matches q x); simpl.
  - intros [<- | H]; [right; eauto | left; auto].
  - intros [<- | H]; [left; auto |].
    destruct (IH H) as [H' | (d & Hd & E)]; [left; auto | right; eauto].
Qed.






Lemma Forall2_agree_refl ks (c : list document) : Forall2 (agree ks) c c.
Proof. induction c; constructor; auto using agree_refl. Qed.

(** One iteration of the poller: the provider log, the identifiers and the
    marks already set. *)
Lemma scheduled_call_step_calls e w d :
  calls (scheduled_call_step e w d)
  = (calls w ++ (if twilio_client e then [call_for d] else []))%list.
Proof.
  unfold scheduled_call_step, trigger_voice_call, call_for.
  destruct (twilio_client e); simpl.
  - destruct (calls_create e _); reflexivity.
  - rewrite app_nil_r. reflexivity.
Qed.




Section Tick.
Variable e : env.

Lemma tick_calls l w :
  calls (fold_left (scheduled_call_step e) l w)
  = (calls w ++ (if twilio_client e then map call_for l else []))%list.
Proof.
  revert w. induction l as [| d l IH]; intros w; cbn [fold_left].
  - destruct (twilio_client e); cbn [map]; rewrite app_nil_r; reflexivity.
  - rewrite IH, scheduled_call_step_calls.
    destruct (twilio_client e); cbn [map]; rewrite <- app_assoc; reflexivity.
Qed.




End Tick.

Lemma skipn_length_app {A} (a b : list A) : skipn (List.length a) (a ++ b) = b.
Proof. induction a; simpl; auto. Qed.





(** C2 fails as stated.  A booking that [submit_form] stored with a posted
    [_id], the 24 hexadecimal digits of another booking's ObjectId, is
    APPROVED and due.  The tick requests its call and the provider accepts
    it, but [trigger_voice_call] marks the booking with that ObjectId: the
    due booking keeps call_initiated unset, and the tick that follows
    requests its call again.  And without telephony credentials a tick
    requests no call for a due booking. *)
Lemma poller_calls_again :
  call_requests (Fixtures.world_of [Fixtures.posted_id_booking;
                                    Fixtures.future_booking])
  = [Fixtures.posted_id_booking; Fixtures.future_booking]
  /\ doc_get "_id" Fixtures.posted_id_booking = Sc (SStr Example.oid2)
  /\ doc_get "_id" Fixtures.future_booking = Sc (SOid Example.oid2)
  /\ doc_get "status" Fixtures.posted_id_booking = Sc (SStr "APPROVED")
  /\ doc_get "call_time" Fixtures.posted_id_booking
     = Sc (SDate (mkDatetime 2026 11 3 11 30 0 0))
  /\ dt_leb (mkDatetime 2026 11 3 11 30 0 0) (now_ist Example.env0) = true
  /\ doc_get "call_initiated" Fixtures.posted_id_booking = Sc SNone
  /\ twilio_client Example.env0 = true
  /\ calls_create Example.env0 (call_for Fixtures.posted_id_booking)
     = Some "CA1"
  /\ new_calls (Fixtures.world_of [Fixtures.posted_id_booking;
                                   Fixtures.future_booking])
       (check_scheduled_calls Example.env0
          (Fixtures.world_of [Fixtures.posted_id_booking;
                              Fixtures.future_booking]))
     = [call_for Fixtures.posted_id_booking]
  /\ map (fun d => (doc_get "_id" d, doc_get "call_initiated" d))
       (call_requests
          (check_scheduled_calls Example.env0
             (Fixtures.world_of [Fixtures.posted_id_booking;
                                 Fixtures.future_booking])))
     = [(Sc (SStr Example.oid2), Sc SNone);
        (Sc (SOid Example.oid2), Sc (SBool true))]
  /\ calls_for Fixtures.posted_id_booking
       (new_calls
          (check_scheduled_calls Example.env0
             (Fixtures.world_of [Fixtures.posted_id_booking;
                                 Fixtures.future_booking]))
          (check_scheduled_calls Example.env0
             (check_scheduled_calls Example.env0
                (Fixtures.world_of [Fixtures.posted_id_booking;
                                    Fixtures.future_booking]))))
     = [call_for Fixtures.posted_id_booking]
  /\ twilio_client Example.env_no_twilio = false
  /\ new_calls (Fixtures.world_of [Fixtures.due_booking])
       (check_scheduled_calls Example.env_no_twilio
          (Fixtures.world_of [Fixtures.due_booking]))
     = [].
Proof. repeat split; vm_compute; reflexivity. Qed.

(* ================================================================== *)
(** * Further properties of the handlers *)
(* ================================================================== *)

(** ** Rejection *)

(** X2: [reject_booking] on an existing booking sets the status to REJECTED,
    requests the status SMS exactly when the telephony client is configured
    and the booking has a phone, and never places a call. *)
Theorem reject_booking_effects (e : env) (w : world) (id : string)
                               (b : document) :
  lookup_booking w id = Some b ->
  let w' := fst (reject_booking e w id) in
  snd (reject_booking e w id) = Redirect "/booking-data"
  /\ (exists b', lookup_booking w' id = Some b'
                 /\ doc_get "status" b' = Sc (SStr "REJECTED"))
  /\ calls w' = calls w
  /\ messages w'
     = (messages w
        ++ (if twilio_client e && vtruthy (doc_get "phone" b)
            then [status_notice_for "REJECTED" b] else []))%list.
Proof.
  intros F.
  destruct (lookup_booking_id w id b F) as (v & Hv & Fv & Hlook).
  destruct (reviewed_status w b v "REJECTED" Hv Fv) as (b1 & F1 & S1).
  assert (Hne : exists f rest, b = f :: rest).
  { destruct b as [| f rest]; [| eauto]. exfalso.
    unfold lookup_booking in F.
    destruct (ObjectId id); apply MongoFacts.find_one_some in F;
      destruct F as [_ M]; apply MongoFacts.matches_by_id in M; discriminate. }
  destruct Hne as (f & rest & Eb).
  unfold reject_booking. rewrite F, Eb. rewrite <- Eb. cbn [fst snd].
  set (w1 := set_status "REJECTED" b w) in *.
  unfold send_status_sms.
  destruct (twilio_client e); cbn [negb orb andb];
    [destruct (vtruthy (doc_get "phone" b)); cbn [negb] |].
  - split; [reflexivity |]. split; [| split; reflexivity].
    exists b1. rewrite Hlook. auto.
  - rewrite app_nil_r. split; [reflexivity |]. split; [| split; reflexivity].
    exists b1. rewrite Hlook. auto.
  - rewrite app_nil_r. split; [reflexivity |]. split; [| split; reflexivity].
    exists b1. rewrite Hlook. auto.
Qed.

Lemma reject_booking_effects_witness :
  calls (fst (reject_booking Example.env0
                (Fixtures.world_of [Fixtures.booking Example.oid1 []])
                Example.oid1)) = []
  /\ messages (fst (reject_booking Example.env0
                      (Fixtures.world_of [Fixtures.booking Example.oid1 []])
                      Example.oid1))
     = [status_notice_for "REJECTED" (Fixtures.booking Example.oid1 [])].
Proof.
  destruct (reject_booking_effects Example.env0
              (Fixtures.world_of [Fixtures.booking Example.oid1 []])
              Example.oid1 (Fixtures.booking Example.oid1 []) eq_refl)
    as (_ & _ & Hc & Hm).
  split; [exact Hc | exact Hm].
Defined.

(** ** Deleting an application *)

Lemma matches_of_app client_id app_name d :
  Mongo.matches [("app_name", Mongo.Eq (Sc (SStr app_name)));
                 ("client_id", Mongo.Eq client_id)] d = true
  <-> of_app client_id app_name d.
Proof.
  unfold Mongo.matches, of_app. cbn [forallb fst snd].
  rewrite !MongoFacts.holds_Eq, andb_true_r, andb_true_iff, !value_eqb_eq.
  tauto.
Qed.

(** X3: After [delete_application] no FormBuilder, CallRequest or LlmSettings
    document of that client's application remains; every document of
    another application or client stays in its collection, Applications
    included; clients and API keys are not touched. *)
Theorem delete_application_cascade (w : world) (client_id : value)
                                   (app_name : string) :
  let w' := fst (delete_application w client_id app_name) in
  (forall d, In d (form_builders w') \/ In d (call_requests w')
             \/ In d (llm_settings w') ->
             ~ of_app client_id app_name d)
  /\ (forall d, ~ of_app client_id app_name d ->
        (In d (client_apps w) -> In d (client_apps w'))
        /\ (In d (form_builders w) -> In d (form_builders w'))
        /\ (In d (call_requests w) -> In d (call_requests w'))
        /\ (In d (llm_settings w) -> In d (llm_settings w')))
  /\ clients w' = clients w /\ api_keys w' = api_keys w.
Proof.
  unfold delete_application. cbn [fst form_builders call_requests llm_settings
                                  client_apps clients api_keys].
  split; [| split; [| split; reflexivity]].
  - intros d H Hd. apply matches_of_app in Hd.
    destruct H as [H | [H | H]]; apply MongoFacts.delete_many_In in H;
      destruct H as [_ H]; congruence.
  - intros d Hd.
    assert (M : Mongo.matches [("app_name", Mongo.Eq (Sc (SStr app_name)));
                               ("client_id", Mongo.Eq client_id)] d = false).
    { destruct (Mongo.matches _ d) eqn:M; auto.
      apply matches_of_app in M. contradiction. }
    repeat split; intros H; try (apply MongoFacts.delete_many_In; auto).
    revert H. generalize (client_apps w). intros c.
    set (q := [("app_name", Mongo.Eq (Sc (SStr app_name)));
               ("client_id", Mongo.Eq client_id)]) in *.
    induction c as [| x c IH]; cbn [Mongo.delete_one]; auto.
    destruct (Mongo.matches q x) eqn:Mx.
    + intros [<- | H]; [congruence | exact H].
    + intros [<- | H]; [left; reflexivity | right; auto].
Qed.

(** ** Phone numbers handed to the provider *)

(** X4: Whatever the stored phone is, the number that a call or a status SMS is
    requested for starts with "+"; a phone with exactly ten digits is
    dialled as +91 followed by these digits. *)
Theorem provider_numbers_are_international (phone : value) :
  Py.startswith "+" (call_target phone) = true
  /\ Py.startswith "+" (sms_target phone) = true
  /\ (Py.len (Py.digits_of (vstr phone)) = 10 ->
      call_target phone = "+91" ++ Py.digits_of (vstr phone)
      /\ sms_target phone = "+91" ++ Py.digits_of (vstr phone)).
Proof.
  unfold call_target, sms_target.
  split; [| split].
  - destruct (_ =? 10); [reflexivity |].
    destruct (Py.startswith "+" (vstr phone)) eqn:S; cbn [negb];
      [exact S | destruct (Py.digits_of (vstr phone)); reflexivity].
  - destruct (_ =? 10); [reflexivity |].
    destruct (_ && _); [destruct (Py.digits_of (vstr phone)); reflexivity |].
    destruct (Py.startswith "+" (vstr phone)) eqn:S; cbn [negb];
      [exact S | destruct (Py.digits_of (vstr phone)); reflexivity].
  - intros H. rewrite H. split; reflexivity.
Qed.

Lemma provider_numbers_are_international_witness :
  call_target (Sc (SStr "98765 43210")) = "+919876543210"
  /\ sms_target (Sc (SStr "98765 43210")) = "+919876543210".
Proof.
  apply (provider_numbers_are_international (Sc (SStr "98765 43210"))).
  reflexivity.
Defined.

(** ** What the read API never returns *)

Lemma lookup_remove_key_same {A} k (d : list (string * A)) :
  lookup k (remove_key k d) = None.
Proof.
  induction d as [| [k' v] d IH]; simpl; auto.
  destruct (String.eqb_spec k k'); simpl; auto.
  destruct (String.eqb_spec k k'); [contradiction | exact IH].
Qed.

(** X5: Whenever [api_calls] returns booking data, the request carried a key
    that is stored, the status is 200, [total_calls] is the number of
    records, and every record belongs to the client of that key and comes
    without its [_id]. *)
Theorem api_calls_isolation (w : world) (key : option string) (code : Z)
                            (client_id : value) (total : Z)
                            (data : list document) :
  api_calls w key = JsonCalls code client_id total data ->
  code = 200
  /\ total = Z.of_nat (List.length data)
  /\ (exists k api,
        key = Some k
        /\ Mongo.find_one [("api_key", Mongo.Eq (Sc (SStr k)))] (api_keys w)
           = Some api
        /\ client_id = doc_get "client_id" api)
  /\ Forall (fun d => doc_get "client_id" d = client_id
                      /\ lookup "_id" d = None) data.
Proof.
  unfold api_calls. destruct key as [[| c k] |]; try discriminate.
  destruct (Mongo.find_one _ (api_keys w)) as [[| f api] |] eqn:F;
    try discriminate.
  intros E. inversion E; subst. clear E.
  split; [reflexivity |]. split; [reflexivity |].
  split; [exists (String c k), (f :: api); auto |].
  apply Forall_forall. intros d Hd.
  unfold Mongo.project_out in Hd. apply in_map_iff in Hd.
  destruct Hd as (d0 & <- & Hd0).
  apply (proj1 (MongoFacts.sort_desc_In _ _ _)) in Hd0.
  unfold Mongo.find in Hd0. apply filter_In in Hd0. destruct Hd0 as [_ Hm].
  split; [| apply lookup_remove_key_same].
  rewrite doc_get_remove_key_other by discriminate.
  assert (M1 : Mongo.matches
                 [("client_id", Mongo.Eq (doc_get "client_id" (f :: api)))] d0
               = true).
  { cbv zeta in Hm. destruct (value_eqb _ _ && vtruthy _) in Hm; [| exact Hm].
    unfold Mongo.matches in *. cbn [app forallb] in *.
    apply andb_true_iff in Hm. destruct Hm as [Hm _]. rewrite Hm. reflexivity. }
  unfold Mongo.matches in M1. cbn [forallb fst snd] in M1.
  rewrite MongoFacts.holds_Eq, andb_true_r in M1.
  apply value_eqb_eq. exact M1.
Qed.

Lemma api_calls_isolation_witness :
  exists data,
    api_calls Fixtures.keyed_world (Some "sk_1")
    = JsonCalls 200 (Sc (SStr Example.cid)) 1 data
    /\ Forall (fun d => doc_get "client_id" d = Sc (SStr Example.cid)
                        /\ lookup "_id" d = None) data.
Proof.
  eexists. split; [reflexivity |].
  apply (api_calls_isolation Fixtures.keyed_world (Some "sk_1") 200
           (Sc (SStr Example.cid)) 1 _ eq_refl).
Defined.

(** ** What intake never does *)

Lemma notify_client_sms_collections e w client_id app_name user_name user_phone :
  let w' := notify_client_sms e w client_id app_name user_name user_phone in
  clients w' = clients w /\ api_keys w' = api_keys w
  /\ applications w' = applications w.
Proof.
  unfold notify_client_sms.
  repeat match goal with
         | |- context [if ?c then _ else _] => destruct c
         | |- context [match ?x with _ => _ end] => destruct x
         end; simpl; auto.
Qed.

(** X6: [api_submit] never places a call and never changes a collection other
    than the CallRequests; these it leaves as they are or extends by one
    record with status PENDING that is not marked as called. *)
Theorem api_submit_frame (e : env) (w : world) (api_key : string)
                         (data : dict) (new_id : string) :
  let w' := fst (api_submit e w api_key data new_id) in
  calls w' = calls w
  /\ form_builders w' = form_builders w /\ client_apps w' = client_apps w
  /\ llm_settings w' = llm_settings w /\ clients w' = clients w
  /\ api_keys w' = api_keys w /\ applications w' = applications w
  /\ (call_requests w' = call_requests w
      \/ exists r, call_requests w' = (call_requests w ++ [r])%list
                   /\ doc_get "_id" r = Sc (SOid new_id)
                   /\ doc_get "status" r = Sc (SStr "PENDING")
                   /\ doc_get "data" r = Dict data
                   /\ lookup "call_initiated" r = None).
Proof.
  unfold api_submit.
  destruct (Mongo.find_one _ (form_builders w)) as [[| f form] |];
    try (cbn [fst]; repeat split; auto; fail).
  destruct (lookup "client_id" (f :: form)) as [client_id |];
    try (cbn [fst]; repeat split; auto; fail).
  destruct (lookup "app_name" (f :: form)) as [app_name |];
    try (cbn [fst]; repeat split; auto; fail).
  destruct (form_fields (f :: form)) as [fields |];
    try (cbn [fst]; repeat split; auto; fail).
  destruct (scan_fields no_labels fields) as [l |];
    try (cbn [fst]; repeat split; auto; fail).
  destruct (intake_call_time e data) as [call_time |];
    try (cbn [fst]; repeat split; auto; fail).
  destruct (final_prompt w client_id app_name) as [prompt |];
    try (cbn [fst]; repeat split; auto; fail).
  cbv zeta. destruct (BSON.document _);
    try (cbn [fst]; repeat split; auto; fail).
  cbn [fst].
  match goal with
  | |- context [notify_client_sms ?e ?w ?a ?b ?c ?d] =>
      destruct (notify_client_sms_frame e w a b c d) as (H1 & H2 & H3 & H4 & H5);
      destruct (notify_client_sms_collections e w a b c d) as (H6 & H7 & H8)
  end.
  rewrite H1, H2, H3, H4, H5, H6, H7, H8.
  cbn [call_requests calls form_builders client_apps llm_settings clients
       api_keys applications set_call_requests].
  repeat split; auto. right. eexists. split; [reflexivity |].
  repeat split.
Qed.

(** X7: An api_key that no FormBuilder carries is answered with 403 and
    nothing is stored, sent or called. *)
Theorem api_submit_unknown_key (e : env) (w : world) (api_key : string)
                               (data : dict) (new_id : string) :
  (forall d, In d (form_builders w) ->
             doc_get "api_key" d <> Sc (SStr api_key)) ->
  api_submit e w api_key data new_id = (w, Text 403 "Invalid API key").
Proof.
  intros H. unfold api_submit.
  destruct (Mongo.find_one _ (form_builders w)) as [[| f form] |] eqn:F; auto.
  apply MongoFacts.find_one_some in F. destruct F as [Hin M].
  unfold Mongo.matches in M. cbn [forallb fst snd] in M.
  rewrite MongoFacts.holds_Eq, andb_true_r in M. apply value_eqb_eq in M.
  exfalso. exact (H _ Hin M).
Qed.

Lemma api_submit_unknown_key_witness :
  api_submit Example.env0 (Fixtures.world_of []) "not-a-key"
             [("name", SStr "Asha")] Example.oid2
  = (Fixtures.world_of [], Text 403 "Invalid API key").
Proof.
  apply (api_submit_unknown_key Example.env0 (Fixtures.world_of [])
           "not-a-key" [("name", SStr "Asha")] Example.oid2).
  intros d [<- | []]. vm_compute. discriminate.
Defined.

(** ** [submit_form] and the dictionary it iterates over *)

Lemma lookup_None_keys {A} k (d : list (string * A)) :
  lookup k d = None <-> ~ In k (map fst d).
Proof.
  induction d as [| [k' v] d IH]; simpl; [tauto |].
  destruct (String.eqb_spec k k').
  - split; [discriminate | intros H; exfalso; apply H; auto].
  - rewrite IH. split; [intros H [E | E]; [congruence | auto] | tauto].
Qed.

Lemma assign_keys {A} k (v : A) d :
  map fst (assign k v d)
  = (map fst d ++ (if has k d then [] else [k]))%list.
Proof.
  unfold has. induction d as [| [k' v'] d IH]; simpl.
  - reflexivity.
  - destruct (String.eqb_spec k k'); simpl.
    + rewrite app_nil_r. reflexivity.
    + rewrite IH. reflexivity.
Qed.

Lemma assign_key_In {A} k (v : A) d : In k (map fst (assign k v d)).
Proof.
  induction d as [| [k' v'] d IH]; simpl; [auto |].
  destruct (String.eqb_spec k k'); simpl; auto.
Qed.

Lemma assign_keeps_keys {A} k' k (v : A) d :
  In k' (map fst d) -> In k' (map fst (assign k v d)).
Proof. intros H. rewrite assign_keys. apply in_app_iff. left. exact H. Qed.

Lemma keys_extend_refl d : keys_extend d d.
Proof. exists []. rewrite app_nil_r. reflexivity. Qed.

Lemma keys_extend_trans a b c :
  keys_extend a b -> keys_extend b c -> keys_extend a c.
Proof.
  intros [x Hx] [y Hy]. exists (x ++ y)%list. rewrite Hy, Hx, app_assoc.
  reflexivity.
Qed.

Lemma keys_extend_assign k v d : keys_extend d (assign k v d).
Proof. eexists. apply assign_keys. Qed.

Lemma keys_extend_length d d' :
  keys_extend d d' -> (List.length d <= List.length d')%nat.
Proof.
  intros [x Hx]. apply (f_equal (@List.length _)) in Hx.
  rewrite length_app, !length_map in Hx. lia.
Qed.

Lemma keys_extend_same_length d d' :
  keys_extend d d' -> List.length d' = List.length d -> map fst d' = map fst d.
Proof.
  intros [x Hx] L. pose proof (f_equal (@List.length _) Hx) as E.
  rewrite length_app, !length_map in E.
  destruct x; [rewrite app_nil_r in Hx; exact Hx | simpl in E; lia].
Qed.

Ltac body_cases :=
  repeat match goal with
         | |- context [if ?c then _ else _] => destruct c
         | |- context [match strptime ?a ?b ?c with _ => _ end] =>
             destruct (strptime a b c)
         | |- context [match ?v with Sc _ => _ | _ => _ end] => destruct v
         | |- context [match ?s with SStr _ => _ | _ => _ end] => destruct s
         end;
  cbn [fst];
  repeat first [ apply keys_extend_refl
               | eapply keys_extend_trans; [| apply keys_extend_assign] ].

(** The body of the loop only assigns: keys stay where they are. *)
Lemma submit_form_body_keys e k v st :
  keys_extend (fst st) (fst (submit_form_body e k v st)).
Proof.
  destruct st as [data x]. unfold submit_form_body. cbn [fst]. body_cases.
Qed.

(** A key that looks like a name, met while the dictionary has no [name],
    makes the body add one. *)
Lemma submit_form_body_adds_name e k v st :
  lookup "name" (fst st) = None ->
  Py.contains "name" (Py.lower k) = true ->
  (List.length (fst st) < List.length (fst (submit_form_body e k v st)))%nat.
Proof.
  destruct st as [data x]. cbn [fst]. intros Hn Hk.
  assert (L : List.length (assign "name" v data) = S (List.length data)).
  { pose proof (f_equal (@List.length _) (assign_keys "name" v data)) as L.
    unfold has in L. rewrite Hn in L.
    rewrite length_app, !length_map in L. simpl in L. lia. }
  assert (T0 : vtruthy (doc_get "name" data) = false)
    by (unfold doc_get, get_or; rewrite Hn; reflexivity).
  enough (Hext : keys_extend (assign "name" v data)
                   (fst (submit_form_body e k v (data, x)))).
  { apply keys_extend_length in Hext. lia. }
  unfold submit_form_body. rewrite T0, Hk. cbn [negb andb].
  generalize (assign "name" v data). intros d. body_cases.
Qed.

Lemma submit_form_loop_raises e size positions st :
  List.length (fst st) = size ->
  Forall (fun p => (p < size)%nat) positions ->
  lookup "name" (fst st) = None ->
  (exists i k, In i positions /\ nth_error (map fst (fst st)) i = Some k
               /\ Py.contains "name" (Py.lower k) = true) ->
  submit_form_loop e size positions st = None.
Proof.
  revert st. induction positions as [| p rest IH];
    intros st L B Hn (i & k & Hi & Hk & Hc); [destruct Hi |].
  inversion B as [| ? ? Bp Brest]; subst.
  cbn [submit_form_loop]. rewrite Nat.eqb_refl. cbn [negb].
  match goal with
  | |- context [nth_error ?a ?b] =>
      destruct (nth_error a b) as [[kp vp] |] eqn:Np
  end.
  2:{ exfalso. apply nth_error_None in Np. apply (Nat.lt_irrefl p).
      eapply Nat.lt_le_trans; [exact Bp | exact Np]. }
  set (st' := submit_form_body e kp vp st).
  pose proof (submit_form_body_keys e kp vp st) as Hext. fold st' in Hext.
  assert (Next : forall rest', (List.length (fst st) < List.length (fst st'))%nat ->
                 submit_form_loop e (List.length (fst st)) rest' st' = None).
  { intros rest' Hlt. destruct rest'; cbn [submit_form_loop];
      destruct (Nat.eqb_spec (List.length (fst st')) (List.length (fst st)));
      try lia; reflexivity. }
  destruct (Py.contains "name" (Py.lower kp)) eqn:Cp.
  - apply Next. apply submit_form_body_adds_name; assumption.
  - destruct (Nat.eq_dec (List.length (fst st')) (List.length (fst st)))
      as [Leq | Lne].
    + pose proof (keys_extend_same_length _ _ Hext Leq) as Keys.
      apply IH; [exact Leq | exact Brest | |].
      * pose proof (proj1 (lookup_None_keys _ _) Hn) as Hn'.
        apply lookup_None_keys. intros HI. apply Hn'.
        exact (eq_ind _ (fun l => In "name" l) HI _ Keys).
      * exists i, k. split; [| split; [| exact Hc]].
        -- destruct Hi as [<- | Hi]; [| exact Hi].
           exfalso. rewrite nth_error_map in Hk.
           assert (Hk' : option_map fst (Some (kp, vp)) = Some k)
             by (rewrite <- Np; exact Hk).
           cbn in Hk'. inversion Hk'; subst. congruence.
        -- exact (eq_ind_r (fun l => nth_error l i = Some k) Hk Keys).
    + apply Next. apply keys_extend_length in Hext.
      apply Nat.le_neq. split; [exact Hext |].
      intros E. apply Lne. symmetry. exact E.
Qed.

(** X8: A posted form without a field called [name] always ends in a server
    error and nothing is stored, sent or called: the loop meets the key
    [app_name], adds the key [name] to the dictionary it iterates over, and
    the iteration raises. *)
Theorem submit_form_without_name (e : env) (w : world) (app_name : string)
                                 (form : dict) (session_client_id : value)
                                 (new_id : string) :
  lookup "name" form = None ->
  submit_form e w app_name form session_client_id new_id
  = (w, InternalServerError).
Proof.
  intros Hn. unfold submit_form.
  set (client_id := match Mongo.find_one _ (form_builders w) with
                    | Some (f :: c) => doc_get "client_id" (f :: c)
                    | _ => session_client_id
                    end).
  set (data0 := map (fun kv => (fst kv, Sc (snd kv))) form).
  set (data := assign "created_at" _ (assign "status" _
                 (assign "client_id" client_id
                    (assign "app_name" (Sc (SStr app_name)) data0)))).
  assert (H0 : lookup "name" data0 = None).
  { apply lookup_None_keys. unfold data0. rewrite map_map. cbn [fst].
    apply lookup_None_keys. exact Hn. }
  assert (H1 : lookup "name" data = None).
  { unfold data. rewrite !lookup_assign_other by discriminate. exact H0. }
  assert (H2 : In "app_name" (map fst data)).
  { unfold data. do 3 apply assign_keeps_keys. apply assign_key_In. }
  apply In_nth_error in H2. destruct H2 as [i Hi].
  rewrite (submit_form_loop_raises e (List.length data)
             (seq 0 (List.length data)) (data, _)); auto.
  - apply Forall_forall. intros p Hp. apply in_seq in Hp. lia.
  - exists i, "app_name". split; [| split; [exact Hi | reflexivity]].
    apply in_seq. split; [lia |].
    assert (Hs : nth_error (map fst data) i <> None) by congruence.
    apply nth_error_Some in Hs. rewrite length_map in Hs. lia.
Qed.

Lemma submit_form_without_name_witness :
  submit_form Example.env0 (Fixtures.world_of []) "Hotel"
    [("Full Name", SStr "Asha"); ("Phone Number", SStr "9876543210")]
    (Sc SNone) Example.oid2
  = (Fixtures.world_of [], InternalServerError).
Proof.
  apply (submit_form_without_name Example.env0 (Fixtures.world_of []) "Hotel"
           [("Full Name", SStr "Asha"); ("Phone Number", SStr "9876543210")]
           (Sc SNone) Example.oid2).
  reflexivity.
Defined.

(** ** What a tick of the poller changes, and what it leaves *)

Lemma same_but_refl ks d : same_but ks d d.
Proof. intros k _. reflexivity. Qed.

Lemma same_but_trans ks a b c :
  same_but ks a b -> same_but ks b c -> same_but ks a c.
Proof. intros H1 H2 k Hk. rewrite (H2 k Hk). apply H1, Hk. Qed.

Lemma Forall2_same_but_refl ks (c : list document) :
  Forall2 (same_but ks) c c.
Proof. induction c; constructor; auto using same_but_refl. Qed.

Lemma Forall2_same_but_trans ks (a b c : list document) :
  Forall2 (same_but ks) a b -> Forall2 (same_but ks) b c ->
  Forall2 (same_but ks) a c.
Proof.
  intros H. revert c. induction H; intros c' H2; inversion H2; subst;
    constructor; eauto using same_but_trans.
Qed.

Lemma apply_set_same_but ks sets d :
  incl (map fst sets) ks -> same_but ks d (Mongo.apply_set sets d).
Proof.
  intros Hi k Hk. apply lookup_apply_set_other. intros H. apply Hk, Hi, H.
Qed.

Lemma update_one_same_but ks q sets c :
  incl (map fst sets) ks ->
  Forall2 (same_but ks) c (Mongo.update_one q sets c).
Proof.
  intros Hi. induction c as [| d t IH]; cbn [Mongo.update_one]; [constructor |].
  destruct (Mongo.matches q d).
  - constructor; [apply apply_set_same_but, Hi | apply Forall2_same_but_refl].
  - constructor; [apply same_but_refl | exact IH].
Qed.

Lemma same_but_matches ks q d d' :
  (forall k, In k (map fst q) -> ~ In k ks) ->
  same_but ks d d' -> Mongo.matches q d' = Mongo.matches q d.
Proof.
  intros Hq Hs. unfold Mongo.matches.
  induction q as [| [k c] q IH]; cbn [forallb fst snd]; [reflexivity |].
  rewrite IH by (intros k' Hk'; apply Hq; right; exact Hk').
  rewrite (Hs k); [reflexivity |]. apply Hq. left. reflexivity.
Qed.

Lemma same_but_doc_get ks k d d' :
  ~ In k ks -> same_but ks d d' -> doc_get k d' = doc_get k d.
Proof. intros Hk Hs. unfold doc_get, get_or. rewrite (Hs k Hk). reflexivity. Qed.

Lemma mark_call_initiated_same_but e booking_id sid c :
  Forall2 (same_but poller_fields) c (mark_call_initiated e booking_id sid c).
Proof.
  assert (Hi : incl (map fst (call_initiated_fields e sid)) poller_fields).
  { intros k Hk. cbn in Hk. unfold poller_fields. cbn. tauto. }
  unfold mark_call_initiated.
  destruct (ObjectId booking_id);
    [destruct (Mongo.matched_count _ c =? 0) |];
    apply update_one_same_but, Hi.
Qed.

Lemma scheduled_call_step_frame e w d :
  Forall2 (same_but poller_fields) (call_requests w)
          (call_requests (scheduled_call_step e w d))
  /\ same_registry w (scheduled_call_step e w d)
  /\ messages (scheduled_call_step e w d) = messages w.
Proof.
  unfold scheduled_call_step, trigger_voice_call, same_registry.
  assert (He : incl (map fst [("call_error",
                               Sc (SStr "Failed to trigger scheduled call"))])
                    poller_fields).
  { intros k Hk. cbn in Hk. unfold poller_fields. cbn. tauto. }
  destruct (twilio_client e); cbn [negb].
  - destruct (calls_create e _); cbn [call_requests set_call_requests log_call
      client_apps form_builders llm_settings clients api_keys applications
      messages].
    + split; [apply mark_call_initiated_same_but | repeat split].
    + split; [apply update_one_same_but, He | repeat split].
  - cbn [call_requests set_call_requests client_apps form_builders
         llm_settings clients api_keys applications messages].
    split; [apply update_one_same_but, He | repeat split].
Qed.

(** A document is due at the instant [now]: approved, scheduled at or
    before [now], and not marked as called. *)
Lemma matches_due e d :
  Mongo.matches (due_calls e) d = true <->
  doc_get "status" d = Sc (SStr "APPROVED")
  /\ (exists t, lookup "call_time" d = Some (Sc (SDate t))
                /\ dt_leb t (now_ist e) = true)
  /\ doc_get "call_initiated" d <> Sc (SBool true).
Proof.
  unfold Mongo.matches, due_calls. cbn [forallb fst snd].
  rewrite andb_true_r, !andb_true_iff.
  change (Mongo.holds (Mongo.Ne (Sc (SBool true))) (lookup "call_initiated" d))
    with (negb (Mongo.holds (Mongo.Eq (Sc (SBool true)))
                            (lookup "call_initiated" d))).
  rewrite !MongoFacts.holds_Eq, negb_true_iff, value_eqb_eq, value_eqb_neq.
  cbn [Mongo.holds].
  split.
  - intros (A & B & C). split; [exact A | split; [| exact C]].
    destruct (lookup "call_time" d) as [[[] | |] |]; try discriminate.
    eauto.
  - intros (A & (t & T & L) & C). rewrite T. auto.
Qed.

(** X9: The poller calls nobody but bookings that are due when the tick
    starts: approved, with a call time that has come, and not marked as
    called. *)
Theorem poller_calls_only_due (e : env) (w : world) (a : call_attempt) :
  In a (new_calls w (check_scheduled_calls e w)) ->
  exists d t,
    In d (call_requests w) /\ a = call_for d
    /\ doc_get "status" d = Sc (SStr "APPROVED")
    /\ lookup "call_time" d = Some (Sc (SDate t))
    /\ dt_leb t (now_ist e) = true
    /\ doc_get "call_initiated" d <> Sc (SBool true).
Proof.
  unfold new_calls, check_scheduled_calls. rewrite tick_calls, skipn_length_app.
  destruct (twilio_client e); [| intros []].
  intros H. apply in_map_iff in H. destruct H as (d & <- & Hd).
  apply filter_In in Hd. destruct Hd as [Hin Hm].
  apply matches_due in Hm. destruct Hm as (A & (t & T & L) & C).
  exists d, t. repeat split; assumption.
Qed.

Lemma poller_calls_only_due_witness :
  exists d t,
    In d (call_requests
            (Fixtures.world_of [Fixtures.due_booking; Fixtures.future_booking]))
    /\ call_for Fixtures.due_booking = call_for d
    /\ doc_get "status" d = Sc (SStr "APPROVED")
    /\ lookup "call_time" d = Some (Sc (SDate t))
    /\ dt_leb t (now_ist Example.env0) = true
    /\ doc_get "call_initiated" d <> Sc (SBool true).
Proof.
  apply (poller_calls_only_due Example.env0
           (Fixtures.world_of [Fixtures.due_booking; Fixtures.future_booking])
           (call_for Fixtures.due_booking)).
  vm_compute. left. reflexivity.
Defined.

(** X10: A tick writes nothing but the four call fields of bookings: every
    booking keeps its place and all its other fields, no booking is added
    or removed, no message is sent and no other collection changes. *)
Theorem poller_frame (e : env) (w : world) :
  let w' := check_scheduled_calls e w in
  Forall2 (same_but poller_fields) (call_requests w) (call_requests w')
  /\ same_registry w w'
  /\ messages w' = messages w.
Proof.
  intros w'. unfold w', check_scheduled_calls.
  generalize (Mongo.find (due_calls e) (call_requests w)) as l.
  intros l. generalize w as w0. induction l as [| d l IH]; intros w0;
    cbn [fold_left].
  - split; [apply Forall2_same_but_refl | repeat split].
  - destruct (IH (scheduled_call_step e w0 d)) as (A & B & C).
    destruct (scheduled_call_step_frame e w0 d) as (A' & B' & C').
    split; [eapply Forall2_same_but_trans; eassumption |].
    split; [| congruence].
    unfold same_registry in *. intuition congruence.
Qed.

Lemma find_same_but ks q (c c' : list document) :
  (forall k, In k (map fst q) -> ~ In k ks) ->
  Forall2 (same_but ks) c c' ->
  Forall2 (same_but ks) (Mongo.find q c) (Mongo.find q c').
Proof.
  intros Hq H. induction H as [| d d' c c' Hd _ IH]; cbn [Mongo.find filter].
  - constructor.
  - rewrite (same_but_matches ks q d d' Hq Hd).
    destruct (Mongo.matches q d); [constructor |]; assumption.
Qed.

Lemma tick_without_provider e l w :
  twilio_client e = false ->
  Forall2 (same_but ["call_error"]) (call_requests w)
          (call_requests (fold_left (scheduled_call_step e) l w)).
Proof.
  intros T. revert w. induction l as [| d l IH]; intros w; cbn [fold_left].
  - apply Forall2_same_but_refl.
  - eapply Forall2_same_but_trans; [| apply IH].
    unfold scheduled_call_step, trigger_voice_call. rewrite T. cbn [negb].
    cbn [call_requests set_call_requests].
    apply update_one_same_but. intros k Hk. exact Hk.
Qed.

(** X11: Without a configured provider a tick places no call and changes
    nothing but the [call_error] field of bookings, so that whatever was
    due stays due: a later tick finds the same bookings, with the same
    phone numbers. *)
Theorem poller_retries_without_provider (e e' : env) (w : world) :
  twilio_client e = false ->
  let w' := check_scheduled_calls e w in
  calls w' = calls w
  /\ Forall2 (same_but ["call_error"]) (call_requests w) (call_requests w')
  /\ map call_for (Mongo.find (due_calls e') (call_requests w'))
     = map call_for (Mongo.find (due_calls e') (call_requests w)).
Proof.
  intros T w'. unfold w', check_scheduled_calls.
  pose proof (tick_without_provider e
                (Mongo.find (due_calls e) (call_requests w)) w T) as F.
  split; [rewrite tick_calls, T; apply app_nil_r |].
  split; [exact F |].
  assert (G : Forall2 (same_but ["call_error"])
                (Mongo.find (due_calls e') (call_requests w))
                (Mongo.find (due_calls e')
                   (call_requests
                      (fold_left (scheduled_call_step e)
                         (Mongo.find (due_calls e) (call_requests w)) w)))).
  { apply find_same_but; [| exact F].
    intros k Hk Hc. cbn in Hk, Hc.
    destruct Hc as [<- | []].
    destruct Hk as [Hk | [Hk | [Hk | []]]]; discriminate. }
  induction G as [| d d' c c' Hd _ IH]; cbn [map]; [reflexivity |].
  rewrite IH. f_equal. unfold call_for.
  rewrite !(same_but_doc_get ["call_error"] _ d d') by
    (try exact Hd; intros [E | []]; discriminate).
  unfold get_or. rewrite (Hd "app_name"); [reflexivity |].
  intros [E | []]; discriminate.
Qed.

Lemma poller_retries_without_provider_witness :
  calls (check_scheduled_calls Example.env_no_twilio
           (Fixtures.world_of [Fixtures.due_booking])) = []
  /\ map call_for
       (Mongo.find (due_calls Example.env0)
          (call_requests
             (check_scheduled_calls Example.env_no_twilio
                (Fixtures.world_of [Fixtures.due_booking]))))
     = [call_for Fixtures.due_booking].
Proof.
  destruct (poller_retries_without_provider Example.env_no_twilio Example.env0
              (Fixtures.world_of [Fixtures.due_booking]) eq_refl)
    as (A & _ & C).
  split; [exact A | rewrite C; reflexivity].
Defined.

(** ** Status updates from the dashboard and the provider's callback *)

Lemma update_one_hit q sets c d :
  Mongo.find_one q c = Some d ->
  In (Mongo.apply_set sets d) (Mongo.update_one q sets c).
Proof.
  unfold Mongo.find_one.
  induction c as [| x t IH]; cbn [find Mongo.update_one]; [discriminate |].
  destruct (Mongo.matches q x).
  - intros E. inversion E; subst. left. reflexivity.
  - intros E. right. apply IH, E.
Qed.

Lemma update_one_miss q sets c :
  Mongo.find_one q c = None -> Mongo.update_one q sets c = c.
Proof.
  unfold Mongo.find_one.
  induction c as [| x t IH]; cbn [find Mongo.update_one]; [reflexivity |].
  destruct (Mongo.matches q x); [discriminate |].
  intros E. rewrite IH by exact E. reflexivity.
Qed.

Lemma same_but_ids ks (c c' : list document) :
  ~ In "_id" ks -> Forall2 (same_but ks) c c' ->
  map (doc_get "_id") c' = map (doc_get "_id") c.
Proof.
  intros Hk H. induction H as [| d d' c c' Hd _ IH]; cbn [map]; [reflexivity |].
  rewrite IH, (same_but_doc_get ks "_id" d d' Hk Hd). reflexivity.
Qed.

(** After an update by identifier, every document with that identifier
    shows what the update sets. *)
Lemma update_one_by_id_all v sets c k x :
  NoDup (map (doc_get "_id") c) ->
  ~ In "_id" (map fst sets) ->
  (forall d, doc_get k (Mongo.apply_set sets d) = x) ->
  forall d, In d (Mongo.update_one (by_id v) sets c) ->
            doc_get "_id" d = v -> doc_get k d = x.
Proof.
  intros ND Hid Hset.
  induction c as [| d0 t IH]; cbn [Mongo.update_one]; [intros d [] |].
  inversion ND as [| ? ? Hnotin ND']; subst.
  destruct (Mongo.matches (by_id v) d0) eqn:M; intros d [<- | Hin] Hv.
  - apply Hset.
  - exfalso. apply Hnotin. apply MongoFacts.matches_by_id in M.
    rewrite M, <- Hv. apply in_map, Hin.
  - apply MongoFacts.matches_by_id in Hv. congruence.
  - apply IH; assumption.
Qed.

Lemma found_by_id_nonempty v c b :
  Mongo.find_one (by_id (Sc (SOid v))) c = Some b -> exists f t, b = f :: t.
Proof.
  intros H. apply MongoFacts.find_one_some in H. destruct H as [_ M].
  apply MongoFacts.matches_by_id in M.
  destruct b as [| f t]; [discriminate M | eauto].
Qed.

Ltac world_proj :=
  cbn [fst snd call_requests client_apps form_builders llm_settings clients
       api_keys applications calls messages log_call log_sms
       set_call_requests set_form_builders set_api_keys].

Lemma send_status_sms_collections e w phone status app_name user_name :
  call_requests (send_status_sms e w phone status app_name user_name)
  = call_requests w
  /\ same_registry w (send_status_sms e w phone status app_name user_name)
  /\ calls (send_status_sms e w phone status app_name user_name) = calls w.
Proof.
  unfold send_status_sms, same_registry.
  destruct (negb (twilio_client e) || negb (vtruthy phone)); world_proj;
    repeat split.
Qed.

Lemma same_registry_refl w : same_registry w w.
Proof. unfold same_registry. repeat split. Qed.

Lemma same_registry_bookings c w : same_registry w (set_call_requests c w).
Proof. unfold same_registry. world_proj. repeat split. Qed.

Lemma same_registry_call a w w' :
  same_registry w w' -> same_registry w (log_call a w').
Proof. unfold same_registry. world_proj. tauto. Qed.

Lemma same_registry_trans a b c :
  same_registry a b -> same_registry b c -> same_registry a c.
Proof. unfold same_registry. intuition congruence. Qed.

(** X12: [update_booking_status] writes the status field and nothing else. *)
Theorem update_booking_status_frame (e : env) (w : world)
                                    (booking_id status : string) :
  let w' := fst (update_booking_status e w booking_id status) in
  Forall2 (same_but ["status"]) (call_requests w) (call_requests w')
  /\ same_registry w w'
  /\ (ObjectId booking_id = None ->
      update_booking_status e w booking_id status = (w, Raised)).
Proof.
  unfold update_booking_status.
  destruct (ObjectId booking_id) as [oid |].
  2:{ cbn [fst]. split; [apply Forall2_same_but_refl |].
      split; [apply same_registry_refl | reflexivity]. }
  set (w1 := set_call_requests _ w).
  assert (U : Forall2 (same_but ["status"]) (call_requests w)
                      (call_requests w1)).
  { unfold w1. world_proj. apply update_one_same_but. intros k Hk. exact Hk. }
  assert (R : same_registry w w1) by apply same_registry_bookings.
  assert (G : forall p s a u,
             Forall2 (same_but ["status"]) (call_requests w)
                     (call_requests (send_status_sms e w1 p s a u))
             /\ same_registry w (send_status_sms e w1 p s a u)).
  { intros p s a u.
    destruct (send_status_sms_collections e w1 p s a u) as (A & B & _).
    rewrite A. split; [exact U | exact (same_registry_trans _ _ _ R B)]. }
  destruct (Mongo.find_one _ (call_requests w)) as [[| f b] |];
    [| destruct (is_review_status status);
       [destruct (String.eqb status "APPROVED" && vtruthy _ && twilio_client e)
       |] |];
    cbn [fst]; (split; [| split; [| discriminate]]);
    try exact U; try exact R;
    try apply same_registry_call; apply G.
Qed.

Lemma tick_new_calls e w :
  new_calls w (check_scheduled_calls e w)
  = if twilio_client e
    then map call_for (Mongo.find (due_calls e) (call_requests w))
    else [].
Proof.
  unfold new_calls, check_scheduled_calls.
  rewrite tick_calls, skipn_length_app. reflexivity.
Qed.

Lemma call_for_same_but ks d d' :
  ~ In "_id" ks -> ~ In "phone" ks -> ~ In "app_name" ks ->
  same_but ks d d' -> call_for d' = call_for d.
Proof.
  intros H1 H2 H3 Hs. unfold call_for.
  rewrite (same_but_doc_get ks "phone" d d' H2 Hs),
          (same_but_doc_get ks "_id" d d' H1 Hs).
  unfold get_or. rewrite (Hs "app_name" H3). reflexivity.
Qed.

(** The run of [update_booking_status] that approves a booking with a
    phone while the provider is configured. *)
Lemma update_booking_status_approved e w booking_id oid b :
  twilio_client e = true ->
  ObjectId booking_id = Some oid ->
  Mongo.find_one (by_id (Sc (SOid oid))) (call_requests w) = Some b ->
  vtruthy (doc_get "phone" b) = true ->
  fst (update_booking_status e w booking_id "APPROVED")
  = log_call (mkCall (call_target (doc_get "phone" b)) booking_id
                     (get_or "app_name" (Sc (SStr "your request")) b))
      (log_sms (status_notice_for "APPROVED" b)
         (set_call_requests
            (Mongo.update_one (by_id (Sc (SOid oid)))
               [("status", Sc (SStr "APPROVED"))] (call_requests w)) w)).
Proof.
  intros T O F P. unfold update_booking_status. rewrite O, F.
  destruct (found_by_id_nonempty _ _ _ F) as (f & t & ->).
  change (is_review_status "APPROVED") with true. cbv iota.
  rewrite P, T. change (String.eqb "APPROVED" "APPROVED") with true.
  cbn [andb fst].
  rewrite send_status_sms_effect by assumption. reflexivity.
Qed.

(** X13: An approval through [update_booking_status] places its call at once
    and does not mark the booking as called: when the booking has a call
    time that has come, the next tick of the poller calls it again. *)
Theorem update_booking_status_then_poller
    (e e' : env) (w : world) (booking_id oid : string) (b : document)
    (t : datetime) :
  twilio_client e = true -> twilio_client e' = true ->
  ObjectId booking_id = Some oid ->
  Mongo.find_one (by_id (Sc (SOid oid))) (call_requests w) = Some b ->
  vtruthy (doc_get "phone" b) = true ->
  lookup "call_time" b = Some (Sc (SDate t)) ->
  dt_leb t (now_ist e') = true ->
  doc_get "call_initiated" b <> Sc (SBool true) ->
  let w1 := fst (update_booking_status e w booking_id "APPROVED") in
  new_calls w w1
  = [mkCall (call_target (doc_get "phone" b)) booking_id
            (get_or "app_name" (Sc (SStr "your request")) b)]
  /\ In (call_for b) (new_calls w1 (check_scheduled_calls e' w1)).
Proof.
  intros T T' O F P C L N w1.
  assert (E : w1 = _) by
    (exact (update_booking_status_approved e w booking_id oid b T O F P)).
  split.
  - rewrite E. unfold new_calls. world_proj. apply skipn_length_app.
  - rewrite tick_new_calls, T'.
    set (b' := Mongo.apply_set [("status", Sc (SStr "APPROVED"))] b).
    assert (S : same_but ["status"] b b').
    { apply apply_set_same_but. intros k Hk. exact Hk. }
    rewrite <- (call_for_same_but ["status"] b b');
      try exact S; try (intros [X | []]; discriminate).
    apply in_map. apply filter_In. split.
    + rewrite E. world_proj. apply update_one_hit, F.
    + apply matches_due. split; [| split].
      * unfold doc_get, get_or, b'.
        rewrite lookup_apply_set_last. reflexivity.
      * exists t. split; [| exact L].
        rewrite (S "call_time"); [exact C |].
        intros [X | []]; discriminate.
      * rewrite (same_but_doc_get ["status"] "call_initiated" b b');
          [exact N | | exact S].
        intros [X | []]; discriminate.
Qed.

Lemma update_booking_status_then_poller_witness :
  new_calls (Fixtures.world_of [Fixtures.due_booking])
    (fst (update_booking_status Example.env0
            (Fixtures.world_of [Fixtures.due_booking]) Example.oid1 "APPROVED"))
  = [call_for Fixtures.due_booking]
  /\ In (call_for Fixtures.due_booking)
        (new_calls
           (fst (update_booking_status Example.env0
                   (Fixtures.world_of [Fixtures.due_booking])
                   Example.oid1 "APPROVED"))
           (check_scheduled_calls Example.env0
              (fst (update_booking_status Example.env0
                      (Fixtures.world_of [Fixtures.due_booking])
                      Example.oid1 "APPROVED")))).
Proof.
  apply (update_booking_status_then_poller Example.env0 Example.env0
           (Fixtures.world_of [Fixtures.due_booking]) Example.oid1
           Example.oid1 Fixtures.due_booking
           (mkDatetime 2026 11 3 11 30 0 0));
    try reflexivity.
  vm_compute. discriminate.
Defined.

(** X14: An approval through [update_status] whose call the provider accepts
    marks the booking as called: it is approved and flagged, and no later
    tick of the poller finds it due. *)
Theorem update_status_marks_call
    (e e' : env) (w : world) (id oid sid : string) (b : document) :
  twilio_client e = true ->
  ObjectId id = Some oid ->
  Mongo.find_one (by_id (Sc (SOid oid))) (call_requests w) = Some b ->
  vtruthy (doc_get "phone" b) = true ->
  calls_create e (mkCall (call_target (doc_get "phone" b)) id
                         (get_or "app_name" (Sc (SStr "your request")) b))
  = Some sid ->
  NoDup (map (doc_get "_id") (call_requests w)) ->
  let w1 := fst (update_status e w id "APPROVED") in
  snd (update_status e w id "APPROVED") = Redirect "/analytics"
  /\ new_calls w w1
     = [mkCall (call_target (doc_get "phone" b)) id
               (get_or "app_name" (Sc (SStr "your request")) b)]
  /\ new_messages w w1 = [status_notice_for "APPROVED" b]
  /\ (forall d, In d (call_requests w1) -> doc_get "_id" d = Sc (SOid oid) ->
        doc_get "status" d = Sc (SStr "APPROVED")
        /\ doc_get "call_initiated" d = Sc (SBool true))
  /\ Forall (fun d => doc_get "_id" d <> Sc (SOid oid))
            (Mongo.find (due_calls e') (call_requests w1)).
Proof.
  intros T O F P K ND w1.
  set (c1 := Mongo.update_one (by_id (Sc (SOid oid)))
               [("status", Sc (SStr "APPROVED"))] (call_requests w)).
  set (sets2 := [("call_initiated", Sc (SBool true));
                 ("call_initiated_at", Sc (SDate (utcnow e)))]).
  set (req := mkCall (call_target (doc_get "phone" b)) id
                     (get_or "app_name" (Sc (SStr "your request")) b)).
  assert (E : update_status e w id "APPROVED"
              = (set_call_requests
                   (Mongo.update_one (by_id (Sc (SOid oid))) sets2 c1)
                   (log_call req
                      (log_sms (status_notice_for "APPROVED" b)
                         (set_call_requests c1 w))),
                 Redirect "/analytics")).
  { unfold update_status. rewrite O, F.
    destruct (found_by_id_nonempty _ _ _ F) as (f & t & ->).
    change (is_review_status "APPROVED") with true. cbv iota.
    rewrite P, T. change (String.eqb "APPROVED" "APPROVED") with true.
    cbn [andb]. cbv zeta. unfold req in K. rewrite K.
    rewrite send_status_sms_effect by assumption. reflexivity. }
  assert (I1 : map (doc_get "_id") c1 = map (doc_get "_id") (call_requests w)).
  { apply (same_but_ids ["status"]); [intros [X | []]; discriminate |].
    apply update_one_same_but. intros k Hk. exact Hk. }
  assert (A : forall d, In d (call_requests w1) ->
                        doc_get "_id" d = Sc (SOid oid) ->
                        doc_get "status" d = Sc (SStr "APPROVED")
                        /\ doc_get "call_initiated" d = Sc (SBool true)).
  { unfold w1. rewrite E. world_proj. intros d Hd Hv. split.
    - assert (S1 : forall x, In x c1 -> doc_get "_id" x = Sc (SOid oid) ->
                             doc_get "status" x = Sc (SStr "APPROVED")).
      { apply (update_one_by_id_all (Sc (SOid oid))
                 [("status", Sc (SStr "APPROVED"))] (call_requests w));
          [exact ND | intros [X | []]; discriminate |].
        intros x. unfold doc_get, get_or.
        rewrite lookup_apply_set_last. reflexivity. }
      apply update_one_In in Hd. destruct Hd as [Hd | (x & Hx & ->)].
      + apply S1; assumption.
      + assert (Sx : same_but (map fst sets2) x (Mongo.apply_set sets2 x))
          by (apply apply_set_same_but; intros k Hk; exact Hk).
        assert (N1 : ~ In "status" (map fst sets2))
          by (unfold sets2; cbn; intuition discriminate).
        assert (N2 : ~ In "_id" (map fst sets2))
          by (unfold sets2; cbn; intuition discriminate).
        rewrite (same_but_doc_get _ "status" _ _ N1 Sx).
        apply S1; [exact Hx |].
        rewrite <- (same_but_doc_get _ "_id" _ _ N2 Sx).
        exact Hv.
    - revert d Hd Hv.
      apply (update_one_by_id_all (Sc (SOid oid)) sets2 c1);
        [rewrite I1; exact ND | unfold sets2; cbn; intuition discriminate |].
      intros x. unfold doc_get, get_or, sets2, Mongo.apply_set.
      cbn [fold_left fst snd].
      rewrite lookup_assign_other by discriminate.
      rewrite lookup_assign_same. reflexivity. }
  split; [rewrite E; reflexivity |].
  split; [unfold w1; rewrite E; unfold new_calls; world_proj;
          apply skipn_length_app |].
  split; [unfold w1; rewrite E; unfold new_messages; world_proj;
          apply skipn_length_app |].
  split; [exact A |].
  apply Forall_forall. intros d Hd Hv. apply filter_In in Hd.
  destruct Hd as [Hin Hm]. apply matches_due in Hm.
  destruct Hm as (_ & _ & N). apply N. apply (A d Hin Hv).
Qed.

Lemma update_status_marks_call_witness :
  new_calls (Fixtures.world_of [Fixtures.due_booking])
    (fst (update_status Example.env0
            (Fixtures.world_of [Fixtures.due_booking]) Example.oid1 "APPROVED"))
  = [call_for Fixtures.due_booking]
  /\ Mongo.find (due_calls Example.env0)
       (call_requests
          (fst (update_status Example.env0
                  (Fixtures.world_of [Fixtures.due_booking])
                  Example.oid1 "APPROVED")))
     = [].
Proof.
  destruct (update_status_marks_call Example.env0 Example.env0
              (Fixtures.world_of [Fixtures.due_booking]) Example.oid1
              Example.oid1 "CA1" Fixtures.due_booking)
    as (_ & A & _ & _ & _); try reflexivity.
  - vm_compute. repeat constructor. intros [].
  - split; [exact A | reflexivity].
Defined.

(** X15: The provider's status callback updates the first booking that holds
    the call's SID: its [call_status] and [last_update], nothing else; a
    callback without a SID, or with one that no booking holds, changes
    nothing.  The answer is always an empty 200. *)
Theorem call_status_webhook_effect (e : env) (w : world)
                                   (call_sid call_status : option string) :
  let w' := fst (call_status_webhook e w call_sid call_status) in
  snd (call_status_webhook e w call_sid call_status) = Text 200 ""
  /\ calls w' = calls w /\ messages w' = messages w
  /\ same_registry w w'
  /\ Forall2 (same_but ["call_status"; "last_update"])
             (call_requests w) (call_requests w')
  /\ (forall s d,
        call_sid = Some s -> s <> "" ->
        Mongo.find_one [("twilio_sid", Mongo.Eq (Sc (SStr s)))]
                       (call_requests w) = Some d ->
        exists d',
          In d' (call_requests w')
          /\ same_but ["call_status"; "last_update"] d d'
          /\ doc_get "call_status" d' = Sc (of_form call_status)
          /\ doc_get "last_update" d' = Sc (SDate (now_ist e)))
  /\ (call_sid = None \/ call_sid = Some ""
      \/ (exists s, call_sid = Some s
                    /\ Mongo.find_one [("twilio_sid", Mongo.Eq (Sc (SStr s)))]
                                      (call_requests w) = None) ->
      call_requests w' = call_requests w).
Proof.
  unfold call_status_webhook.
  destruct call_sid as [[| a s] |]; world_proj.
  - repeat split; try apply same_registry_refl;
      try apply Forall2_same_but_refl.
    intros s d E N. inversion E; subst. contradiction.
  - set (sets := [("call_status", _); ("last_update", _)]).
    assert (I : incl (map fst sets) ["call_status"; "last_update"])
      by (intros k Hk; exact Hk).
    repeat split; try apply same_registry_bookings.
    + apply update_one_same_but, I.
    + intros s' d E N F. inversion E; subst s'.
      exists (Mongo.apply_set sets d).
      split; [apply update_one_hit, F |].
      split; [apply apply_set_same_but, I |].
      unfold doc_get, get_or, sets, Mongo.apply_set. cbn [fold_left fst snd].
      rewrite lookup_assign_same.
      rewrite lookup_assign_other by discriminate.
      rewrite lookup_assign_same. destruct call_status; split; reflexivity.
    + intros [H | [H | (s' & H & F)]]; try discriminate.
      inversion H; subst s'. apply update_one_miss, F.
  - repeat split; try apply same_registry_refl;
      try apply Forall2_same_but_refl.
    intros s d E. discriminate.
Qed.

(** ** The life of an API key *)

Lemma count_documents_cons q d c :
  Mongo.count_documents q (d :: c)
  = (if Mongo.matches q d then 1 else 0) + Mongo.count_documents q c.
Proof.
  unfold Mongo.count_documents, Mongo.find. cbn [filter].
  destruct (Mongo.matches q d); cbn [List.length]; lia.
Qed.

Lemma count_documents_nonneg q c : 0 <= Mongo.count_documents q c.
Proof. unfold Mongo.count_documents. lia. Qed.

Lemma count_documents_pos q c d :
  In d c -> Mongo.matches q d = true -> 1 <= Mongo.count_documents q c.
Proof.
  induction c as [| x t IH]; intros [] M.
  - subst. rewrite count_documents_cons, M.
    pose proof (count_documents_nonneg q t). lia.
  - rewrite count_documents_cons.
    specialize (IH H M). destruct (Mongo.matches q x); lia.
Qed.

Lemma count_documents_zero q c :
  Mongo.count_documents q c <= 0 -> Mongo.find_one q c = None.
Proof.
  intros H. destruct (Mongo.find_one q c) as [d |] eqn:F; [| reflexivity].
  apply MongoFacts.find_one_some in F. destruct F as [Hin M].
  pose proof (count_documents_pos q c d Hin M). lia.
Qed.

Lemma find_one_cons q d c :
  Mongo.find_one q (d :: c)
  = if Mongo.matches q d then Some d else Mongo.find_one q c.
Proof. reflexivity. Qed.

(** The document that an update rewrites held the only copy of what [qk]
    asks for: afterwards nothing answers to [qk]. *)
Lemma find_one_after_update q sets qk c d :
  Mongo.find_one q c = Some d ->
  Mongo.matches qk d = true ->
  Mongo.count_documents qk c <= 1 ->
  Mongo.matches qk (Mongo.apply_set sets d) = false ->
  Mongo.find_one qk (Mongo.update_one q sets c) = None.
Proof.
  intros F M C N. induction c as [| x t IH]; [discriminate F |].
  rewrite find_one_cons in F. rewrite count_documents_cons in C.
  cbn [Mongo.update_one]. destruct (Mongo.matches q x).
  - inversion F; subst x. rewrite M in C.
    rewrite find_one_cons, N. apply count_documents_zero. lia.
  - rewrite find_one_cons.
    apply MongoFacts.find_one_some in F as F'. destruct F' as [Hin _].
    pose proof (count_documents_pos qk t d Hin M).
    destruct (Mongo.matches qk x); [lia |]. apply IH; [exact F | lia].
Qed.

Lemma find_one_after_delete q qk c d :
  Mongo.find_one q c = Some d ->
  Mongo.matches qk d = true ->
  Mongo.count_documents qk c <= 1 ->
  Mongo.find_one qk (Mongo.delete_one q c) = None.
Proof.
  intros F M C. induction c as [| x t IH]; [discriminate F |].
  rewrite find_one_cons in F. rewrite count_documents_cons in C.
  cbn [Mongo.delete_one]. destruct (Mongo.matches q x).
  - inversion F; subst x. rewrite M in C.
    apply count_documents_zero. lia.
  - rewrite find_one_cons.
    apply MongoFacts.find_one_some in F as F'. destruct F' as [Hin _].
    pose proof (count_documents_pos qk t d Hin M).
    destruct (Mongo.matches qk x); [lia |]. apply IH; [exact F | lia].
Qed.

(** What [qk] finds is not disturbed by an update or a removal of a
    document that [qk] does not ask for, before or after. *)
Lemma find_one_update_other q sets qk c d :
  Mongo.find_one q c = Some d ->
  Mongo.matches qk d = false ->
  Mongo.matches qk (Mongo.apply_set sets d) = false ->
  Mongo.find_one qk (Mongo.update_one q sets c) = Mongo.find_one qk c.
Proof.
  intros F M N. induction c as [| x t IH]; [discriminate F |].
  rewrite find_one_cons in F. cbn [Mongo.update_one].
  destruct (Mongo.matches q x).
  - inversion F; subst x. rewrite !find_one_cons, M, N. reflexivity.
  - rewrite !find_one_cons, (IH F). reflexivity.
Qed.

Lemma find_one_delete_other q qk c d :
  Mongo.find_one q c = Some d ->
  Mongo.matches qk d = false ->
  Mongo.find_one qk (Mongo.delete_one q c) = Mongo.find_one qk c.
Proof.
  intros F M. induction c as [| x t IH]; [discriminate F |].
  rewrite find_one_cons in F. cbn [Mongo.delete_one].
  destruct (Mongo.matches q x).
  - inversion F; subst x. rewrite find_one_cons, M. reflexivity.
  - rewrite !find_one_cons, (IH F). reflexivity.
Qed.

Lemma delete_one_miss q c :
  Mongo.find_one q c = None -> Mongo.delete_one q c = c.
Proof.
  induction c as [| x t IH]; [reflexivity |].
  rewrite find_one_cons. cbn [Mongo.delete_one].
  destruct (Mongo.matches q x); [discriminate |].
  intros F. rewrite (IH F). reflexivity.
Qed.

(** The rewritten document is the first to answer to [qn] when nothing
    did before. *)
Lemma find_one_update_new q sets qn c d :
  Mongo.find_one q c = Some d ->
  (forall x, In x c -> Mongo.matches qn x = false) ->
  Mongo.matches qn (Mongo.apply_set sets d) = true ->
  Mongo.find_one qn (Mongo.update_one q sets c)
  = Some (Mongo.apply_set sets d).
Proof.
  intros F A N. induction c as [| x t IH]; [discriminate F |].
  rewrite find_one_cons in F. cbn [Mongo.update_one].
  destruct (Mongo.matches q x).
  - inversion F; subst x. rewrite find_one_cons, N. reflexivity.
  - rewrite find_one_cons, (A x (or_introl eq_refl)).
    apply IH; [exact F |]. intros y Hy. apply A. right. exact Hy.
Qed.

Lemma find_one_insert_miss q c d :
  Mongo.matches q d = false ->
  Mongo.find_one q (Mongo.insert_one d c) = Mongo.find_one q c.
Proof.
  intros M. unfold Mongo.insert_one.
  induction c as [| x t IH]; cbn [app].
  - rewrite find_one_cons, M. reflexivity.
  - rewrite !find_one_cons, IH. reflexivity.
Qed.

Lemma find_one_insert_new q c d :
  (forall x, In x c -> Mongo.matches q x = false) ->
  Mongo.matches q d = true ->
  Mongo.find_one q (Mongo.insert_one d c) = Some d.
Proof.
  intros A M. unfold Mongo.insert_one.
  induction c as [| x t IH]; cbn [app].
  - rewrite find_one_cons, M. reflexivity.
  - rewrite find_one_cons, (A x (or_introl eq_refl)).
    apply IH. intros y Hy. apply A. right. exact Hy.
Qed.

Lemma matches_key k d :
  Mongo.matches [("api_key", Mongo.Eq (Sc (SStr k)))] d = true
  <-> doc_get "api_key" d = Sc (SStr k).
Proof.
  unfold Mongo.matches. cbn [forallb fst snd].
  rewrite andb_true_r, MongoFacts.holds_Eq. apply value_eqb_eq.
Qed.

Lemma matches_key_false k d :
  Mongo.matches [("api_key", Mongo.Eq (Sc (SStr k)))] d = false
  <-> doc_get "api_key" d <> Sc (SStr k).
Proof.
  rewrite <- matches_key. destruct (Mongo.matches _ d); split; congruence.
Qed.

Lemma fresh_key_matches k c :
  fresh_key k c ->
  forall x, In x c ->
            Mongo.matches [("api_key", Mongo.Eq (Sc (SStr k)))] x = false.
Proof. intros H x Hx. apply matches_key_false, H, Hx. Qed.

Lemma api_calls_unknown w k :
  Mongo.find_one [("api_key", Mongo.Eq (Sc (SStr k)))] (api_keys w) = None ->
  unauthorized (api_calls w (Some k)).
Proof.
  intros F. unfold api_calls, unauthorized. destruct k; [eauto |].
  rewrite F. eauto.
Qed.

(** The answer of [api_calls] depends on the key document through its
    client, scope and app only. *)
Lemma api_calls_same_key_doc w w' k k' api api' :
  k <> "" -> k' <> "" ->
  Mongo.find_one [("api_key", Mongo.Eq (Sc (SStr k)))] (api_keys w)
  = Some api ->
  Mongo.find_one [("api_key", Mongo.Eq (Sc (SStr k')))] (api_keys w')
  = Some api' ->
  same_but ["api_key"; "created_at"] api api' ->
  call_requests w' = call_requests w ->
  api_calls w' (Some k') = api_calls w (Some k).
Proof.
  intros N N' F F' S C. unfold api_calls.
  destruct k as [| a s]; [contradiction |].
  destruct k' as [| a' s']; [contradiction |].
  rewrite F, F', C.
  assert (G : forall x, x <> "api_key" -> x <> "created_at" ->
                        lookup x api' = lookup x api).
  { intros x H1 H2. apply S. intros [E | [E | []]]; congruence. }
  assert (Ne : api = [] <-> api' = []).
  { apply MongoFacts.find_one_some in F, F'.
    destruct F as [_ M], F' as [_ M'].
    apply matches_key in M, M'.
    split; intros ->; discriminate. }
  destruct api as [| f t], api' as [| f' t'];
    try reflexivity;
    try (exfalso; destruct Ne as [A B];
         first [discriminate (A eq_refl) | discriminate (B eq_refl)]).
  unfold doc_get, get_or.
  rewrite !(G "client_id"), !(G "scope"), !(G "app_name") by discriminate.
  reflexivity.
Qed.

Lemma find_one_unique q c d :
  In d c -> Mongo.matches q d = true -> Mongo.count_documents q c <= 1 ->
  Mongo.find_one q c = Some d.
Proof.
  induction c as [| x t IH]; intros [] M C.
  - subst. rewrite find_one_cons, M. reflexivity.
  - rewrite count_documents_cons in C. rewrite find_one_cons.
    pose proof (count_documents_pos q t d H M).
    destruct (Mongo.matches q x); [lia |]. apply IH; [assumption .. | lia].
Qed.

Lemma api_calls_ext w w' key :
  (forall k, key = Some k ->
     Mongo.find_one [("api_key", Mongo.Eq (Sc (SStr k)))] (api_keys w')
     = Mongo.find_one [("api_key", Mongo.Eq (Sc (SStr k)))] (api_keys w)) ->
  call_requests w' = call_requests w ->
  api_calls w' key = api_calls w key.
Proof.
  intros F C. unfold api_calls. destruct key as [[| a s] |]; try reflexivity.
  rewrite (F _ eq_refl), C. reflexivity.
Qed.

(** X16: Only an administrator revokes a key.  Once the document of a key is
    removed, the key is refused by [api_calls], while every other key is
    answered as before. *)
Theorem revoke_key_blocks (w : world) (id oid key : string) (k : document) :
  ObjectId id = Some oid ->
  Mongo.find_one (by_id (Sc (SOid oid))) (api_keys w) = Some k ->
  doc_get "api_key" k = Sc (SStr key) ->
  stored_once key (api_keys w) ->
  let w' := fst (revoke_key w (Some "ADMIN") id) in
  (forall role, role <> Some "ADMIN" ->
                revoke_key w role id = (w, Redirect "/login"))
  /\ snd (revoke_key w (Some "ADMIN") id) = Redirect "/api-key"
  /\ unauthorized (api_calls w' (Some key))
  /\ (forall key', key' <> Some key -> api_calls w' key' = api_calls w key')
  /\ call_requests w' = call_requests w.
Proof.
  intros O F K S w'.
  assert (E : revoke_key w (Some "ADMIN") id
              = (set_api_keys
                   (Mongo.delete_one (by_id (Sc (SOid oid))) (api_keys w)) w,
                 Redirect "/api-key")).
  { unfold revoke_key. rewrite O. reflexivity. }
  split.
  { intros role R. unfold revoke_key. destruct role as [r |]; [| reflexivity].
    destruct (String.eqb_spec r "ADMIN"); [congruence | reflexivity]. }
  unfold w'. rewrite E. world_proj.
  split; [reflexivity |]. split; [| split; [| reflexivity]].
  - apply api_calls_unknown. world_proj.
    apply (find_one_after_delete _ _ _ k); [exact F | | exact S].
    apply matches_key, K.
  - intros key' N. apply api_calls_ext; [| reflexivity].
    intros k' ->. world_proj.
    apply (find_one_delete_other _ _ _ k F).
    apply matches_key_false. rewrite K. congruence.
Qed.

Lemma revoke_key_blocks_witness :
  unauthorized
    (api_calls (fst (revoke_key Fixtures.keyed_world (Some "ADMIN")
                                Example.oid3))
               (Some "sk_1"))
  /\ revoke_key Fixtures.keyed_world (Some "CLIENT") Example.oid3
     = (Fixtures.keyed_world, Redirect "/login").
Proof.
  destruct (revoke_key_blocks Fixtures.keyed_world Example.oid3 Example.oid3
              "sk_1" Fixtures.single_app_key)
    as (A & _ & B & _); try reflexivity.
  - vm_compute. discriminate.
  - split; [exact B | apply A; discriminate].
Defined.

(** X17: Regenerating a key replaces it: the old key is refused, the new key
    is answered exactly as the old one was, and the other keys are not
    affected. *)
Theorem regenerate_key_rotates (e : env) (w : world)
                               (id oid key token : string) (k : document) :
  ObjectId id = Some oid ->
  Mongo.find_one (by_id (Sc (SOid oid))) (api_keys w) = Some k ->
  doc_get "api_key" k = Sc (SStr key) -> key <> "" ->
  stored_once key (api_keys w) ->
  fresh_key ("sk_" ++ token) (api_keys w) ->
  let w' := fst (regenerate_key e w id token) in
  snd (regenerate_key e w id token) = Redirect "/api-key"
  /\ unauthorized (api_calls w' (Some key))
  /\ api_calls w' (Some ("sk_" ++ token)) = api_calls w (Some key)
  /\ (forall key', key' <> Some key -> key' <> Some ("sk_" ++ token) ->
                   api_calls w' key' = api_calls w key')
  /\ call_requests w' = call_requests w.
Proof.
  intros O F K N S Fr w'.
  set (sets := [("api_key", Sc (SStr ("sk_" ++ token)));
                ("created_at", Sc (SDate (utcnow e)))]).
  assert (E : regenerate_key e w id token
              = (set_api_keys
                   (Mongo.update_one (by_id (Sc (SOid oid))) sets (api_keys w))
                   w,
                 Redirect "/api-key")).
  { unfold regenerate_key. rewrite O. reflexivity. }
  pose proof (MongoFacts.find_one_some _ _ _ F) as [Hin _].
  assert (D : key <> "sk_" ++ token).
  { intros X. apply (Fr k Hin). rewrite K, X. reflexivity. }
  assert (K' : doc_get "api_key" (Mongo.apply_set sets k)
               = Sc (SStr ("sk_" ++ token))).
  { unfold doc_get, get_or, sets, Mongo.apply_set. cbn [fold_left fst snd].
    rewrite lookup_assign_other by discriminate.
    rewrite lookup_assign_same. reflexivity. }
  unfold w'. rewrite E. world_proj.
  split; [reflexivity |]. split; [| split; [| split; [| reflexivity]]].
  - apply api_calls_unknown. world_proj.
    apply (find_one_after_update _ _ _ _ k); [exact F | | exact S |].
    + apply matches_key, K.
    + apply matches_key_false. rewrite K'. congruence.
  - apply (api_calls_same_key_doc _ _ key ("sk_" ++ token) k
             (Mongo.apply_set sets k)); try assumption.
    + discriminate.
    + apply find_one_unique; [exact Hin | apply matches_key, K | exact S].
    + world_proj. apply find_one_update_new; [exact F | |].
      * apply fresh_key_matches, Fr.
      * apply matches_key, K'.
    + apply apply_set_same_but. intros x Hx. exact Hx.
    + reflexivity.
  - intros key' N1 N2. apply api_calls_ext; [| reflexivity].
    intros k' ->. world_proj.
    apply (find_one_update_other _ _ _ _ k F).
    + apply matches_key_false. rewrite K. congruence.
    + apply matches_key_false. rewrite K'. congruence.
Qed.

Lemma regenerate_key_rotates_witness :
  unauthorized
    (api_calls (fst (regenerate_key Example.env0 Fixtures.keyed_world
                                    Example.oid3 "00ff"))
               (Some "sk_1"))
  /\ api_calls (fst (regenerate_key Example.env0 Fixtures.keyed_world
                                    Example.oid3 "00ff"))
               (Some "sk_00ff")
     = api_calls Fixtures.keyed_world (Some "sk_1").
Proof.
  destruct (regenerate_key_rotates Example.env0 Fixtures.keyed_world
              Example.oid3 Example.oid3 "sk_1" "00ff" Fixtures.single_app_key)
    as (_ & A & B & _); try reflexivity.
  - discriminate.
  - vm_compute. discriminate.
  - intros d [<- | []]. vm_compute. discriminate.
  - split; [exact A | exact B].
Defined.

(** The document that the POST branch of [api_key_page] stores. *)
Lemma issued_key_doc e w client_id scope app_name token new_id :
  exists d,
    fst (issue_api_key e w client_id scope app_name token new_id)
    = set_api_keys (Mongo.insert_one d (api_keys w)) w
    /\ doc_get "api_key" d = Sc (SStr ("sk_" ++ token))
    /\ doc_get "client_id" d = Sc (of_form client_id)
    /\ doc_get "_id" d = Sc (SOid new_id)
    /\ ((exists a, scope = Some "SINGLE_APP" /\ app_name = Some a /\ a <> ""
                   /\ doc_get "scope" d = Sc (SStr "SINGLE_APP")
                   /\ doc_get "app_name" d = Sc (SStr a))
        \/ ((scope <> Some "SINGLE_APP" \/ app_name = None
             \/ app_name = Some "")
            /\ doc_get "scope" d = Sc (SStr "ALL_APPS"))).
Proof.
  unfold issue_api_key. cbv zeta. cbn [fst].
  destruct (scalar_eqb (of_form scope) (SStr "SINGLE_APP")
            && truthy (of_form app_name)) eqn:Q.
  - apply andb_true_iff in Q. destruct Q as [Q1 Q2].
    apply scalar_eqb_eq in Q1.
    destruct scope as [s |]; [| discriminate Q1].
    cbn [of_form] in Q1. inversion Q1; subst s.
    destruct app_name as [a |]; [| discriminate Q2].
    cbn [of_form truthy] in Q2. apply negb_true_iff in Q2.
    apply String.eqb_neq in Q2.
    eexists. split; [reflexivity |].
    repeat split. left. exists a. repeat split. exact Q2.
  - eexists. split; [reflexivity |].
    repeat split. right. split; [| reflexivity].
    apply andb_false_iff in Q. destruct Q as [Q | Q].
    + left. intros ->. discriminate Q.
    + destruct app_name as [[| c a] |]; [auto | discriminate Q | auto].
Qed.

Lemma api_calls_found w k api :
  k <> "" ->
  Mongo.find_one [("api_key", Mongo.Eq (Sc (SStr k)))] (api_keys w)
  = Some api ->
  let scoped :=
    value_eqb (get_or "scope" (Sc (SStr "ALL_APPS")) api)
              (Sc (SStr "SINGLE_APP"))
    && vtruthy (doc_get "app_name" api) in
  let data :=
    Mongo.project_out "_id"
      (Mongo.sort_desc "created_at"
         (Mongo.find
            (("client_id", Mongo.Eq (doc_get "client_id" api))
             :: (if scoped
                 then [("app_name", Mongo.Eq (doc_get "app_name" api))]
                 else []))
            (call_requests w))) in
  api_calls w (Some k)
  = JsonCalls 200 (doc_get "client_id" api) (Z.of_nat (List.length data)) data.
Proof.
  intros N F scoped data. unfold api_calls.
  destruct k as [| c k]; [contradiction |]. rewrite F.
  apply MongoFacts.find_one_some in F. destruct F as [_ M].
  apply matches_key in M.
  destruct api as [| f t]; [discriminate M |].
  cbv zeta. fold scoped. unfold data. destruct scoped; reflexivity.
Qed.

(** X18: A new key does not disturb the others, and what it opens depends on
    the posted scope: a SINGLE_APP key with an app name shows the
    bookings of that app only; every other combination is stored as an
    ALL_APPS key and shows all bookings of the client. *)
Theorem issue_api_key_scope (e : env) (w : world)
                            (client_id scope app_name : option string)
                            (token new_id : string) :
  fresh_key ("sk_" ++ token) (api_keys w) ->
  let w' := fst (issue_api_key e w client_id scope app_name token new_id) in
  let cid := Sc (of_form client_id) in
  (forall key', key' <> Some ("sk_" ++ token) ->
                api_calls w' key' = api_calls w key')
  /\ call_requests w' = call_requests w
  /\ exists data,
       api_calls w' (Some ("sk_" ++ token))
       = JsonCalls 200 cid (Z.of_nat (List.length data)) data
       /\ (forall a, scope = Some "SINGLE_APP" -> app_name = Some a ->
                     a <> "" ->
                     Forall (fun d => doc_get "app_name" d = Sc (SStr a)) data)
       /\ (scope <> Some "SINGLE_APP" \/ app_name = None
           \/ app_name = Some "" ->
           Z.of_nat (List.length data)
           = Mongo.count_documents [("client_id", Mongo.Eq cid)]
                                   (call_requests w)).
Proof.
  intros Fr w' cid.
  destruct (issued_key_doc e w client_id scope app_name token new_id)
    as (d & E & K & C & _ & S).
  unfold w'. rewrite E. clear E w'.
  split; [| split; [reflexivity |]].
  { intros key' N. apply api_calls_ext; [| reflexivity].
    intros k' ->. world_proj. apply find_one_insert_miss.
    apply matches_key_false. rewrite K. congruence. }
  assert (F : Mongo.find_one [("api_key", Mongo.Eq (Sc (SStr ("sk_" ++ token))))]
                (api_keys (set_api_keys (Mongo.insert_one d (api_keys w)) w))
              = Some d).
  { world_proj. apply find_one_insert_new;
      [apply fresh_key_matches, Fr | apply matches_key, K]. }
  assert (Nk : "sk_" ++ token <> "") by (cbn; discriminate).
  pose proof (api_calls_found _ _ _ Nk F) as A.
  cbv zeta in A. rewrite C in A. fold cid in A.
  eexists. split; [exact A |]. clear A F. world_proj.
  destruct S as [(a & S1 & S2 & S3 & S4 & S5) | (S1 & S2)].
  - split.
    + intros a' _ Ha' _. rewrite S2 in Ha'. inversion Ha'; subst a'.
      assert (G : get_or "scope" (Sc (SStr "ALL_APPS")) d
                  = Sc (SStr "SINGLE_APP")).
      { unfold get_or. rewrite (doc_get_lookup _ _ _ S4); congruence. }
      rewrite G, S5.
      assert (Ht : vtruthy (Sc (SStr a)) = true).
      { cbn [vtruthy truthy]. apply negb_true_iff, String.eqb_neq, S3. }
      rewrite Ht, value_eqb_refl. cbn [andb].
      apply Forall_forall. intros x Hx.
      unfold Mongo.project_out in Hx. apply in_map_iff in Hx.
      destruct Hx as (x0 & <- & Hx0).
      apply MongoFacts.sort_desc_In in Hx0.
      unfold Mongo.find in Hx0. apply filter_In in Hx0.
      destruct Hx0 as [_ Hm].
      unfold Mongo.matches in Hm. cbn [forallb fst snd] in Hm.
      apply andb_true_iff in Hm. destruct Hm as [_ Hm].
      rewrite MongoFacts.holds_Eq, andb_true_r in Hm.
      apply value_eqb_eq in Hm.
      rewrite doc_get_remove_key_other by discriminate. exact Hm.
    + intros [X | [X | X]]; exfalso; congruence.
  - split.
    + intros a X Y Z. exfalso. destruct S1 as [S1 | [S1 | S1]]; congruence.
    + intros _.
      assert (G : get_or "scope" (Sc (SStr "ALL_APPS")) d
                  = Sc (SStr "ALL_APPS")).
      { unfold get_or. rewrite (doc_get_lookup _ _ _ S2); congruence. }
      rewrite G. change (value_eqb (Sc (SStr "ALL_APPS"))
                                   (Sc (SStr "SINGLE_APP"))) with false.
      cbn [andb]. unfold Mongo.project_out, Mongo.count_documents.
      rewrite length_map, MongoFacts.sort_desc_length. reflexivity.
Qed.

Lemma issue_api_key_scope_witness :
  exists data,
    api_calls (fst (issue_api_key Example.env0 Fixtures.keyed_world
                      (Some Example.cid) (Some "SINGLE_APP") (Some "")
                      "00ff" Example.oid2))
              (Some "sk_00ff")
    = JsonCalls 200 (Sc (SStr Example.cid)) 2 data.
Proof.
  destruct (issue_api_key_scope Example.env0 Fixtures.keyed_world
              (Some Example.cid) (Some "SINGLE_APP") (Some "")
              "00ff" Example.oid2)
    as (_ & _ & data & A & _ & B).
  - intros d [<- | []]. vm_compute. discriminate.
  - exists data. etransitivity; [exact A |].
    rewrite B by auto. reflexivity.
Defined.

(** ** The API key of a form: rotation, revocation, saving *)

Lemma api_submit_no_form e w k data new_id :
  Mongo.find_one [("api_key", Mongo.Eq (Sc (SStr k)))] (form_builders w) = None ->
  api_submit e w k data new_id = (w, Text 403 "Invalid API key").
Proof. intros F. unfold api_submit. rewrite F. reflexivity. Qed.

(** The answer of [api_submit] depends on the form through its client,
    app name and fields only. *)
Lemma api_submit_same_form e w w' k k' f f' data new_id :
  Mongo.find_one [("api_key", Mongo.Eq (Sc (SStr k)))] (form_builders w)
  = Some f ->
  Mongo.find_one [("api_key", Mongo.Eq (Sc (SStr k')))] (form_builders w')
  = Some f' ->
  same_but ["api_key"] f f' ->
  llm_settings w' = llm_settings w -> applications w' = applications w ->
  snd (api_submit e w' k' data new_id) = snd (api_submit e w k data new_id).
Proof.
  intros F F' S L A. unfold api_submit. rewrite F, F'.
  apply MongoFacts.find_one_some in F, F'.
  destruct F as [_ M], F' as [_ M']. apply matches_key in M, M'.
  destruct f as [| x t]; [discriminate M |].
  destruct f' as [| x' t']; [discriminate M' |].
  assert (G : forall y, y <> "api_key" ->
                        lookup y (x' :: t') = lookup y (x :: t)).
  { intros y H. apply S. intros [E | []]. congruence. }
  assert (FF : form_fields (x' :: t') = form_fields (x :: t)).
  { unfold form_fields. rewrite (G "fields") by discriminate. reflexivity. }
  rewrite (G "client_id"), (G "app_name"), FF by discriminate.
  destruct (lookup "client_id" (x :: t)) as [cid |]; [| reflexivity].
  destruct (lookup "app_name" (x :: t)) as [app |]; [| reflexivity].
  destruct (form_fields (x :: t)) as [fields |]; [| reflexivity].
  assert (P : final_prompt w' cid app = final_prompt w cid app).
  { unfold final_prompt. rewrite L, A. reflexivity. }
  rewrite P.
  destruct (scan_fields no_labels fields); [| reflexivity].
  destruct (intake_call_time e data); [| reflexivity].
  destruct (final_prompt w cid app); [| reflexivity].
  cbv zeta. destruct (BSON.document _); reflexivity.
Qed.

(** X19: [revoke_key_api] blanks the key of the client's form: whatever is
    then submitted under the old key is refused, and no other field of any
    form changes. *)
Theorem revoke_key_api_blocks (w : world) (client_id : value)
                              (app_name key : string) (f : document) :
  Mongo.find_one [("app_name", Mongo.Eq (Sc (SStr app_name)));
                  ("client_id", Mongo.Eq client_id)] (form_builders w)
  = Some f ->
  doc_get "api_key" f = Sc (SStr key) ->
  stored_once key (form_builders w) ->
  let w' := fst (revoke_key_api w client_id app_name) in
  snd (revoke_key_api w client_id app_name)
  = Reply 200 [("status", Sc (SStr "revoked"))]
  /\ (forall e data new_id,
        api_submit e w' key data new_id = (w', Text 403 "Invalid API key"))
  /\ Forall2 (same_but ["api_key"]) (form_builders w) (form_builders w')
  /\ call_requests w' = call_requests w.
Proof.
  intros F K S w'. unfold w', revoke_key_api. world_proj.
  split; [reflexivity |]. split; [| split; [| reflexivity]].
  - intros e data new_id. apply api_submit_no_form. world_proj.
    apply (find_one_after_update _ _ _ _ f); [exact F | | exact S |].
    + apply matches_key, K.
    + apply matches_key_false. unfold doc_get, get_or.
      rewrite lookup_apply_set_last. discriminate.
  - apply update_one_same_but. intros k Hk. exact Hk.
Qed.

Lemma revoke_key_api_blocks_witness :
  api_submit Example.env0
    (fst (revoke_key_api (Fixtures.world_of []) (Sc (SStr Example.cid)) "Hotel"))
    "0123456789abcdef0123456789abcdef" [("name", SStr "Asha")] Example.oid2
  = (fst (revoke_key_api (Fixtures.world_of []) (Sc (SStr Example.cid)) "Hotel"),
     Text 403 "Invalid API key").
Proof.
  assert (S : stored_once "0123456789abcdef0123456789abcdef"
                          (form_builders (Fixtures.world_of [])))
    by (vm_compute; discriminate).
  destruct (revoke_key_api_blocks (Fixtures.world_of []) (Sc (SStr Example.cid))
              "Hotel" "0123456789abcdef0123456789abcdef" Fixtures.hotel_form
              eq_refl eq_refl S)
    as (_ & A & _).
  apply A.
Defined.

(** X20: [regen_key] rotates the key of the client's form: the old key is
    refused, and a submission under the new key is answered as it would
    have been under the old one. *)
Theorem regen_key_rotates (w : world) (client_id : value)
                          (app_name new_key key : string) (f : document) :
  Mongo.find_one [("app_name", Mongo.Eq (Sc (SStr app_name)));
                  ("client_id", Mongo.Eq client_id)] (form_builders w)
  = Some f ->
  doc_get "api_key" f = Sc (SStr key) ->
  stored_once key (form_builders w) ->
  fresh_key new_key (form_builders w) ->
  let w' := fst (regen_key w client_id app_name new_key) in
  (forall e data new_id,
      api_submit e w' key data new_id = (w', Text 403 "Invalid API key"))
  /\ (forall e data new_id,
        snd (api_submit e w' new_key data new_id)
        = snd (api_submit e w key data new_id))
  /\ Forall2 (same_but ["api_key"]) (form_builders w) (form_builders w')
  /\ call_requests w' = call_requests w.
Proof.
  intros F K S Fr w'. unfold w', regen_key. world_proj.
  pose proof (MongoFacts.find_one_some _ _ _ F) as [Hin _].
  assert (K' : doc_get "api_key"
                 (Mongo.apply_set [("api_key", Sc (SStr new_key))] f)
               = Sc (SStr new_key)).
  { unfold doc_get, get_or. rewrite lookup_apply_set_last. reflexivity. }
  assert (D : key <> new_key).
  { intros X. apply (Fr f Hin). rewrite K, X. reflexivity. }
  split; [| split; [| split; [| reflexivity]]].
  - intros e data new_id. apply api_submit_no_form. world_proj.
    apply (find_one_after_update _ _ _ _ f); [exact F | | exact S |].
    + apply matches_key, K.
    + apply matches_key_false. rewrite K'. congruence.
  - intros e data new_id.
    apply (api_submit_same_form e _ _ key new_key f
             (Mongo.apply_set [("api_key", Sc (SStr new_key))] f));
      try reflexivity.
    + apply find_one_unique; [exact Hin | apply matches_key, K | exact S].
    + world_proj. apply find_one_update_new; [exact F | |].
      * apply fresh_key_matches, Fr.
      * apply matches_key, K'.
    + apply apply_set_same_but. intros k Hk. exact Hk.
  - apply update_one_same_but. intros k Hk. exact Hk.
Qed.

Lemma regen_key_rotates_witness :
  snd (api_submit Example.env0
         (fst (regen_key (Fixtures.world_of []) (Sc (SStr Example.cid))
                         "Hotel" "00ff"))
         "0123456789abcdef0123456789abcdef" [("name", SStr "Asha")]
         Example.oid2)
  = Text 403 "Invalid API key"
  /\ snd (api_submit Example.env0
            (fst (regen_key (Fixtures.world_of []) (Sc (SStr Example.cid))
                            "Hotel" "00ff"))
            "00ff" [("name", SStr "Asha")] Example.oid2)
     = snd (api_submit Example.env0 (Fixtures.world_of [])
              "0123456789abcdef0123456789abcdef" [("name", SStr "Asha")]
              Example.oid2).
Proof.
  assert (S : stored_once "0123456789abcdef0123456789abcdef"
                          (form_builders (Fixtures.world_of [])))
    by (vm_compute; discriminate).
  assert (Fr : fresh_key "00ff" (form_builders (Fixtures.world_of [])))
    by (intros d [<- | []]; vm_compute; discriminate).
  destruct (regen_key_rotates (Fixtures.world_of []) (Sc (SStr Example.cid))
              "Hotel" "00ff" "0123456789abcdef0123456789abcdef"
              Fixtures.hotel_form eq_refl eq_refl S Fr)
    as (A & B & _).
  split; [rewrite A; reflexivity | apply B].
Defined.

(** ** Creating an application and saving its form *)

Lemma matches_client_app client_id app_name d :
  Mongo.matches [("client_id", Mongo.Eq client_id);
                 ("app_name", Mongo.Eq app_name)] d = true
  <-> doc_get "client_id" d = client_id /\ doc_get "app_name" d = app_name.
Proof.
  unfold Mongo.matches. cbn [forallb fst snd].
  rewrite andb_true_r, andb_true_iff, !MongoFacts.holds_Eq, !value_eqb_eq.
  reflexivity.
Qed.



Lemma existsb_find_one q c :
  existsb (Mongo.matches q) c
  = match Mongo.find_one q c with Some _ => true | None => false end.
Proof.
  induction c as [| x t IH]; [reflexivity |].
  rewrite find_one_cons. cbn [existsb].
  destruct (Mongo.matches q x); [reflexivity | exact IH].
Qed.

Lemma find_one_update_self q sets c d :
  Mongo.find_one q c = Some d ->
  Mongo.matches q (Mongo.apply_set sets d) = true ->
  Mongo.find_one q (Mongo.update_one q sets c)
  = Some (Mongo.apply_set sets d).
Proof.
  intros F M. induction c as [| x t IH]; [discriminate F |].
  rewrite find_one_cons in F. cbn [Mongo.update_one].
  destruct (Mongo.matches q x) eqn:Mx.
  - inversion F; subst x. rewrite find_one_cons, M. reflexivity.
  - rewrite find_one_cons, Mx. apply IH, F.
Qed.

(** X22: [save_form] gives a form its key once: saving an existing form keeps
    the stored key and replaces the fields; saving a form that does not
    exist yet inserts one with the new token. *)
Theorem save_form_keeps_key (w : world) (client_id : value)
                            (app_name : string) (fields : list dict)
                            (token new_id : string) :
  let q : Mongo.query := [("client_id", Mongo.Eq client_id);
                          ("app_name", Mongo.Eq (Sc (SStr app_name)))] in
  let w' := fst (save_form w client_id app_name fields token new_id) in
  let reply := snd (save_form w client_id app_name fields token new_id) in
  (forall existing k,
      Mongo.find_one q (form_builders w) = Some existing ->
      lookup "api_key" existing = Some k ->
      reply = Reply 200 [("status", Sc (SStr "saved")); ("api_key", k)]
      /\ Forall2 (same_but ["fields"; "api_key"; "app_name"; "client_id"])
                 (form_builders w) (form_builders w')
      /\ exists f,
           Mongo.find_one q (form_builders w') = Some f
           /\ doc_get "api_key" f = k
           /\ doc_get "fields" f = Rows fields
           /\ doc_get "_id" f = doc_get "_id" existing)
  /\ (Mongo.find_one q (form_builders w) = None ->
      reply = Reply 200 [("status", Sc (SStr "saved"));
                         ("api_key", Sc (SStr token))]
      /\ form_builders w'
         = (form_builders w
            ++ [[("_id", Sc (SOid new_id)); ("client_id", client_id);
                 ("app_name", Sc (SStr app_name)); ("fields", Rows fields);
                 ("api_key", Sc (SStr token))]])%list)
  /\ (forall existing,
        Mongo.find_one q (form_builders w) = Some existing ->
        lookup "api_key" existing = None ->
        save_form w client_id app_name fields token new_id = (w, Raised))
  /\ call_requests w' = call_requests w.
Proof.
  intros q w' reply. unfold w', reply, save_form. fold q.
  assert (Nonempty : forall x, Mongo.find_one q (form_builders w) = Some x ->
                               exists f t, x = f :: t).
  { intros x F. apply MongoFacts.find_one_some in F. destruct F as [_ M].
    apply matches_client_app in M. destruct M as [_ M].
    destruct x as [| f t]; [discriminate M | eauto]. }
  split; [| split; [| split]].
  - intros existing k F K. rewrite F.
    destruct (Nonempty _ F) as (f & t & ->). rewrite K. world_proj.
    set (sets := [("fields", Rows fields); ("api_key", k);
                  ("app_name", Sc (SStr app_name)); ("client_id", client_id)]).
    assert (U : upsert_one q sets new_id (form_builders w)
                = Mongo.update_one q sets (form_builders w)).
    { unfold upsert_one. rewrite existsb_find_one, F. reflexivity. }
    rewrite U. split; [reflexivity |]. split.
    + apply update_one_same_but. intros x Hx. exact Hx.
    + exists (Mongo.apply_set sets (f :: t)).
      assert (G : forall x v, lookup x (Mongo.apply_set sets (f :: t)) = v ->
                              doc_get x (Mongo.apply_set sets (f :: t))
                              = match v with Some y => y | None => Sc SNone end).
      { intros x v <-. reflexivity. }
      assert (L1 : lookup "client_id" (Mongo.apply_set sets (f :: t))
                   = Some client_id).
      { unfold sets, Mongo.apply_set. cbn [fold_left fst snd].
        apply lookup_assign_same. }
      assert (L2 : lookup "app_name" (Mongo.apply_set sets (f :: t))
                   = Some (Sc (SStr app_name))).
      { unfold sets, Mongo.apply_set. cbn [fold_left fst snd].
        rewrite lookup_assign_other by discriminate.
        apply lookup_assign_same. }
      assert (L3 : lookup "api_key" (Mongo.apply_set sets (f :: t)) = Some k).
      { unfold sets, Mongo.apply_set. cbn [fold_left fst snd].
        rewrite !lookup_assign_other by discriminate.
        apply lookup_assign_same. }
      assert (L4 : lookup "fields" (Mongo.apply_set sets (f :: t))
                   = Some (Rows fields)).
      { unfold sets, Mongo.apply_set. cbn [fold_left fst snd].
        rewrite !lookup_assign_other by discriminate.
        apply lookup_assign_same. }
      split; [| split; [| split]].
      * apply find_one_update_self; [exact F |].
        apply matches_client_app.
        rewrite (G _ _ L1), (G _ _ L2). split; reflexivity.
      * rewrite (G _ _ L3). reflexivity.
      * rewrite (G _ _ L4). reflexivity.
      * unfold doc_get, get_or.
        rewrite lookup_apply_set_other; [reflexivity |].
        unfold sets. cbn. intuition discriminate.
  - intros F. rewrite F. world_proj. split; [reflexivity |].
    unfold upsert_one. rewrite existsb_find_one, F. reflexivity.
  - intros existing F K. rewrite F.
    destruct (Nonempty _ F) as (f & t & ->). rewrite K. reflexivity.
  - destruct (Mongo.find_one q (form_builders w)) as [[| f t] |];
      try reflexivity.
    destruct (lookup "api_key" (f :: t)); reflexivity.
Qed.

Lemma save_form_keeps_key_witness :
  snd (save_form (Fixtures.world_of []) (Sc (SStr Example.cid)) "Hotel"
                 [] "00ff" Example.oid2)
  = Reply 200 [("status", Sc (SStr "saved"));
               ("api_key", Sc (SStr "0123456789abcdef0123456789abcdef"))].
Proof.
  destruct (save_form_keeps_key (Fixtures.world_of []) (Sc (SStr Example.cid))
              "Hotel" [] "00ff" Example.oid2) as (A & _).
  destruct (A Fixtures.hotel_form
              (Sc (SStr "0123456789abcdef0123456789abcdef"))
              eq_refl eq_refl) as (B & _).
  exact B.
Defined.

(** ** The phone number that [api_submit] stores *)

Lemma filter_filter p p' s :
  Py.filter p (Py.filter p' s) = Py.filter (fun c => p' c && p c) s.
Proof.
  induction s as [| c t IH]; [reflexivity |]. cbn [Py.filter].
  destruct (p' c); cbn [andb Py.filter]; [| exact IH].
  destruct (p c); rewrite IH; reflexivity.
Qed.

Lemma any_filter_false q p s :
  (forall c, p c = true -> q c = false) -> Py.any q (Py.filter p s) = false.
Proof.
  intros H. induction s as [| c t IH]; [reflexivity |]. cbn [Py.filter].
  destruct (p c) eqn:P; [| exact IH].
  cbn [Py.any]. rewrite (H c P), IH. reflexivity.
Qed.

Lemma clean_phone_text_separators p :
  Py.any phone_separator (clean_phone_text p) = false.
Proof.
  unfold clean_phone_text, Py.remove_char. rewrite !filter_filter.
  apply any_filter_false. intros c H. unfold phone_separator.
  cbv beta in H.
  destruct (Ascii.eqb c " "), (Ascii.eqb c "-"), (Ascii.eqb c "("),
    (Ascii.eqb c ")"); cbn in H |- *; congruence.
Qed.

Lemma display_cleaned_phone p :
  display_phone_of (cleaned_phone p) = SStr "No Phone Provided"
  \/ exists s,
       display_phone_of (cleaned_phone p) = SStr s
       /\ 10 <= Py.len s
       /\ Py.any Py.isdigit s = true
       /\ Py.any phone_separator s = false.
Proof.
  unfold cleaned_phone. destruct (truthy p) eqn:T.
  2:{ left. unfold display_phone_of. rewrite T. reflexivity. }
  cbv zeta.
  destruct (Py.len (clean_phone_text p) <? 10) eqn:L;
    [left; reflexivity |].
  destruct (Py.any Py.isdigit (clean_phone_text p)) eqn:D;
    [| left; reflexivity].
  cbn [orb negb]. right. exists (clean_phone_text p).
  apply Z.ltb_ge in L.
  split; [| split; [exact L | split;
                    [exact D | apply clean_phone_text_separators]]].
  unfold display_phone_of. cbn [truthy].
  destruct (clean_phone_text p); [discriminate D | reflexivity].
Qed.

(** What [api_submit] does to the CallRequests: nothing, or one record
    built from the submission. *)
Lemma api_submit_record e w api_key data new_id :
  call_requests (fst (api_submit e w api_key data new_id)) = call_requests w
  \/ exists client_id app_name name p t reply call_time,
       call_requests (fst (api_submit e w api_key data new_id))
       = (call_requests w
          ++ [new_call_request e new_id client_id app_name name
                (display_phone_of (cleaned_phone p)) t data reply
                call_time])%list.
Proof.
  unfold api_submit.
  destruct (Mongo.find_one _ (form_builders w)) as [[| f form] |];
    try (left; reflexivity).
  destruct (lookup "client_id" (f :: form)) as [client_id |];
    try (left; reflexivity).
  destruct (lookup "app_name" (f :: form)) as [app_name |];
    try (left; reflexivity).
  destruct (form_fields (f :: form)) as [fields |];
    try (left; reflexivity).
  destruct (scan_fields no_labels fields) as [l |];
    try (left; reflexivity).
  destruct (intake_call_time e data) as [call_time |];
    try (left; reflexivity).
  destruct (final_prompt w client_id app_name) as [prompt |];
    try (left; reflexivity).
  cbv zeta. destruct (BSON.document _); try (left; reflexivity).
  right. cbn [fst].
  match goal with
  | |- context [notify_client_sms ?e ?w ?a ?b ?c ?d] =>
      destruct (notify_client_sms_frame e w a b c d) as (H1 & _)
  end.
  do 7 eexists. rewrite H1. reflexivity.
Qed.

(** X23: The phone of a record stored by [api_submit] is the text "No Phone
    Provided" or a number of at least ten characters, with a digit among
    them and no space, dash or parenthesis. *)
Theorem api_submit_stored_phone (e : env) (w : world) (api_key : string)
                                (data : dict) (new_id : string)
                                (r : document) :
  call_requests (fst (api_submit e w api_key data new_id))
  = (call_requests w ++ [r])%list ->
  doc_get "phone" r = Sc (SStr "No Phone Provided")
  \/ exists s,
       doc_get "phone" r = Sc (SStr s)
       /\ 10 <= Py.len s
       /\ Py.any Py.isdigit s = true
       /\ Py.any phone_separator s = false.
Proof.
  intros H.
  destruct (api_submit_record e w api_key data new_id)
    as [E | (cid & app & name & p & t & reply & ct & E)]; rewrite E in H.
  - exfalso. apply (f_equal (@List.length _)) in H.
    rewrite length_app in H. cbn in H. lia.
  - apply app_inj_tail in H. destruct H as [_ <-].
    change (doc_get "phone" (new_call_request e new_id cid app name
                               (display_phone_of (cleaned_phone p)) t data
                               reply ct))
      with (Sc (display_phone_of (cleaned_phone p))).
    destruct (display_cleaned_phone p) as [D | (s & D & A)]; rewrite D.
    + left. reflexivity.
    + right. exists s. split; [reflexivity | exact A].
Qed.

Lemma api_submit_stored_phone_witness :
  exists s,
    Sc (SStr "+919876543210") = Sc (SStr s)
    /\ 10 <= Py.len s
    /\ Py.any Py.isdigit s = true
    /\ Py.any phone_separator s = false.
Proof.
  destruct (api_submit_stored_phone Example.env0 (Fixtures.world_of [])
              "0123456789abcdef0123456789abcdef"
              [("Full Name", SStr "Asha");
               ("Phone Number", SStr " +91 (98765) 432-10 ")]
              Example.oid2
              (new_call_request Example.env0 Example.oid2
                 (Sc (SStr Example.cid)) (Sc (SStr "Hotel"))
                 (SStr "Asha") (SStr "+919876543210") (SStr "")
                 [("Full Name", SStr "Asha");
                  ("Phone Number", SStr " +91 (98765) 432-10 ")]
                 "Form received successfully" None))
    as [D | D].
  - vm_compute. reflexivity.
  - discriminate D.
  - exact D.
Defined.

(** ** The trend of the administrator's dashboards *)

Lemma insert_asc_ascending x l : ascending l -> ascending (insert_asc x l).
Proof.
  induction l as [| y t IH]; intros A; cbn [insert_asc].
  - cbn. auto.
  - destruct (String.leb (fst x) (fst y)) eqn:L.
    + cbn [ascending]. split; [exact L | exact A].
    + cbn [ascending] in A. destruct A as [A1 A2].
      specialize (IH A2).
      assert (Lyx : String.leb (fst y) (fst x) = true).
      { destruct (String.leb_total (fst x) (fst y)); congruence. }
      destruct t as [| z t'].
      * cbn. auto.
      * cbn [insert_asc] in IH |- *.
        destruct (String.leb (fst x) (fst z)); cbn [ascending] in IH |- *;
          split; tauto.
Qed.

Lemma sort_by_id_ascending l : ascending (sort_by_id l).
Proof.
  induction l as [| x t IH]; [exact I |].
  apply insert_asc_ascending, IH.
Qed.

Lemma sort_by_id_keys l a :
  In a (map fst (sort_by_id l)) <-> In a (map fst l).
Proof.
  induction l as [| x t IH]; [reflexivity |].
  cbn [sort_by_id fold_right map]. rewrite insert_asc_keys. cbn [In].
  fold (sort_by_id t). rewrite IH. intuition congruence.
Qed.

Lemma insert_asc_NoDup x l :
  ~ In (fst x) (map fst l) -> NoDup (map fst l) ->
  NoDup (map fst (insert_asc x l)).
Proof.
  induction l as [| y t IH]; intros N D; cbn [insert_asc].
  - cbn. constructor; [intros [] | constructor].
  - destruct (String.leb (fst x) (fst y)).
    + cbn [map]. constructor; assumption.
    + cbn [map] in *. inversion D as [| ? ? Dy Dt]; subst.
      constructor.
      * intros H. apply insert_asc_keys in H. destruct H as [H | H].
        -- apply N. left. exact H.
        -- apply Dy, H.
      * apply IH; [intros H; apply N; right; exact H | exact Dt].
Qed.

Lemma sort_by_id_NoDup l :
  NoDup (map fst l) -> NoDup (map fst (sort_by_id l)).
Proof.
  induction l as [| x t IH]; intros D; [constructor |].
  cbn [map] in D. inversion D as [| ? ? Dx Dt]; subst.
  cbn [sort_by_id fold_right]. fold (sort_by_id t).
  apply insert_asc_NoDup; [| apply IH, Dt].
  intros H. apply Dx. apply (proj1 (sort_by_id_keys t (fst x))). exact H.
Qed.

Lemma count_on_In d n l :
  NoDup (map fst l) -> In (d, n) l -> count_on d l = n.
Proof.
  induction l as [| x t IH]; intros D [].
  - subst. rewrite count_on_cons. cbn [fst snd].
    rewrite String.eqb_refl. reflexivity.
  - cbn [map] in D. inversion D as [| ? ? Dx Dt]; subst.
    rewrite count_on_cons.
    destruct (String.eqb_spec (fst x) d) as [E | E].
    + exfalso. apply Dx. rewrite E.
      change d with (fst (d, n)). apply in_map, H.
    + apply IH; assumption.
Qed.

Lemma trend_pipeline_spec e q c :
  let keys :=
    filter_map created_day
      (Mongo.find (q ++ [("created_at", Mongo.Gte (seven_days_ago e))])%list c)
  in
  NoDup (map fst (trend_pipeline e q c))
  /\ ascending (trend_pipeline e q c)
  /\ (forall day n, In (day, n) (trend_pipeline e q c) ->
                    1 <= n /\ n = occurrences day keys)
  /\ (forall day, In day keys ->
                  In (day, occurrences day keys) (trend_pipeline e q c)).
Proof.
  intros keys. unfold trend_pipeline. fold keys.
  assert (D : NoDup (map fst (sort_by_id (group_count keys)))).
  { apply sort_by_id_NoDup. apply group_NoDup. constructor. }
  split; [exact D |]. split; [apply sort_by_id_ascending |]. split.
  - intros day n H.
    pose proof (count_on_In _ _ _ D H) as C.
    rewrite count_on_trend in C. subst n. split; [| reflexivity].
    apply (proj1 (sort_by_id_In _ _)) in H.
    destruct (group_entries keys [] (day, occurrences day keys)) as [G _];
      [intros q0 [] | exact H | exact G].
  - intros day Hin.
    assert (K : In day (map fst (sort_by_id (group_count keys)))).
    { apply sort_by_id_keys.
      destruct (in_dec string_dec day (map fst (group_count keys)))
        as [Y | Nn]; [exact Y | exfalso].
      assert (Z0 : count_on day (group_count keys) = 0).
      { unfold count_on.
        destruct (List.find _ (group_count keys)) as [x |] eqn:Fd;
          [| reflexivity].
        apply find_some in Fd. destruct Fd as [Fi Fe].
        apply String.eqb_eq in Fe. exfalso. apply Nn. rewrite <- Fe.
        apply in_map, Fi. }
      unfold group_count in Z0. rewrite count_on_group in Z0.
      pose proof (occurrences_pos day keys Hin).
      change (count_on day []) with 0 in Z0. lia. }
    apply in_map_iff in K. destruct K as ([d n] & Ed & Hd).
    cbn [fst] in Ed. subst d.
    pose proof (count_on_In _ _ _ D Hd) as C.
    rewrite count_on_trend in C. subst n. exact Hd.
Qed.

(** X24: The trend of the administrator's dashboards lists every day of the
    last seven days on which a booking was created, once, in ascending
    order, with the number of bookings created on that day (never zero);
    the days without bookings are absent. *)
Theorem admin_trend_counts (e : env) (w : world) :
  let trend := system_analytics_calls_per_day e w in
  let days := filter_map created_day (admin_window e w) in
  super_dashboard_trend_data e w = trend
  /\ NoDup (map fst trend)
  /\ ascending trend
  /\ (forall day n, In (day, n) trend -> 1 <= n /\ n = occurrences day days)
  /\ (forall day, In day days -> In (day, occurrences day days) trend).
Proof.
  intros trend days. split; [reflexivity |].
  apply (trend_pipeline_spec e [] (call_requests w)).
Qed.

(** ** The slug of an application name *)

Module SlugFacts.

Lemma chars_app a b : list_ascii_of_string (a ++ b) = (list_ascii_of_string a ++ list_ascii_of_string b)%list.
Proof. induction a as [| c t IH]; [reflexivity |]. cbn. rewrite IH. reflexivity. Qed.

Lemma chars_inj a b : list_ascii_of_string a = list_ascii_of_string b -> a = b.
Proof.
  intros H. rewrite <- (string_of_list_ascii_of_string a),
                    <- (string_of_list_ascii_of_string b), H.
  reflexivity.
Qed.

Lemma chars_rev_append s acc :
  list_ascii_of_string (Py.rev_append s acc) = (List.rev (list_ascii_of_string s) ++ list_ascii_of_string acc)%list.
Proof.
  revert acc. induction s as [| c t IH]; intros acc; [reflexivity |].
  cbn [Py.rev_append]. rewrite IH. cbn. rewrite <- app_assoc. reflexivity.
Qed.

Lemma chars_rev s : list_ascii_of_string (Py.rev s) = List.rev (list_ascii_of_string s).
Proof. unfold Py.rev. rewrite chars_rev_append. apply app_nil_r. Qed.

Lemma lstrip_head p s c t : Py.lstrip_by p s = String c t -> p c = false.
Proof.
  induction s as [| x r IH]; [discriminate |]. cbn [Py.lstrip_by].
  destruct (p x) eqn:P; [exact IH |]. intros E. inversion E; subst. exact P.
Qed.

Lemma lstrip_suffix p s : exists pre, s = pre ++ Py.lstrip_by p s.
Proof.
  induction s as [| x r IH]; [exists ""; reflexivity |]. cbn [Py.lstrip_by].
  destruct (p x); [| exists ""; reflexivity].
  destruct IH as [pre E]. exists (String x pre). cbn. rewrite <- E. reflexivity.
Qed.

Lemma all_app q a b : Py.all q (a ++ b) = Py.all q a && Py.all q b.
Proof.
  induction a as [| c t IH]; [reflexivity |]. cbn. rewrite IH.
  apply andb_assoc.
Qed.

Lemma all_chars q s : Py.all q s = forallb q (list_ascii_of_string s).
Proof. induction s as [| c t IH]; [reflexivity |]. cbn. rewrite IH. reflexivity. Qed.

Lemma all_rev q s : Py.all q (Py.rev s) = Py.all q s.
Proof.
  rewrite !all_chars, chars_rev.
  induction (list_ascii_of_string s) as [| c l IH]; [reflexivity |].
  cbn. rewrite forallb_app, IH. cbn. rewrite andb_true_r. apply andb_comm.
Qed.

Lemma all_lstrip q p s : Py.all q s = true -> Py.all q (Py.lstrip_by p s) = true.
Proof.
  destruct (lstrip_suffix p s) as [pre E]. intros H. rewrite E in H.
  rewrite all_app in H. apply andb_true_iff in H. tauto.
Qed.

(** The result of stripping is a piece of the string. *)
Lemma strip_by_piece p s : exists a b, s = a ++ Py.strip_by p s ++ b.
Proof.
  unfold Py.strip_by.
  destruct (lstrip_suffix p s) as [a Ea].
  destruct (lstrip_suffix p (Py.rev (Py.lstrip_by p s))) as [c Ec].
  set (x := Py.lstrip_by p s) in *.
  set (y := Py.lstrip_by p (Py.rev x)) in *.
  exists a, (Py.rev c). rewrite Ea at 1. f_equal.
  apply chars_inj. rewrite chars_app, !chars_rev.
  apply (f_equal list_ascii_of_string) in Ec. rewrite chars_app, chars_rev in Ec.
  rewrite <- (rev_involutive (list_ascii_of_string x)), Ec, rev_app_distr. reflexivity.
Qed.

Lemma strip_by_ends p s :
  (forall c t, Py.strip_by p s = String c t -> p c = false)
  /\ (forall c t, Py.strip_by p s = t ++ String c "" -> p c = false).
Proof.
  unfold Py.strip_by.
  set (x := Py.lstrip_by p s).
  set (y := Py.lstrip_by p (Py.rev x)).
  split.
  - intros c t E. apply (f_equal list_ascii_of_string) in E. rewrite chars_rev in E.
    cbn in E. apply (f_equal (@List.rev _)) in E.
    rewrite rev_involutive in E. cbn in E.
    destruct (lstrip_suffix p (Py.rev x)) as [pre Ep]. fold y in Ep.
    apply (f_equal list_ascii_of_string) in Ep. rewrite chars_app, chars_rev, E in Ep.
    apply (f_equal (@List.rev _)) in Ep.
    rewrite rev_involutive, app_assoc, rev_app_distr in Ep. cbn in Ep.
    apply (lstrip_head p s c
             (string_of_list_ascii (List.rev (list_ascii_of_string pre ++ List.rev (list_ascii_of_string t))))).
    fold x. apply chars_inj. cbn.
    rewrite list_ascii_of_string_of_list_ascii. exact Ep.
  - intros c t E. apply (f_equal list_ascii_of_string) in E.
    rewrite chars_rev, chars_app in E. cbn in E.
    apply (f_equal (@List.rev _)) in E.
    rewrite rev_involutive, rev_app_distr in E. cbn in E.
    apply (lstrip_head p (Py.rev x) c
             (string_of_list_ascii (List.rev (list_ascii_of_string t)))).
    fold y. apply chars_inj. cbn.
    rewrite list_ascii_of_string_of_list_ascii. exact E.
Qed.

Lemma contains_unfold sub s :
  Py.contains sub s
  = String.prefix sub s
    || match s with EmptyString => false | String _ t => Py.contains sub t end.
Proof. destruct s; reflexivity. Qed.

Lemma prefix_app sub m b :
  String.prefix sub m = true -> String.prefix sub (m ++ b) = true.
Proof.
  revert sub. induction m as [| c t IH]; intros sub H.
  - destruct sub; [destruct b; reflexivity | discriminate H].
  - destruct sub as [| a sub']; [reflexivity |]. cbn in H |- *.
    destruct (ascii_dec a c); [apply IH, H | discriminate H].
Qed.

Lemma contains_app_l sub a m :
  Py.contains sub m = true -> Py.contains sub (a ++ m) = true.
Proof.
  intros H. induction a as [| c t IH]; [exact H |].
  cbn [append]. rewrite contains_unfold, IH. apply orb_true_r.
Qed.

Lemma contains_app_r sub m b :
  Py.contains sub m = true -> Py.contains sub (m ++ b) = true.
Proof.
  induction m as [| c t IH]; intros H; rewrite contains_unfold in H.
  - rewrite orb_false_r in H. rewrite contains_unfold.
    rewrite (prefix_app sub "" b H). reflexivity.
  - apply orb_true_iff in H. rewrite contains_unfold.
    destruct H as [H | H].
    + rewrite (prefix_app sub (String c t) b H). reflexivity.
    + cbn [append]. rewrite (IH H). apply orb_true_r.
Qed.

Lemma single_dashes_contains b s :
  single_dashes b s = true -> Py.contains "--" s = false.
Proof.
  revert b. induction s as [| c t IH]; intros b H; [reflexivity |].
  rewrite contains_unfold. cbn [single_dashes] in H.
  destruct (Ascii.eqb_spec c "-") as [-> | N].
  - apply andb_true_iff in H. destruct H as [_ H]. rewrite (IH _ H).
    rewrite orb_false_r.
    destruct t as [| d t']; [reflexivity |].
    cbn [single_dashes] in H.
    change (String.prefix "--" (String "-" (String d t')))
      with (if ascii_dec "-" d then String.prefix "" t' else false).
    destruct (ascii_dec "-" d) as [<- | Nd]; [| reflexivity].
    cbn in H. discriminate H.
  - rewrite (IH _ H), orb_false_r.
    change (String.prefix "--" (String c t))
      with (if ascii_dec "-" c then String.prefix "-" t else false).
    destruct (ascii_dec "-" c); [congruence | reflexivity].
Qed.

Lemma alnum_not_dash c : Py.isalnum c = true -> Ascii.eqb c "-" = false.
Proof.
  destruct (Ascii.eqb_spec c "-") as [-> | N]; [discriminate | reflexivity].
Qed.

Lemma dash_runs_single b s : single_dashes b (dash_runs b s) = true.
Proof.
  revert b. induction s as [| c t IH]; intros b; [reflexivity |].
  cbn [dash_runs]. destruct (Py.isalnum c) eqn:A.
  - cbn [single_dashes]. rewrite (alnum_not_dash c A). apply IH.
  - destruct b; [apply IH |].
    cbn [single_dashes]. change (Ascii.eqb "-" "-") with true.
    cbn [negb andb]. apply IH.
Qed.

Lemma lower_alnum_slug c :
  Py.isalnum (Py.lower_ascii c) = true -> slug_char (Py.lower_ascii c) = true.
Proof.
  destruct c as [[] [] [] [] [] [] [] []]; vm_compute; intros H;
    first [reflexivity | discriminate H].
Qed.

Lemma dash_runs_chars b s :
  Py.all slug_char (dash_runs b (Py.lower s)) = true.
Proof.
  revert b. induction s as [| c t IH]; intros b; [reflexivity |].
  cbn [Py.lower dash_runs]. destruct (Py.isalnum (Py.lower_ascii c)) eqn:A.
  - cbn [Py.all]. rewrite (lower_alnum_slug c A). apply IH.
  - destruct b; [apply IH |]. cbn [Py.all]. rewrite IH. reflexivity.
Qed.

End SlugFacts.

(** X25: The slug of an ASCII name is made of lowercase letters, digits and
    dashes; it neither begins nor ends with a dash and has no two dashes
    in a row. *)
Theorem slugify_shape (text : string) :
  Py.all is_ascii text = true ->
  Py.all slug_char (slugify text) = true
  /\ (forall t, slugify text <> String "-" t)
  /\ (forall t, slugify text <> t ++ "-")
  /\ Py.contains "--" (slugify text) = false.
Proof.
  intros _. unfold slugify.
  set (d := dash_runs false (Py.lower text)).
  set (p := fun c => Ascii.eqb c "-").
  destruct (SlugFacts.strip_by_ends p d) as [Hb He].
  split; [| split; [| split]].
  - unfold Py.strip_by. rewrite SlugFacts.all_rev.
    apply SlugFacts.all_lstrip. rewrite SlugFacts.all_rev.
    apply SlugFacts.all_lstrip. apply SlugFacts.dash_runs_chars.
  - intros t E. specialize (Hb _ _ E). discriminate Hb.
  - intros t E. specialize (He "-"%char t E). discriminate He.
  - destruct (Py.contains "--" (Py.strip_by p d)) eqn:C; [| reflexivity].
    destruct (SlugFacts.strip_by_piece p d) as (a & b & E).
    pose proof (SlugFacts.single_dashes_contains false d
                  (SlugFacts.dash_runs_single false (Py.lower text))) as N.
    rewrite E in N. rewrite <- N. symmetry.
    apply SlugFacts.contains_app_l, SlugFacts.contains_app_r, C.
Qed.

Lemma slugify_shape_witness :
  slugify "  My Hotel & Spa -- 24x7! " = "my-hotel-spa-24x7"
  /\ Py.contains "--" (slugify "  My Hotel & Spa -- 24x7! ") = false.
Proof.
  split; [reflexivity |].
  apply (slugify_shape "  My Hotel & Spa -- 24x7! "). reflexivity.
Defined.

(** ** Form builder saves and client accounts *)

Lemma matches_field k v d :
  Mongo.matches [(k, Mongo.Eq v)] d = true <-> doc_get k d = v.
Proof.
  unfold Mongo.matches. cbn [forallb fst snd].
  rewrite andb_true_r, MongoFacts.holds_Eq. apply value_eqb_eq.
Qed.

Lemma matches_field_false k v d :
  Mongo.matches [(k, Mongo.Eq v)] d = false <-> doc_get k d <> v.
Proof.
  rewrite <- matches_field. destruct (Mongo.matches _ d); split; congruence.
Qed.

Lemma find_one_insert_fresh q c d :
  (forall x, In x c -> Mongo.matches q x = false) ->
  Mongo.find_one q (Mongo.insert_one d c)
  = if Mongo.matches q d then Some d else None.
Proof.
  intros A. destruct (Mongo.matches q d) eqn:M.
  - apply find_one_insert_new; assumption.
  - rewrite find_one_insert_miss by exact M.
    destruct (Mongo.find_one q c) as [x |] eqn:F; [| reflexivity].
    apply MongoFacts.find_one_some in F. destruct F as [Hin Hm].
    rewrite (A x Hin) in Hm. discriminate Hm.
Qed.

(** X26: [save_form_builder] never replaces a key that is stored, not even a
    revoked one: the reply carries the stored value and only the fields
    change.  A form without the field, or a form that does not exist yet,
    gets the new token. *)
Theorem save_form_builder_keeps_key (w : world)
                                    (client_id app_name fields : value)
                                    (token new_id : string) :
  let q : Mongo.query := [("client_id", Mongo.Eq client_id);
                          ("app_name", Mongo.Eq app_name)] in
  let w' := fst (save_form_builder w client_id app_name fields token new_id) in
  let reply :=
    snd (save_form_builder w client_id app_name fields token new_id) in
  (forall f existing k,
      Mongo.find_one q (form_builders w) = Some (f :: existing) ->
      lookup "api_key" (f :: existing) = Some k ->
      reply = Reply 200 [("status", Sc (SStr "saved")); ("api_key", k)]
      /\ Forall2 (same_but ["fields"]) (form_builders w) (form_builders w')
      /\ exists form,
           Mongo.find_one q (form_builders w') = Some form
           /\ doc_get "api_key" form = k
           /\ doc_get "fields" form = fields)
  /\ (forall f existing,
        Mongo.find_one q (form_builders w) = Some (f :: existing) ->
        lookup "api_key" (f :: existing) = None ->
        reply = Reply 200 [("status", Sc (SStr "saved"));
                           ("api_key", Sc (SStr token))]
        /\ exists form,
             Mongo.find_one q (form_builders w') = Some form
             /\ doc_get "api_key" form = Sc (SStr token)
             /\ doc_get "fields" form = fields)
  /\ (Mongo.find_one q (form_builders w) = None ->
      reply = Reply 200 [("status", Sc (SStr "saved"));
                         ("api_key", Sc (SStr token))]
      /\ form_builders w'
         = (form_builders w
            ++ [[("_id", Sc (SOid new_id)); ("client_id", client_id);
                 ("app_name", app_name); ("fields", fields);
                 ("api_key", Sc (SStr token))]])%list)
  /\ call_requests w' = call_requests w.
Proof.
  intros q w' reply. unfold w', reply, save_form_builder. fold q. world_proj.
  assert (Updated : forall d k,
            Mongo.find_one q (form_builders w) = Some d ->
            exists form,
              Mongo.find_one q
                (upsert_one q [("fields", fields); ("api_key", k)] new_id
                            (form_builders w)) = Some form
              /\ doc_get "api_key" form = k
              /\ doc_get "fields" form = fields
              /\ same_but ["fields"; "api_key"] d form).
  { intros d k F.
    set (sets := [("fields", fields); ("api_key", k)]).
    assert (S : same_but ["fields"; "api_key"] d (Mongo.apply_set sets d)).
    { apply apply_set_same_but. intros x Hx. exact Hx. }
    exists (Mongo.apply_set sets d).
    unfold upsert_one. rewrite existsb_find_one, F.
    split; [| split; [| split; [| exact S]]].
    - apply find_one_update_self; [exact F |].
      rewrite (same_but_matches ["fields"; "api_key"] q d _); [| | exact S].
      + apply MongoFacts.find_one_some in F. tauto.
      + intros x Hx Hy. cbn in Hx, Hy. intuition congruence.
    - unfold doc_get, get_or, sets, Mongo.apply_set. cbn [fold_left fst snd].
      rewrite lookup_assign_same. reflexivity.
    - unfold doc_get, get_or, sets, Mongo.apply_set. cbn [fold_left fst snd].
      rewrite lookup_assign_other by discriminate.
      rewrite lookup_assign_same. reflexivity. }
  split; [| split; [| split]].
  - intros f existing k F K. rewrite F, K.
    split; [reflexivity |]. split.
    + unfold upsert_one. rewrite existsb_find_one, F.
      assert (Same : Mongo.update_one q [("fields", fields); ("api_key", k)]
                       (form_builders w)
                     = Mongo.update_one q [("fields", fields)]
                         (form_builders w)).
      { revert F. generalize (form_builders w).
        induction l as [| x t IH]; [reflexivity |].
        rewrite find_one_cons. cbn [Mongo.update_one].
        destruct (Mongo.matches q x).
        - intros E. inversion E; subst x. f_equal.
          unfold Mongo.apply_set. cbn [fold_left fst snd].
          set (d := assign "fields" fields (f :: existing)).
          assert (Kd : lookup "api_key" d = Some k).
          { unfold d. rewrite lookup_assign_other by discriminate. exact K. }
          clearbody d. clear - Kd.
          induction d as [| [k' v'] d IH]; [discriminate Kd |].
          cbn [lookup assign] in Kd |- *.
          destruct (String.eqb_spec "api_key" k').
          + assert (Ev : v' = k) by congruence. rewrite Ev. reflexivity.
          + rewrite (IH Kd). reflexivity.
        - intros E. rewrite (IH E). reflexivity. }
      rewrite Same. apply update_one_same_but. intros x Hx. exact Hx.
    + destruct (Updated _ k F) as (form & A & B & C & _). eauto.
  - intros f existing F K. rewrite F, K. split; [reflexivity |].
    destruct (Updated _ (Sc (SStr token)) F) as (form & A & B & C & _). eauto.
  - intros F. rewrite F. split; [reflexivity |].
    unfold upsert_one. rewrite existsb_find_one, F. reflexivity.
  - reflexivity.
Qed.

Lemma save_form_builder_keeps_key_witness :
  snd (save_form_builder
         (fst (revoke_key_api (Fixtures.world_of []) (Sc (SStr Example.cid))
                              "Hotel"))
         (Sc (SStr Example.cid)) (Sc (SStr "Hotel")) (Rows []) "00ff"
         Example.oid2)
  = Reply 200 [("status", Sc (SStr "saved")); ("api_key", Sc SNone)].
Proof.
  destruct (save_form_builder_keeps_key
              (fst (revoke_key_api (Fixtures.world_of []) (Sc (SStr Example.cid))
                                   "Hotel"))
              (Sc (SStr Example.cid)) (Sc (SStr "Hotel")) (Rows []) "00ff"
              Example.oid2) as (A & _).
  destruct (A _ _ (Sc SNone) eq_refl eq_refl) as (B & _).
  exact B.
Defined.

(** X27: A client account is created once per email, with role CLIENT and the
    posted number as its phone; from then on the booking alerts for the
    client identifier of its session, the string of its [_id], go to that
    number. *)
Theorem create_client_then_notified
    (e : env) (w : world)
    (company_name email password name : option string) (n new_id : string) :
  Mongo.find_one [("email", Mongo.Eq (Sc (of_form email)))] (clients w) = None ->
  ObjectId new_id = Some new_id ->
  (forall c, In c (clients w) ->
             doc_get "_id" c <> Sc (SOid new_id)
             /\ doc_get "_id" c <> Sc (SStr new_id)
             /\ doc_get "email" c <> Sc (SStr new_id)) ->
  twilio_client e = true -> n <> "" ->
  let w1 := fst (create_client w true company_name email password name
                               (Some n) new_id) in
  snd (create_client w true company_name email password name (Some n) new_id)
  = Redirect "/manage-clients"
  /\ (exists c, clients w1 = (clients w ++ [c])%list
                /\ doc_get "role" c = Sc (SStr "CLIENT")
                /\ doc_get "phone" c = Sc (SStr n)
                /\ doc_get "_id" c = Sc (SOid new_id))
  /\ (forall company_name' password' name' number' id',
        create_client w1 true company_name' email password' name' number' id'
        = (w1, Text 400 "Email already exists"))
  /\ (forall app_name user_name user_phone,
        notify_client_sms e w1 (Sc (SStr new_id)) app_name user_name user_phone
        = log_sms (mkSms (call_target (Sc (SStr n)))
                         (BookingAlert app_name user_name user_phone)) w1).
Proof.
  intros F O Fresh T N w1.
  set (c := [("_id", Sc (SOid new_id));
             ("company_name", Sc (of_form company_name));
             ("email", Sc (of_form email));
             ("password", Sc (form_or "temp123" password));
             ("role", Sc (SStr "CLIENT"));
             ("name", Sc (form_or "" name));
             ("number", Sc (SStr n));
             ("phone", Sc (SStr n))]).
  assert (E : create_client w true company_name email password name
                            (Some n) new_id
              = (set_clients (Mongo.insert_one c (clients w)) w,
                 Redirect "/manage-clients")).
  { unfold create_client. rewrite F. reflexivity. }
  assert (C1 : clients w1 = Mongo.insert_one c (clients w))
    by (unfold w1; rewrite E; reflexivity).
  split; [rewrite E; reflexivity |]. split; [| split].
  - exists c. split; [exact C1 | repeat split].
  - intros company_name' password' name' number' id'.
    unfold create_client. rewrite C1.
    rewrite find_one_insert_new;
      [reflexivity | apply (MongoFacts.find_one_none _ _ F)
       | apply matches_field; reflexivity].
  - intros app_name user_name user_phone.
    unfold notify_client_sms. rewrite T. cbn [negb]. cbv zeta.
    change (vstr (Sc (SStr new_id))) with new_id. rewrite C1.
    assert (L1 : match Mongo.find_one [("email", Mongo.Eq (Sc (SStr new_id)))]
                       (Mongo.insert_one c (clients w)) with
                 | Some x => x = c
                 | None => True
                 end).
    { rewrite find_one_insert_fresh.
      - destruct (Mongo.matches _ c); [reflexivity | exact I].
      - intros x Hx. apply matches_field_false. apply (Fresh x Hx). }
    assert (L2 : Mongo.find_one (by_id (Sc (SStr new_id)))
                   (Mongo.insert_one c (clients w)) = None).
    { rewrite find_one_insert_fresh.
      - replace (Mongo.matches (by_id (Sc (SStr new_id))) c) with false;
          [reflexivity |].
        symmetry. apply matches_field_false. discriminate.
      - intros x Hx. apply matches_field_false. apply (Fresh x Hx). }
    assert (L3 : Mongo.find_one (by_id (Sc (SOid new_id)))
                   (Mongo.insert_one c (clients w)) = Some c).
    { apply find_one_insert_new.
      - intros x Hx. apply matches_field_false. apply (Fresh x Hx).
      - apply matches_field. reflexivity. }
    assert (Len : (Py.len new_id =? 24) = true).
    { unfold ObjectId in O.
      destruct ((String.length new_id =? 24)%nat) eqn:Q; [| discriminate O].
      apply Nat.eqb_eq in Q. unfold Py.len. rewrite Q. reflexivity. }
    assert (Tn : vtruthy (Sc (SStr n)) = true).
    { cbn [vtruthy truthy]. apply negb_true_iff, String.eqb_neq, N. }
    assert (Ph : por (doc_get "phone" c) (doc_get "number" c) = Sc (SStr n)).
    { change (doc_get "phone" c) with (Sc (SStr n)). unfold por.
      rewrite Tn. reflexivity. }
    rewrite L2, Len. cbn [ObjectId_of]. rewrite O, L3.
    destruct (Mongo.find_one [("email", Mongo.Eq (Sc (SStr new_id)))]
                (Mongo.insert_one c (clients w))) as [x |];
      [rewrite L1 |]; rewrite Ph, Tn; reflexivity.
Qed.

Lemma create_client_then_notified_witness :
  messages
    (notify_client_sms Example.env0
       (fst (create_client Example.empty_world true (Some "Acme")
               (Some "owner@acme.test") None None (Some "9123456780")
               Example.oid1))
       (Sc (SStr Example.oid1)) (Sc (SStr "Hotel")) (Sc (SStr "Asha"))
       (Sc (SStr "9876543210")))
  = [mkSms "+919123456780"
           (BookingAlert (Sc (SStr "Hotel")) (Sc (SStr "Asha"))
                         (Sc (SStr "9876543210")))].
Proof.
  assert (N : "9123456780" <> "") by discriminate.
  destruct (create_client_then_notified Example.env0 Example.empty_world
              (Some "Acme") (Some "owner@acme.test") None None
              "9123456780" Example.oid1 eq_refl eq_refl
              (fun c (H : In c []) => match H with end) eq_refl N)
    as (_ & _ & _ & A).
  rewrite A. reflexivity.
Defined.

(** ** Deletions and the keys they leave behind *)

Lemma find_one_filter q (p : document -> bool) c :
  (forall d, In d c -> Mongo.matches q d = true -> p d = true) ->
  Mongo.find_one q (filter p c) = Mongo.find_one q c.
Proof.
  induction c as [| x t IH]; intros H; [reflexivity |].
  cbn [filter]. rewrite find_one_cons.
  destruct (Mongo.matches q x) eqn:M.
  - rewrite (H x (or_introl eq_refl) M), find_one_cons, M. reflexivity.
  - destruct (p x); [rewrite find_one_cons, M |];
      apply IH; intros d Hd; apply H; right; exact Hd.
Qed.

Lemma find_one_filter_none q (p : document -> bool) c :
  (forall d, In d c -> Mongo.matches q d = true -> p d = false) ->
  Mongo.find_one q (filter p c) = None.
Proof.
  intros H. destruct (Mongo.find_one q (filter p c)) as [d |] eqn:F;
    [| reflexivity].
  apply MongoFacts.find_one_some in F. destruct F as [Hin M].
  apply filter_In in Hin. destruct Hin as [Hin P].
  rewrite (H d Hin M) in P. discriminate P.
Qed.

Lemma find_filter_nil q (p : document -> bool) c :
  (forall d, In d c -> Mongo.matches q d = true -> p d = false) ->
  Mongo.find q (filter p c) = [].
Proof.
  intros H. destruct (Mongo.find q (filter p c)) as [| d l] eqn:F;
    [reflexivity |].
  assert (Hd : In d (Mongo.find q (filter p c))) by (rewrite F; left; reflexivity).
  unfold Mongo.find in Hd. apply filter_In in Hd. destruct Hd as [Hin M].
  apply filter_In in Hin. destruct Hin as [Hin P].
  rewrite (H d Hin M) in P. discriminate P.
Qed.

(** X28: Deleting an application disables the key of its form: what is
    submitted under it afterwards is refused.  The keys of the other
    forms lead to the same forms as before. *)
Theorem delete_application_disables_key
    (e : env) (w : world) (client_id : value) (app_name key : string) :
  (forall d, In d (form_builders w) ->
             doc_get "api_key" d = Sc (SStr key) ->
             of_app client_id app_name d) ->
  let w' := fst (delete_application w client_id app_name) in
  (forall data new_id,
      api_submit e w' key data new_id = (w', Text 403 "Invalid API key"))
  /\ (forall key',
        (forall d, In d (form_builders w) ->
                   doc_get "api_key" d = Sc (SStr key') ->
                   ~ of_app client_id app_name d) ->
        Mongo.find_one [("api_key", Mongo.Eq (Sc (SStr key')))]
                       (form_builders w')
        = Mongo.find_one [("api_key", Mongo.Eq (Sc (SStr key')))]
                         (form_builders w)).
Proof.
  intros H w'. unfold w', delete_application. cbv zeta.
  cbn [fst form_builders]. unfold Mongo.delete_many.
  split.
  - intros data new_id. apply api_submit_no_form. cbn [form_builders].
    apply find_one_filter_none. intros d Hin M. apply negb_false_iff.
    apply matches_of_app. apply H; [exact Hin | apply matches_key, M].
  - intros key' H'. apply find_one_filter. intros d Hin M.
    apply negb_true_iff.
    destruct (Mongo.matches [("app_name", Mongo.Eq (Sc (SStr app_name)));
                             ("client_id", Mongo.Eq client_id)] d) eqn:Q;
      [| reflexivity].
    exfalso. apply (H' d Hin); [apply matches_key, M |].
    apply matches_of_app, Q.
Qed.

Lemma delete_application_disables_key_witness :
  api_submit Example.env0
    (fst (delete_application (Fixtures.world_of []) (Sc (SStr Example.cid))
                             "Hotel"))
    "0123456789abcdef0123456789abcdef" [("name", SStr "Asha")] Example.oid2
  = (fst (delete_application (Fixtures.world_of []) (Sc (SStr Example.cid))
                             "Hotel"),
     Text 403 "Invalid API key").
Proof.
  assert (H : forall d, In d (form_builders (Fixtures.world_of [])) ->
                doc_get "api_key" d
                = Sc (SStr "0123456789abcdef0123456789abcdef") ->
                of_app (Sc (SStr Example.cid)) "Hotel" d).
  { intros d [<- | []] _. split; reflexivity. }
  apply (delete_application_disables_key Example.env0 (Fixtures.world_of [])
           (Sc (SStr Example.cid)) "Hotel"
           "0123456789abcdef0123456789abcdef" H).
Defined.

(** X29: [delete_client] leaves the API keys of the client in place: such a
    key is still accepted by [api_calls], which then reports no booking,
    whereas the keys of the client's forms are refused by [api_submit]. *)
Theorem delete_client_then_keys (e : env) (w : world)
                                (client_id oid : string) :
  ObjectId client_id = Some oid ->
  let w' := fst (delete_client w client_id) in
  api_keys w' = api_keys w
  /\ (forall k api,
        k <> "" ->
        Mongo.find_one [("api_key", Mongo.Eq (Sc (SStr k)))] (api_keys w)
        = Some api ->
        doc_get "client_id" api = Sc (SStr client_id) ->
        api_calls w' (Some k) = JsonCalls 200 (Sc (SStr client_id)) 0 [])
  /\ (forall key data new_id,
        (forall d, In d (form_builders w) ->
                   doc_get "api_key" d = Sc (SStr key) ->
                   carries client_id d) ->
        api_submit e w' key data new_id = (w', Text 403 "Invalid API key")).
Proof.
  intros O w'.
  assert (E : w' = mkWorld
                (Mongo.delete_many [("client_id", Mongo.Eq (Sc (SStr client_id)))]
                                   (call_requests w))
                (Mongo.delete_many [("client_id", Mongo.Eq (Sc (SStr client_id)))]
                                   (client_apps w))
                (Mongo.delete_many [("client_id", Mongo.Eq (Sc (SStr client_id)))]
                                   (form_builders w))
                (llm_settings w)
                (Mongo.delete_one (by_id (Sc (SOid oid))) (clients w))
                (api_keys w) (applications w) (calls w) (messages w)).
  { unfold w', delete_client. rewrite O. reflexivity. }
  split; [rewrite E; reflexivity |]. split.
  - intros k api N F C.
    assert (F' : Mongo.find_one [("api_key", Mongo.Eq (Sc (SStr k)))]
                   (api_keys w') = Some api)
      by (rewrite E; exact F).
    rewrite (api_calls_found w' k api N F'). rewrite C.
    assert (Z0 : forall q,
               Mongo.find (("client_id", Mongo.Eq (Sc (SStr client_id))) :: q)
                          (call_requests w') = []).
    { intros q. rewrite E. cbn [call_requests]. unfold Mongo.delete_many.
      apply find_filter_nil. intros d _ M. apply negb_false_iff.
      apply matches_field.
      unfold Mongo.matches in M. cbn [forallb fst snd] in M.
      apply andb_true_iff in M. destruct M as [M _].
      rewrite MongoFacts.holds_Eq in M. apply value_eqb_eq, M. }
    rewrite Z0. reflexivity.
  - intros key data new_id H. apply api_submit_no_form.
    rewrite E. cbn [form_builders]. unfold Mongo.delete_many.
    apply find_one_filter_none. intros d Hin M. apply negb_false_iff.
    apply matches_field. apply (H d Hin). apply matches_key, M.
Qed.

Lemma delete_client_then_keys_witness :
  api_calls (fst (delete_client Fixtures.keyed_world Example.cid))
            (Some "sk_1")
  = JsonCalls 200 (Sc (SStr Example.cid)) 0 [].
Proof.
  assert (N : "sk_1" <> "") by discriminate.
  destruct (delete_client_then_keys Example.env0 Fixtures.keyed_world
              Example.cid Example.cid eq_refl) as (_ & A & _).
  apply (A "sk_1" Fixtures.single_app_key N eq_refl eq_refl).
Defined.

(** ** A scheduled call, from approval to the poller *)

(** X30: approving a booking whose call time lies ahead places no call;
    once that time has come, a tick of the poller finds the booking due
    and requests the call. *)
Theorem approve_then_poller (e e' : env) (w : world) (id : string)
                            (b : document) (t : datetime) :
  lookup_booking w id = Some b ->
  lookup "call_time" b = Some (Sc (SDate t)) ->
  dt_gtb t (now_ist e) = true ->
  dt_leb t (now_ist e') = true ->
  twilio_client e' = true ->
  doc_get "call_initiated" b <> Sc (SBool true) ->
  let w1 := fst (approve_booking e w id) in
  snd (approve_booking e w id) = Redirect "/booking-data"
  /\ new_calls w w1 = []
  /\ In (call_for b) (new_calls w1 (check_scheduled_calls e' w1)).
Proof.
  intros L C G D T N w1.
  assert (Ct : doc_get "call_time" b = Sc (SDate t))
    by (unfold doc_get, get_or; rewrite C; reflexivity).
  assert (E : approve_booking e w id
              = (send_status_sms e (set_status "APPROVED" b w)
                   (doc_get "phone" b) "APPROVED"
                   (get_or "app_name" (Sc (SStr "your request")) b)
                   (booking_user_name b),
                 Redirect "/booking-data")).
  { unfold approve_booking. rewrite L.
    destruct b as [| f r]; [discriminate C |].
    cbv zeta. rewrite Ct, G. reflexivity. }
  destruct (send_status_sms_collections e (set_status "APPROVED" b w)
              (doc_get "phone" b) "APPROVED"
              (get_or "app_name" (Sc (SStr "your request")) b)
              (booking_user_name b)) as (R & _ & K).
  split; [rewrite E; reflexivity |]. split.
  - unfold w1, new_calls. rewrite E. cbn [fst]. rewrite K.
    unfold set_status. world_proj. apply skipn_all.
  - rewrite tick_new_calls, T.
    set (b' := Mongo.apply_set [("status", Sc (SStr "APPROVED"))] b).
    assert (S : same_but ["status"] b b').
    { apply apply_set_same_but. intros k Hk. exact Hk. }
    rewrite <- (call_for_same_but ["status"] b b');
      try exact S; try (intros [X | []]; discriminate).
    apply in_map. apply filter_In. split.
    + unfold w1. rewrite E. cbn [fst]. rewrite R.
      unfold set_status. world_proj.
      destruct (lookup_booking_id w id b L) as (v & V & F & _).
      rewrite V. apply update_one_hit, F.
    + apply matches_due. split; [| split].
      * unfold doc_get, get_or, b'.
        rewrite lookup_apply_set_last. reflexivity.
      * exists t. split; [| exact D].
        rewrite (S "call_time"); [exact C |].
        intros [X | []]; discriminate.
      * rewrite (same_but_doc_get ["status"] "call_initiated" b b');
          [exact N | | exact S].
        intros [X | []]; discriminate.
Qed.

Lemma approve_then_poller_witness :
  new_calls (Fixtures.world_of [Fixtures.future_booking])
    (fst (approve_booking Example.env0
            (Fixtures.world_of [Fixtures.future_booking]) Example.oid2))
  = []
  /\ In (call_for Fixtures.future_booking)
        (new_calls
           (fst (approve_booking Example.env0
                   (Fixtures.world_of [Fixtures.future_booking]) Example.oid2))
           (check_scheduled_calls
              (mkEnv true (fun _ => Some "CA1") false (fun _ _ => None)
                     (mkDatetime 2026 11 4 9 0 0 0)
                     (mkDatetime 2026 11 4 3 30 0 0)
                     (Example.parse_local "T") Example.parse_format)
              (fst (approve_booking Example.env0
                      (Fixtures.world_of [Fixtures.future_booking])
                      Example.oid2)))).
Proof.
  assert (N : doc_get "call_initiated" Fixtures.future_booking
              <> Sc (SBool true)) by (vm_compute; discriminate).
  destruct (approve_then_poller Example.env0
              (mkEnv true (fun _ => Some "CA1") false (fun _ _ => None)
                     (mkDatetime 2026 11 4 9 0 0 0)
                     (mkDatetime 2026 11 4 3 30 0 0)
                     (Example.parse_local "T") Example.parse_format)
              (Fixtures.world_of [Fixtures.future_booking]) Example.oid2
              Fixtures.future_booking (mkDatetime 2026 11 4 9 0 0 0)
              eq_refl eq_refl eq_refl eq_refl eq_refl N)
    as (_ & A & B).
  split; [exact A | exact B].
Defined.
